(** * newscout_web frontend: Group, Bookmark and SubscriptionDetail views

    A shallow embedding of the three React components
      - [frontend/src/app/DashboardApp/Group.js]
      - [frontend/src/app/NewsApp/Bookmark.js]
      - [frontend/src/app/DashboardApp/SubscriptionDetails.js]
    Every component is a state machine: [this.state] together with the
    part of the browser it acts on (requests in flight, toasts, timers,
    cookies, the location) is a record, every handler is a function on
    that record, and the browser delivers user events, responses and
    timeouts through [step].  A handler that stops at a TypeError ends in
    [Threw], with what it had changed by then.

    Objects that are shared are kept by address: the rows of the group
    list and the form fields (which [editRow] makes one object), the
    posts of the bookmark list (which [indexOf] compares by identity),
    and the module-level [article_array] that [bookmark_ids] aliases.

    The modules [JS], [Group], [Bookmark] and [SubscriptionDetail] hold
    the embedding; [GroupSpec] and [BookmarkSpec] the notions the
    properties are stated with; the [...Props] modules the proofs. *)

From Stdlib Require Import ZArith Lia Ascii.
From stdpp Require Import base option list strings gmap pretty.

Set Warnings "-register-all".

(** ** JavaScript values *)

Module JS.

(** JSON-shaped values.  Numbers are the integers (ids, counters); NaN and
    fractions do not occur in the handlers.  An object is the list of its
    own properties in insertion order. *)
Inductive jsval : Type :=
| JUndef
| JNull
| JBool (b : bool)
| JNum (n : Z)
| JStr (s : string)
| JArr (l : list jsval)
| JObj (o : list (string * jsval)).

Definition obj : Type := list (string * jsval).

(** ToBoolean: what [if (v)], [!v] and [v ? a : b] test. *)
Definition truthy (v : jsval) : bool :=
  match v with
  | JUndef | JNull => false
  | JBool b => b
  | JNum n => negb (n =? 0)%Z
  | JStr s => negb (String.eqb s "")
  | JArr _ | JObj _ => true
  end.

(** [o[k]] on an object: the property, [undefined] when it has none. *)
Fixpoint assoc (k : string) (o : obj) : jsval :=
  match o with
  | [] => JUndef
  | (k', v) :: o' => if String.eqb k k' then v else assoc k o'
  end.

(** [o[k] = v] on an object: overwrite in place, or add as last property. *)
Fixpoint assoc_set (k : string) (v : jsval) (o : obj) : obj :=
  match o with
  | [] => [(k, v)]
  | (k', v') :: o' =>
      if String.eqb k k' then (k, v) :: o' else (k', v') :: assoc_set k v o'
  end.

(** [v.k] / [v[k]] for the property names the handlers read: a TypeError
    ([None]) on [undefined] and [null], [undefined] on the other values
    that are not objects (none of the names read is a built-in property of
    a string, a number or an array). *)
Definition get (v : jsval) (k : string) : option jsval :=
  match v with
  | JUndef | JNull => None
  | JObj o => Some (assoc k o)
  | JBool _ | JNum _ | JStr _ | JArr _ => Some JUndef
  end.

(** The receiver of [.map(...)]: only an array has that method. *)
Definition as_array (v : jsval) : option (list jsval) :=
  match v with
  | JArr l => Some l
  | _ => None
  end.

Definition isArray (v : jsval) : bool :=
  match v with
  | JArr _ => true
  | _ => false
  end.

Definition chars (s : string) : list jsval :=
  map (fun c => JStr (String c EmptyString)) (String.list_ascii_of_string s).

(** The operand of a spread [...v]: the elements of an array, the
    characters of a string, a TypeError on anything else. *)
Definition spread (v : jsval) : option (list jsval) :=
  match v with
  | JArr l => Some l
  | JStr s => Some (chars s)
  | _ => None
  end.

Definition join (sep : string) (l : list string) : string :=
  match l with
  | [] => ""
  | x :: r => fold_left (fun acc y => acc +:+ sep +:+ y) r x
  end.

(** ToString, as string concatenation ([url + id + "/"]) and property
    keys ([rows[id]]) apply it, on the values that ids, slugs and cookies
    take: an integer is printed in decimal, as the language does below
    10^21, and an object as one without an own [toString] property.
    [ToString] below is the conversion on every value. *)
Fixpoint to_string (v : jsval) : string :=
  match v with
  | JUndef => "undefined"
  | JNull => "null"
  | JBool true => "true"
  | JBool false => "false"
  | JNum n => pretty n
  | JStr s => s
  | JArr l =>
      join ","
        ((fix elems (l : list jsval) : list string :=
            match l with
            | [] => []
            | x :: r =>
                match x with
                | JUndef | JNull => ""
                | _ => to_string x
                end :: elems r
            end) l)
  | JObj _ => "[object Object]"
  end.

(** The object has an own property [k]. *)
Definition has_own (k : string) (o : obj) : bool :=
  existsb (fun p => String.eqb k (fst p)) o.

(** ToString on every value; [number_to_string] is Number::toString of
    the language.  A value parsed from JSON holds no function, so an own
    [toString] property of an object hides [Object.prototype.toString]
    and is not callable, and [valueOf], own or inherited, gives no
    primitive: the conversion raises a TypeError ([None]).  Every other
    object gives "[object Object]".  An array is joined with commas,
    [null] and [undefined] elements giving the empty string, and raises
    when one of its elements does. *)
Fixpoint ToString (number_to_string : Z -> string) (v : jsval) : option string :=
  match v with
  | JUndef => Some "undefined"
  | JNull => Some "null"
  | JBool true => Some "true"
  | JBool false => Some "false"
  | JNum n => Some (number_to_string n)
  | JStr s => Some s
  | JArr l =>
      match
        (fix elems (l : list jsval) : option (list string) :=
           match l with
           | [] => Some []
           | x :: r =>
               match
                 match x with
                 | JUndef | JNull => Some ""
                 | _ => ToString number_to_string x
                 end
               with
               | None => None
               | Some sx =>
                   match elems r with
                   | None => None
                   | Some sr => Some (sx :: sr)
                   end
               end
           end) l
      with
      | None => None
      | Some strs => Some (join "," strs)
      end
  | JObj o => if has_own "toString" o then None else Some "[object Object]"
  end.

(** What [join] makes of one element of an array. *)
Definition element_string (number_to_string : Z -> string) (x : jsval)
    : option string :=
  match x with
  | JUndef | JNull => Some ""
  | _ => ToString number_to_string x
  end.

(** The values an id takes: a string, or an integer that the language
    prints in decimal.  On these [to_string] is ToString. *)
Definition is_key (v : jsval) : bool :=
  match v with
  | JStr _ => true
  | JNum n => (Z.abs n <? 10 ^ 21)%Z
  | _ => false
  end.

(** [v == "success"]: a string compares by value; an array or object is
    first turned into its primitive, which is its string, and the
    comparison raises the TypeError of that conversion ([None]); a number
    or boolean is compared with ToNumber("success"), which is NaN, so
    never equal; [undefined] and [null] only equal each other. *)
Definition loose_eq_success (number_to_string : Z -> string) (v : jsval)
    : option bool :=
  match v with
  | JStr s => Some (String.eqb s "success")
  | JArr _ | JObj _ =>
      match ToString number_to_string v with
      | Some str => Some (String.eqb str "success")
      | None => None
      end
  | JUndef | JNull | JBool _ | JNum _ => Some false
  end.

(** [v != null]. *)
Definition not_nullish (v : jsval) : bool :=
  match v with
  | JUndef | JNull => false
  | _ => true
  end.

(** [v !== null]. *)
Definition not_null (v : jsval) : bool :=
  match v with
  | JNull => false
  | _ => true
  end.

(** [a || b]. *)
Definition or_else (a b : jsval) : jsval := if truthy a then a else b.

(** The [{value, label, name}] option object the selects work with. *)
Definition option_dict (value name : jsval) : jsval :=
  JObj [("value", value); ("label", name); ("name", name)].

End JS.

(** ** Group.js: the dashboard's list of groups *)

Module Group.
Import JS.

Inductive method : Type := GET | POST | PUT | DELETE.

(** The response handlers a request is issued with. *)
Inductive callback : Type :=
| cb_getGroupsData
| cb_getCampaignCategories
| cb_groupSubmitResponse
| cb_groupUpdateResponse
| cb_deleteGroupResponse.

(** Which function issued a request: a label of the model, not data of
    the program. *)
Inductive issuer : Type :=
| by_getGroups
| by_handleKeyPress
| by_getNext
| by_componentDidMount
| by_groupSubmit
| by_submitRow
| by_deleteRow.

(** A row element of [#group-table]: [tr_key] is the identity of the DOM
    node, [data_row] its [data-row] attribute (the header row has none). *)
Record tr : Type := Tr { tr_key : nat; data_row : option string }.

(** The [extra_data] a request carries to its handler:
    [{clean_results: b}], or the row element [deleteRow] found. *)
Inductive extra_data : Type :=
| no_extra
| clean_results (b : bool)
| row_element (findrow : option tr).

(** A request handed to the transport and not yet answered.  The body is
    the value that [JSON.stringify] serialises; every request of this
    component carries the same [authHeaders]. *)
Record request : Type := Request {
  r_method : method;
  r_url : jsval;
  r_body : option jsval;
  r_callback : callback;
  r_extra : extra_data;
  r_issuer : issuer
}.

(** A toast: the message and the level argument, when one was given. *)
Record toast : Type := Toast { t_message : jsval; t_level : option string }.

(** The two callbacks this component hands to [setTimeout]. *)
Inductive timer_action : Type :=
| close_modal_and_reload (clean : bool)
| fade_out_row (findrow : option tr).

Record timer : Type := Timer { t_delay : Z; t_action : timer_action }.

(** [this.state] (from [modal] to [page]) and the browser around it.
    [results] holds the addresses of the row objects in [heap], [fields]
    the address of the object [this.state.fields] refers to: [editRow]
    makes both name one object.  [isSideOpen], [isChecked] and [username]
    only feed the menu and the theme; they are left out, and with them
    [isSideBarToogle], [toggleSwitch] and [getTheme], which set nothing
    but those two flags, their cookies and the stylesheet link. *)
Record state : Type := State {
  modal : bool;
  fields : nat;
  errors : gmap string string;
  rows : gmap string bool;
  formSuccess : bool;
  categories : list jsval;
  campaigns : list jsval;
  results : list nat;
  next : jsval;
  previous : jsval;
  loading : bool;
  q : string;
  page : Z;
  heap : list jsval;
  net : list request;
  toasts : list toast;
  timers : list timer;
  reloads : nat;
  table : list tr
}.

Definition set_modal (v : bool) (s : state) : state :=
  State v (fields s) (errors s) (rows s) (formSuccess s) (categories s)
    (campaigns s) (results s) (next s) (previous s) (loading s) (q s) (page s)
    (heap s) (net s) (toasts s) (timers s) (reloads s) (table s).

Definition set_fields (v : nat) (s : state) : state :=
  State (modal s) v (errors s) (rows s) (formSuccess s) (categories s)
    (campaigns s) (results s) (next s) (previous s) (loading s) (q s) (page s)
    (heap s) (net s) (toasts s) (timers s) (reloads s) (table s).

Definition set_errors (v : gmap string string) (s : state) : state :=
  State (modal s) (fields s) v (rows s) (formSuccess s) (categories s)
    (campaigns s) (results s) (next s) (previous s) (loading s) (q s) (page s)
    (heap s) (net s) (toasts s) (timers s) (reloads s) (table s).

Definition set_rows (v : gmap string bool) (s : state) : state :=
  State (modal s) (fields s) (errors s) v (formSuccess s) (categories s)
    (campaigns s) (results s) (next s) (previous s) (loading s) (q s) (page s)
    (heap s) (net s) (toasts s) (timers s) (reloads s) (table s).

Definition set_formSuccess (v : bool) (s : state) : state :=
  State (modal s) (fields s) (errors s) (rows s) v (categories s) (campaigns
    s) (results s) (next s) (previous s) (loading s) (q s) (page s) (heap s)
    (net s) (toasts s) (timers s) (reloads s) (table s).

Definition set_categories (v : list jsval) (s : state) : state :=
  State (modal s) (fields s) (errors s) (rows s) (formSuccess s) v
    (campaigns s) (results s) (next s) (previous s) (loading s) (q s) (page s)
    (heap s) (net s) (toasts s) (timers s) (reloads s) (table s).

Definition set_campaigns (v : list jsval) (s : state) : state :=
  State (modal s) (fields s) (errors s) (rows s) (formSuccess s) (categories
    s) v (results s) (next s) (previous s) (loading s) (q s) (page s) (heap s)
    (net s) (toasts s) (timers s) (reloads s) (table s).

Definition set_results (v : list nat) (s : state) : state :=
  State (modal s) (fields s) (errors s) (rows s) (formSuccess s) (categories
    s) (campaigns s) v (next s) (previous s) (loading s) (q s) (page s) (heap
    s) (net s) (toasts s) (timers s) (reloads s) (table s).

Definition set_next (v : jsval) (s : state) : state :=
  State (modal s) (fields s) (errors s) (rows s) (formSuccess s) (categories
    s) (campaigns s) (results s) v (previous s) (loading s) (q s) (page s)
    (heap s) (net s) (toasts s) (timers s) (reloads s) (table s).

Definition set_previous (v : jsval) (s : state) : state :=
  State (modal s) (fields s) (errors s) (rows s) (formSuccess s) (categories
    s) (campaigns s) (results s) (next s) v (loading s) (q s) (page s) (heap
    s) (net s) (toasts s) (timers s) (reloads s) (table s).

Definition set_loading (v : bool) (s : state) : state :=
  State (modal s) (fields s) (errors s) (rows s) (formSuccess s) (categories
    s) (campaigns s) (results s) (next s) (previous s) v (q s) (page s) (heap
    s) (net s) (toasts s) (timers s) (reloads s) (table s).

Definition set_q (v : string) (s : state) : state :=
  State (modal s) (fields s) (errors s) (rows s) (formSuccess s) (categories
    s) (campaigns s) (results s) (next s) (previous s) (loading s) v (page s)
    (heap s) (net s) (toasts s) (timers s) (reloads s) (table s).

Definition set_page (v : Z) (s : state) : state :=
  State (modal s) (fields s) (errors s) (rows s) (formSuccess s) (categories
    s) (campaigns s) (results s) (next s) (previous s) (loading s) (q s) v
    (heap s) (net s) (toasts s) (timers s) (reloads s) (table s).

Definition set_heap (v : list jsval) (s : state) : state :=
  State (modal s) (fields s) (errors s) (rows s) (formSuccess s) (categories
    s) (campaigns s) (results s) (next s) (previous s) (loading s) (q s) (page
    s) v (net s) (toasts s) (timers s) (reloads s) (table s).

Definition set_net (v : list request) (s : state) : state :=
  State (modal s) (fields s) (errors s) (rows s) (formSuccess s) (categories
    s) (campaigns s) (results s) (next s) (previous s) (loading s) (q s) (page
    s) (heap s) v (toasts s) (timers s) (reloads s) (table s).

Definition set_toasts (v : list toast) (s : state) : state :=
  State (modal s) (fields s) (errors s) (rows s) (formSuccess s) (categories
    s) (campaigns s) (results s) (next s) (previous s) (loading s) (q s) (page
    s) (heap s) (net s) v (timers s) (reloads s) (table s).

Definition set_timers (v : list timer) (s : state) : state :=
  State (modal s) (fields s) (errors s) (rows s) (formSuccess s) (categories
    s) (campaigns s) (results s) (next s) (previous s) (loading s) (q s) (page
    s) (heap s) (net s) (toasts s) v (reloads s) (table s).

Definition set_reloads (v : nat) (s : state) : state :=
  State (modal s) (fields s) (errors s) (rows s) (formSuccess s) (categories
    s) (campaigns s) (results s) (next s) (previous s) (loading s) (q s) (page
    s) (heap s) (net s) (toasts s) (timers s) v (table s).

Definition set_table (v : list tr) (s : state) : state :=
  State (modal s) (fields s) (errors s) (rows s) (formSuccess s) (categories
    s) (campaigns s) (results s) (next s) (previous s) (loading s) (q s) (page
    s) (heap s) (net s) (toasts s) (timers s) (reloads s) v.

(** What a handler leaves behind: it ran to its end, or it stopped at a
    TypeError with the state it had reached by then. *)
Inductive outcome : Type :=
| Done (s : state)
| Threw (s : state).

Definition state_of (o : outcome) : state :=
  match o with
  | Done s => s
  | Threw s => s
  end.

Definition returned (o : outcome) : bool :=
  match o with
  | Done _ => true
  | Threw _ => false
  end.

(** *** The transport, the notifier and the timers *)

(** Modelled from the spec: [getRequest] of [utils/Utils], which is not
    among the source files.  The transport contract is
    [GET(url, onSuccess(body), headers?)]: the call hands one GET to the
    network and returns; [callback] runs when the response arrives. *)
Definition getRequest (url : jsval) (cb : callback) (who : issuer)
    (s : state) : state :=
  set_net (net s ++ [Request GET url None cb no_extra who]) s.

(** Modelled from the spec: [postRequest] and [putRequest] of
    [utils/Utils], [POST/PUT(url, body, onSuccess(body, extra?), method,
    headers, extra?)]: one request with the given method, whose handler
    receives [extra] back. *)
Definition postRequest (url body : jsval) (cb : callback) (m : method)
    (extra : extra_data) (who : issuer) (s : state) : state :=
  set_net (net s ++ [Request m url (Some body) cb extra who]) s.

Definition putRequest (url body : jsval) (cb : callback) (m : method)
    (extra : extra_data) (who : issuer) (s : state) : state :=
  set_net (net s ++ [Request m url (Some body) cb extra who]) s.

(** Modelled from the spec: [deleteRequest] of [utils/Utils],
    [DELETE(url, onSuccess(body, extra?), headers, extra?)]. *)
Definition deleteRequest (url : jsval) (cb : callback) (extra : extra_data)
    (who : issuer) (s : state) : state :=
  set_net (net s ++ [Request DELETE url None cb extra who]) s.

(** Modelled from the spec: [notify] of [utils/Utils],
    [notify(message, level = "success"|"error")]: one toast. *)
Definition notify (message : jsval) (level : option string) (s : state) : state :=
  set_toasts (toasts s ++ [Toast message level]) s.

(** The level a toast is shown at: the contract's default is the first
    of its two levels. *)
Definition level_of (t : toast) : string := default "success" (t_level t).

Definition setTimeout (a : timer_action) (ms : Z) (s : state) : state :=
  set_timers (timers s ++ [Timer ms a]) s.

(** [window.location.reload()]. *)
Definition location_reload (s : state) : state :=
  set_reloads (S (reloads s)) s.

Definition clean_results_of (x : extra_data) : bool :=
  match x with
  | clean_results b => b
  | _ => false
  end.

Definition findrow_of (x : extra_data) : option tr :=
  match x with
  | row_element el => el
  | _ => None
  end.

(** *** The table in the document *)

(** [document.body.querySelector('[data-row="' + dataindex + '"]')]: the
    first row whose attribute is [dataindex], [null] when there is none. *)
Definition querySelector_data_row (dataindex : string) (tbl : list tr) : option tr :=
  List.find (fun el => bool_decide (data_row el = Some dataindex)) tbl.

(** [el.rowIndex]: the position of the element among the rows of its
    table, -1 when it is in no table. *)
Fixpoint rowIndex (el : tr) (tbl : list tr) : Z :=
  match tbl with
  | [] => (-1)%Z
  | x :: r =>
      if Nat.eqb (tr_key x) (tr_key el) then 0%Z
      else match rowIndex el r with
           | Zneg _ => (-1)%Z
           | i => (i + 1)%Z
           end
  end.

(** [table.deleteRow(i)]: -1 removes the last row; an index past the
    rows is an IndexSizeError and removes nothing. *)
Definition table_deleteRow (i : Z) (tbl : list tr) : list tr :=
  if (i =? -1)%Z then removelast tbl
  else if (0 <=? i)%Z then delete (Z.to_nat i) tbl
  else tbl.

Section Handlers.

(** [GROUP_URL] and [CATEGORIES_CAMPAIGN_URL] of [utils/Constants]. *)
Variables (GROUP_URL CATEGORIES_CAMPAIGN_URL : string).

Definition handleQueryChange (value : string) (s : state) : state :=
  set_q value s.

Definition getGroups (s : state) : state :=
  getRequest (JStr GROUP_URL) cb_getGroupsData by_getGroups s.

(** [event.preventDefault()] has no part in the state. *)
Definition handleKeyPress (key : string) (s : state) : state :=
  if String.eqb key "Enter" then
    let s1 := set_results [] s in
    let url := GROUP_URL +:+ "?q=" +:+ q s1 in
    getRequest (JStr url) cb_getGroupsData by_handleKeyPress s1
  else s.

Definition required_msg : string := "This fields is required".

(** The [errors] object and [formIsValid] that [handleValidation]
    computes from the fields object. *)
Definition validate (flds : jsval) : option (gmap string string * bool) :=
  category ← get flds "category";
  campaign ← get flds "campaign";
  let errors : gmap string string := ∅ in
  let formIsValid := true in
  let '(errors, formIsValid) :=
    if negb (truthy category)
    then (<["category" := required_msg]> errors, false)
    else (errors, formIsValid) in
  let '(errors, formIsValid) :=
    if negb (truthy campaign)
    then (<["campaign" := required_msg]> errors, false)
    else (errors, formIsValid) in
  Some (errors, formIsValid).

(** [None]: reading the fields threw, before anything was set. *)
Definition handleValidation (s : state) : option (bool * state) :=
  flds ← heap s !! fields s;
  '(errors, formIsValid) ← validate flds;
  Some (formIsValid, set_errors errors s).

(** [fields[k] = v] on the object [this.state.fields] refers to. *)
Definition set_field (k : string) (v : jsval) (s : state) : option state :=
  match heap s !! fields s with
  | Some (JObj o) =>
      Some (set_heap (<[fields s := JObj (assoc_set k v o)]> (heap s)) s)
  | _ => None
  end.

(** The three ways [handleChange] is called: by the category select (an
    array of options or [null]), by the [is_active] checkbox, and by the
    campaign select (one option or [null]). *)
Inductive change : Type :=
| ChangeCategory (e : option (list obj)) (is_editable : bool)
| ChangeIsActive (checked : bool)
| ChangeCampaign (e : option obj) (is_editable : bool).

Definition handleChange (c : change) (s : state) : outcome :=
  let assigned :=
    match c with
    | ChangeCategory e is_editable =>
        match e with
        | Some (item :: items) =>
            let selected_category_array :=
              map (fun item =>
                     if is_editable
                     then option_dict (assoc "value" item) (assoc "name" item)
                     else assoc "value" item) (item :: items) in
            set_field "category" (JArr selected_category_array) s
        | Some [] | None => Some s
        end
    | ChangeIsActive checked => set_field "is_active" (JBool checked) s
    | ChangeCampaign e is_editable =>
        match e with
        | Some e =>
            if is_editable
            then set_field "campaign" (option_dict (assoc "value" e) (assoc "name" e)) s
            else set_field "campaign" (assoc "value" e) s
        | None => Some s
        end
    end in
  match assigned with
  | None => Threw s
  | Some s1 =>
      match handleValidation s1 with
      | None => Threw s1
      | Some (_, s2) => Done s2
      end
  end.

Definition groupSubmitResponse (extra : extra_data) (s : state) : state :=
  let s1 := set_formSuccess true s in
  if clean_results_of extra
  then setTimeout (close_modal_and_reload true) 3000 s1
  else setTimeout (close_modal_and_reload false) 3000 s1.

Definition groupSubmit (s : state) : outcome :=
  match handleValidation s with
  | None => Threw s
  | Some (true, s1) =>
      match heap s1 !! fields s1 with
      | None => Threw s1
      | Some body =>
          Done (postRequest (JStr GROUP_URL) body cb_groupSubmitResponse POST
                  (clean_results true) by_groupSubmit s1)
      end
  | Some (false, s1) => Done (set_formSuccess false s1)
  end.

Definition toggle (s : state) : state := set_modal (negb (modal s)) s.

(** The body and the URL [submitRow] builds from the fields object. *)
Definition update_request (flds : jsval) : option (jsval * string) :=
  category ← get flds "category";
  items ← as_array category;
  final_category ← mapM (fun i => get i "value") items;
  campaign ← get flds "campaign";
  campaign_value ← get campaign "value";
  id ← get flds "id";
  is_active ← get flds "is_active";
  let body := JObj [("campaign", campaign_value);
                    ("category", JArr final_category);
                    ("id", id);
                    ("is_active", is_active)] in
  let url := GROUP_URL +:+ to_string id +:+ "/" in
  Some (body, url).

Definition submitRow (s : state) : outcome :=
  match handleValidation s with
  | None => Threw s
  | Some (true, s1) =>
      match heap s1 !! fields s1 ≫= update_request with
      | None => Threw s1
      | Some (body, url) =>
          Done (putRequest (JStr url) body cb_groupUpdateResponse PUT
                  (clean_results true) by_submitRow s1)
      end
  | Some (false, s1) => Done s1
  end.

Definition groupUpdateResponse (body : jsval) (extra : extra_data)
    (s : state) : outcome :=
  let s1 := notify (JStr "Group Updated successfully") None s in
  match get body "id" with
  | None => Threw s1
  | Some dataindex =>
      let s2 := set_rows (<[to_string dataindex := false]> (rows s1)) s1 in
      let s3 := getGroups s2 in
      if clean_results_of extra
      then Done (set_loading true (set_results [] s3))
      else Done s3
  end.

(** One element of the row's category list as a select option:
    [{value: item.id || item.value, label: item.name, name: item.name}]. *)
Definition category_option (item : jsval) : option jsval :=
  id ← get item "id";
  value ← get item "value";
  name ← get item "name";
  Some (option_dict (or_else id value) name).

(** The row [editRow] leaves in place of [row]: its category and its
    campaign rewritten as select options. *)
Definition edited_row (row : jsval) : option jsval :=
  category ← get row "category";
  selected_category_array ←
    (if not_null category
     then as_array category ≫= mapM category_option
     else Some []);
  campaign ← get row "campaign";
  campaign_array ←
    (if not_nullish campaign
     then id ← get campaign "id";
          name ← get campaign "name";
          Some [option_dict id name]
     else Some []);
  match row with
  | JObj o =>
      Some (JObj (assoc_set "campaign" (default JUndef (head campaign_array))
                    (assoc_set "category" (JArr selected_category_array) o)))
  | _ => None
  end.

(** [index] and [dataindex] are the [index] and [data-id] attributes of
    the button that was clicked. *)
Definition editRow (index : nat) (dataindex : string) (s : state) : outcome :=
  match results s !! index with
  | None => Threw s
  | Some a =>
      match heap s !! a ≫= edited_row with
      | None => Threw s
      | Some row' =>
          Done (set_fields a
                  (set_rows (<[dataindex := true]> (rows s))
                     (set_heap (<[a := row']> (heap s)) s)))
      end
  end.

Definition cancelRow (index : nat) (dataindex : string) (s : state) : state :=
  set_rows (<[dataindex := false]> (rows s)) s.

Definition deleteGroupResponse (body : jsval) (extra : extra_data)
    (s : state) : outcome :=
  let findrow := findrow_of extra in
  let s1 := setTimeout (fade_out_row findrow) 1000 s in
  match get body "Msg" with
  | None => Threw s1
  | Some msg => Done (location_reload (notify msg None s1))
  end.

Definition deleteRow (dataindex : string) (s : state) : state :=
  let findrow := querySelector_data_row dataindex (table s) in
  let url := GROUP_URL +:+ dataindex +:+ "/" in
  deleteRequest (JStr url) cb_deleteGroupResponse (row_element findrow)
    by_deleteRow s.

Definition select_options (v : jsval) : option (list jsval) :=
  if truthy v
  then as_array v ≫=
         mapM (fun item =>
                 id ← get item "id";
                 name ← get item "name";
                 Some (option_dict id name))
  else Some [].

Definition getCampaignCategories (body : jsval) (s : state) : outcome :=
  match
    cats ← get body "categories";
    category_array ← select_options cats;
    camps ← get body "campaigns";
    campaign_array ← select_options camps;
    Some (category_array, campaign_array)
  with
  | None => Threw s
  | Some (category_array, campaign_array) =>
      Done (set_campaigns campaign_array (set_categories category_array s))
  end.

(** The rows of a response are new objects: they get the next free
    addresses; the rows already held keep theirs. *)
Definition getGroupsData (body : jsval) (s : state) : outcome :=
  match
    fetched ← (if negb (isArray body)
               then get body "results" ≫= spread
               else Some []);
    nxt ← get body "next";
    prev ← get body "previous";
    Some (fetched, nxt, prev)
  with
  | None => Threw s
  | Some (fetched, nxt, prev) =>
      let s1 := set_heap (heap s ++ fetched) s in
      let s2 := set_results (results s ++ seq (length (heap s)) (length fetched)) s1 in
      Done (set_loading false (set_previous prev (set_next nxt s2)))
  end.

Definition getNext (s : state) : state :=
  let s1 := set_page (page s + 1)%Z (set_loading true s) in
  getRequest (next s1) cb_getGroupsData by_getNext s1.

(** [at_bottom]: [$(window).scrollTop() == $(document).height() -
    $(window).height()]. *)
Definition handleScroll (at_bottom : bool) (s : state) : state :=
  if at_bottom then
    if negb (loading s) && truthy (next s) then getNext s else s
  else s.

(** The scroll listener is registered here: [Scroll] events reach the
    component from the mount on. *)
Definition componentDidMount (s : state) : state :=
  let s1 := getGroups s in
  getRequest (JStr CATEGORIES_CAMPAIGN_URL) cb_getCampaignCategories
    by_componentDidMount s1.

(** The state the constructor builds: [fields] is a fresh empty object,
    the document has the table's header row. *)
Definition initial : state :=
  State false 0 ∅ ∅ false [] [] [] JNull JNull false "" 0%Z
    [JObj []] [] [] [] 0 [Tr 0 None].

Definition mounted : state := componentDidMount initial.

(** *** The event loop *)

Definition fire (a : timer_action) (s : state) : outcome :=
  match a with
  | close_modal_and_reload clean =>
      let s1 := set_formSuccess false (set_modal false s) in
      let s2 := if clean then set_loading true (set_results [] s1) else s1 in
      Done (getGroups s2)
  | fade_out_row findrow =>
      match findrow with
      | None => Threw s
      | Some el =>
          Done (set_table (table_deleteRow (rowIndex el (table s)) (table s)) s)
      end
  end.

Definition dispatch (cb : callback) (body : jsval) (extra : extra_data)
    (s : state) : outcome :=
  match cb with
  | cb_getGroupsData => getGroupsData body s
  | cb_getCampaignCategories => getCampaignCategories body s
  | cb_groupSubmitResponse => Done (groupSubmitResponse extra s)
  | cb_groupUpdateResponse => groupUpdateResponse body extra s
  | cb_deleteGroupResponse => deleteGroupResponse body extra s
  end.

(** A response: the body of a successful one, or a failure, on which the
    transport calls no handler. *)
Inductive response : Type :=
| Success (body : jsval)
| Failure.

(** What the browser delivers to the mounted component.  [Rendered] is
    the renderer committing the rows of the table; [Response i] answers
    the [i]-th request in flight, [Timeout i] fires the [i]-th timer.
    [ClickSave dataindex] is a click on the Save button whose [data-id]
    is [dataindex]: [submitRow] reads nothing of its event. *)
Inductive event : Type :=
| Rendered (tbl : list tr)
| Scroll (at_bottom : bool)
| QueryChange (value : string)
| KeyPress (key : string)
| Change (c : change)
| ClickSubmit
| ClickToggle
| ClickSave (dataindex : string)
| ClickEdit (index : nat) (dataindex : string)
| ClickCancel (index : nat) (dataindex : string)
| ClickDelete (dataindex : string)
| Response (i : nat) (r : response)
| Timeout (i : nat).

Definition step (s : state) (e : event) : outcome :=
  match e with
  | Rendered tbl => Done (set_table tbl s)
  | Scroll at_bottom => Done (handleScroll at_bottom s)
  | QueryChange value => Done (handleQueryChange value s)
  | KeyPress key => Done (handleKeyPress key s)
  | Change c => handleChange c s
  | ClickSubmit => groupSubmit s
  | ClickToggle => Done (toggle s)
  | ClickSave _ => submitRow s
  | ClickEdit index dataindex => editRow index dataindex s
  | ClickCancel index dataindex => Done (cancelRow index dataindex s)
  | ClickDelete dataindex => Done (deleteRow dataindex s)
  | Response i r =>
      match net s !! i with
      | None => Done s
      | Some req =>
          let s1 := set_net (delete i (net s)) s in
          match r with
          | Success body => dispatch (r_callback req) body (r_extra req) s1
          | Failure => Done s1
          end
      end
  | Timeout i =>
      match timers s !! i with
      | None => Done s
      | Some t => fire (t_action t) (set_timers (delete i (timers s)) s)
      end
  end.

Fixpoint run (s : state) (es : list event) : state :=
  match es with
  | [] => s
  | e :: es' => run (state_of (step s e)) es'
  end.

End Handlers.

End Group.

(** ** Bookmark.js: the reader's bookmarked articles *)

Module Bookmark.
Import JS.

Inductive method : Type := GET | POST.

Inductive callback : Type :=
| cb_getMenu
| cb_getBookmarksArticles
| cb_articleBookmarkResponse
| cb_authLogoutResponse
| cb_getSuggestionsResponse.

(** A request in flight; [r_authorization] is the [Authorization] header
    of the requests that are sent with one. *)
Record request : Type := Request {
  r_method : method;
  r_url : string;
  r_body : option jsval;
  r_callback : callback;
  r_authorization : option string
}.

(** The one callback handed to [setTimeout]: [isLoading] goes off. *)
Record timer : Type := Timer { t_delay : Z }.

(** The array [this.state.bookmark_ids] refers to: one of its own, or
    the module's [article_array] itself. *)
Inductive array_ref : Type :=
| own_array (l : list jsval)
| the_article_array.

(** What [indexOf] is asked to find: a primitive, or the object at an
    address. *)
Inductive handle : Type :=
| Prim (v : jsval)
| Ref (a : nat).

(** [this.state] (from [newsPosts] to [is_bookmark_empty]), the module's
    [article_array], and the browser.  The posts are objects the
    component creates: each is kept with the address it was created at.
    [fresh] is the next address no object has yet.  [dark_style] is the
    [disabled] flag of the [#dark_style] link, when the document has it. *)
Record state : Type := State {
  newsPosts : list (nat * jsval);
  menus : list jsval;
  isLoading : bool;
  isSideOpen : bool;
  modal : bool;
  is_loggedin : bool;
  is_captcha : option bool;
  username : jsval;
  bookmark_ids : array_ref;
  isChecked : bool;
  options : list jsval;
  is_bookmark_empty : bool;
  article_array : list jsval;
  cookies : gmap string string;
  net : list request;
  timers : list timer;
  location : option string;
  dark_style : option bool;
  fresh : nat
}.

Definition set_newsPosts (v : list (nat * jsval)) (s : state) : state :=
  State v (menus s) (isLoading s) (isSideOpen s) (modal s) (is_loggedin s)
    (is_captcha s) (username s) (bookmark_ids s) (isChecked s) (options s)
    (is_bookmark_empty s) (article_array s) (cookies s) (net s) (timers s)
    (location s) (dark_style s) (fresh s).

Definition set_menus (v : list jsval) (s : state) : state :=
  State (newsPosts s) v (isLoading s) (isSideOpen s) (modal s) (is_loggedin
    s) (is_captcha s) (username s) (bookmark_ids s) (isChecked s) (options s)
    (is_bookmark_empty s) (article_array s) (cookies s) (net s) (timers s)
    (location s) (dark_style s) (fresh s).

Definition set_isLoading (v : bool) (s : state) : state :=
  State (newsPosts s) (menus s) v (isSideOpen s) (modal s) (is_loggedin s)
    (is_captcha s) (username s) (bookmark_ids s) (isChecked s) (options s)
    (is_bookmark_empty s) (article_array s) (cookies s) (net s) (timers s)
    (location s) (dark_style s) (fresh s).

Definition set_isSideOpen (v : bool) (s : state) : state :=
  State (newsPosts s) (menus s) (isLoading s) v (modal s) (is_loggedin s)
    (is_captcha s) (username s) (bookmark_ids s) (isChecked s) (options s)
    (is_bookmark_empty s) (article_array s) (cookies s) (net s) (timers s)
    (location s) (dark_style s) (fresh s).

Definition set_modal (v : bool) (s : state) : state :=
  State (newsPosts s) (menus s) (isLoading s) (isSideOpen s) v (is_loggedin
    s) (is_captcha s) (username s) (bookmark_ids s) (isChecked s) (options s)
    (is_bookmark_empty s) (article_array s) (cookies s) (net s) (timers s)
    (location s) (dark_style s) (fresh s).

Definition set_is_loggedin (v : bool) (s : state) : state :=
  State (newsPosts s) (menus s) (isLoading s) (isSideOpen s) (modal s) v
    (is_captcha s) (username s) (bookmark_ids s) (isChecked s) (options s)
    (is_bookmark_empty s) (article_array s) (cookies s) (net s) (timers s)
    (location s) (dark_style s) (fresh s).

Definition set_is_captcha (v : option bool) (s : state) : state :=
  State (newsPosts s) (menus s) (isLoading s) (isSideOpen s) (modal s)
    (is_loggedin s) v (username s) (bookmark_ids s) (isChecked s) (options s)
    (is_bookmark_empty s) (article_array s) (cookies s) (net s) (timers s)
    (location s) (dark_style s) (fresh s).

Definition set_username (v : jsval) (s : state) : state :=
  State (newsPosts s) (menus s) (isLoading s) (isSideOpen s) (modal s)
    (is_loggedin s) (is_captcha s) v (bookmark_ids s) (isChecked s) (options
    s) (is_bookmark_empty s) (article_array s) (cookies s) (net s) (timers s)
    (location s) (dark_style s) (fresh s).

Definition set_bookmark_ids (v : array_ref) (s : state) : state :=
  State (newsPosts s) (menus s) (isLoading s) (isSideOpen s) (modal s)
    (is_loggedin s) (is_captcha s) (username s) v (isChecked s) (options s)
    (is_bookmark_empty s) (article_array s) (cookies s) (net s) (timers s)
    (location s) (dark_style s) (fresh s).

Definition set_isChecked (v : bool) (s : state) : state :=
  State (newsPosts s) (menus s) (isLoading s) (isSideOpen s) (modal s)
    (is_loggedin s) (is_captcha s) (username s) (bookmark_ids s) v (options s)
    (is_bookmark_empty s) (article_array s) (cookies s) (net s) (timers s)
    (location s) (dark_style s) (fresh s).

Definition set_options (v : list jsval) (s : state) : state :=
  State (newsPosts s) (menus s) (isLoading s) (isSideOpen s) (modal s)
    (is_loggedin s) (is_captcha s) (username s) (bookmark_ids s) (isChecked s)
    v (is_bookmark_empty s) (article_array s) (cookies s) (net s) (timers s)
    (location s) (dark_style s) (fresh s).

Definition set_is_bookmark_empty (v : bool) (s : state) : state :=
  State (newsPosts s) (menus s) (isLoading s) (isSideOpen s) (modal s)
    (is_loggedin s) (is_captcha s) (username s) (bookmark_ids s) (isChecked s)
    (options s) v (article_array s) (cookies s) (net s) (timers s) (location
    s) (dark_style s) (fresh s).

Definition set_article_array (v : list jsval) (s : state) : state :=
  State (newsPosts s) (menus s) (isLoading s) (isSideOpen s) (modal s)
    (is_loggedin s) (is_captcha s) (username s) (bookmark_ids s) (isChecked s)
    (options s) (is_bookmark_empty s) v (cookies s) (net s) (timers s)
    (location s) (dark_style s) (fresh s).

Definition set_cookies (v : gmap string string) (s : state) : state :=
  State (newsPosts s) (menus s) (isLoading s) (isSideOpen s) (modal s)
    (is_loggedin s) (is_captcha s) (username s) (bookmark_ids s) (isChecked s)
    (options s) (is_bookmark_empty s) (article_array s) v (net s) (timers s)
    (location s) (dark_style s) (fresh s).

Definition set_net (v : list request) (s : state) : state :=
  State (newsPosts s) (menus s) (isLoading s) (isSideOpen s) (modal s)
    (is_loggedin s) (is_captcha s) (username s) (bookmark_ids s) (isChecked s)
    (options s) (is_bookmark_empty s) (article_array s) (cookies s) v (timers
    s) (location s) (dark_style s) (fresh s).

Definition set_timers (v : list timer) (s : state) : state :=
  State (newsPosts s) (menus s) (isLoading s) (isSideOpen s) (modal s)
    (is_loggedin s) (is_captcha s) (username s) (bookmark_ids s) (isChecked s)
    (options s) (is_bookmark_empty s) (article_array s) (cookies s) (net s) v
    (location s) (dark_style s) (fresh s).

Definition set_location (v : option string) (s : state) : state :=
  State (newsPosts s) (menus s) (isLoading s) (isSideOpen s) (modal s)
    (is_loggedin s) (is_captcha s) (username s) (bookmark_ids s) (isChecked s)
    (options s) (is_bookmark_empty s) (article_array s) (cookies s) (net s)
    (timers s) v (dark_style s) (fresh s).

Definition set_dark_style (v : option bool) (s : state) : state :=
  State (newsPosts s) (menus s) (isLoading s) (isSideOpen s) (modal s)
    (is_loggedin s) (is_captcha s) (username s) (bookmark_ids s) (isChecked s)
    (options s) (is_bookmark_empty s) (article_array s) (cookies s) (net s)
    (timers s) (location s) v (fresh s).

Definition set_fresh (v : nat) (s : state) : state :=
  State (newsPosts s) (menus s) (isLoading s) (isSideOpen s) (modal s)
    (is_loggedin s) (is_captcha s) (username s) (bookmark_ids s) (isChecked s)
    (options s) (is_bookmark_empty s) (article_array s) (cookies s) (net s)
    (timers s) (location s) (dark_style s) v.
Inductive outcome : Type :=
| Done (s : state)
| Threw (s : state).

Definition state_of (o : outcome) : state :=
  match o with
  | Done s => s
  | Threw s => s
  end.

Definition returned (o : outcome) : bool :=
  match o with
  | Done _ => true
  | Threw _ => false
  end.

(** Modelled from the spec: [cookies.get] of the [universal-cookie]
    store, which is not among the source files; the persisted client
    state is cookies that are each a plain string, absent by default. *)
Definition cookies_get (name : string) (s : state) : jsval :=
  match cookies s !! name with
  | Some v => JStr v
  | None => JUndef
  end.

(** Modelled from the spec: [getRequest] of [utils/Utils],
    [GET(url, onSuccess(body), headers?)]. *)
Definition getRequest (url : string) (cb : callback) (headers : option string)
    (s : state) : state :=
  set_net (net s ++ [Request GET url None cb headers]) s.

(** Modelled from the spec: [postRequest] of [utils/Utils],
    [POST(url, body, onSuccess(body), method, headers)]. *)
Definition postRequest (url : string) (body : jsval) (cb : callback)
    (m : method) (headers : option string) (s : state) : state :=
  set_net (net s ++ [Request m url (Some body) cb headers]) s.

(** [{"Authorization": "Token "+cookies.get('token'), ...}]. *)
Definition token_headers (s : state) : option string :=
  Some ("Token " +:+ to_string (cookies_get "token" s)).

Definition bookmark_ids_value (s : state) : list jsval :=
  match bookmark_ids s with
  | own_array l => l
  | the_article_array => article_array s
  end.

(** [el === h] for an element of [newsPosts], which is an object. *)
Definition strict_eq_post (el : nat * jsval) (h : handle) : bool :=
  match h with
  | Ref a => Nat.eqb (fst el) a
  | Prim _ => false
  end.

Fixpoint indexOf (l : list (nat * jsval)) (h : handle) : Z :=
  match l with
  | [] => (-1)%Z
  | el :: r =>
      if strict_eq_post el h then 0%Z
      else match indexOf r h with
           | Zneg _ => (-1)%Z
           | i => (i + 1)%Z
           end
  end.

(** [l.splice(index, 1)]: a negative index counts from the end. *)
Definition splice1 {A : Type} (index : Z) (l : list A) : list A :=
  let len := Z.of_nat (length l) in
  let start := if (index <? 0)%Z then Z.max (len + index) 0 else Z.min index len in
  delete (Z.to_nat start) l.

(** [s.replace(" ", "-")]: the first space only. *)
Fixpoint replace_space (s : string) : string :=
  match s with
  | EmptyString => EmptyString
  | String c r =>
      if Ascii.eqb c " "%char then String "-"%char r
      else String c (replace_space r)
  end.

(** [s.toLowerCase()] on a string of ASCII characters: the letters A
    to Z are lowered and every other character is kept. *)
Definition lower_ascii (c : ascii) : ascii :=
  let n := Ascii.nat_of_ascii c in
  if (65 <=? n)%nat && (n <=? 90)%nat then Ascii.ascii_of_nat (n + 32) else c.

Fixpoint toLowerCase (s : string) : string :=
  match s with
  | EmptyString => EmptyString
  | String c r => String (lower_ascii c) (toLowerCase r)
  end.

Section Handlers.

(** [DOMAIN] of the page, the URLs of [utils/Constants], and the
    functions the article cards are built with:
    [moment(v).format('D MMMM YYYY')], [decodeURIComponent], which throws
    a URIError ([None]) on a malformed escape, and the language's
    Number::toString. *)
Variables (DOMAIN MENUS ARTICLE_BOOKMARK ALL_ARTICLE_BOOKMARK
           ARTICLE_LOGOUT SUGGESTIONS : string).
Variable format_date : jsval -> jsval.
Variable decodeURIComponent : string -> option string.
Variable number_to_string : Z -> string.

Definition domain : string := "domain=" +:+ DOMAIN.

Definition loggedInUser (data : jsval) (s : state) : state :=
  set_is_loggedin true (set_username data s).

Definition toggle (data : jsval) (s : state) : state :=
  set_modal (negb (truthy data)) s.

(** The link element is enabled when the document has it, and added
    (enabled) when it has not. *)
Definition enable_dark_style (s : state) : state := set_dark_style (Some false) s.

Definition disable_dark_style (s : state) : state :=
  match dark_style s with
  | Some _ => set_dark_style (Some true) s
  | None => s
  end.

Definition toggleSwitch (data : jsval) (s : state) : state :=
  match data with
  | JBool true =>
      let s1 := enable_dark_style s in
      let s2 := set_isChecked true s1 in
      set_cookies (<["isChecked" := "true"]> (cookies s2)) s2
  | _ =>
      let s1 := disable_dark_style s in
      let s2 := set_isChecked false s1 in
      set_cookies (delete "isChecked" (cookies s2)) s2
  end.

Definition getTheme (s : state) : state :=
  if truthy (cookies_get "isChecked" s)
  then enable_dark_style s
  else disable_dark_style s.

Definition fetchArticleBookmark (articleId : jsval) (s : state) : state :=
  let headers := token_headers s in
  let url := ARTICLE_BOOKMARK +:+ "?" +:+ domain in
  let body := JObj [("article_id", articleId)] in
  postRequest url body cb_articleBookmarkResponse POST headers s.

Definition getArticleId (articleId : jsval) (s : state) : state :=
  if truthy (cookies_get "full_name" s)
  then fetchArticleBookmark articleId s
  else toggle JUndef s.

(** The article card built for one item of the response.  The slug is
    concatenated to a string and the cover image is handed to
    [decodeURIComponent]: both are turned into strings first, which
    raises a TypeError for a value that has none. *)
Definition article_dict (article : jsval) : option jsval :=
  id ← get article "id";
  title ← get article "title";
  blurb ← get article "blurb";
  source ← get article "source";
  slug ← get article "slug";
  slug_string ← ToString number_to_string slug;
  category ← get article "category";
  hash_tags ← get article "hash_tags";
  published_on ← get article "published_on";
  cover_image ← get article "cover_image";
  cover_string ← ToString number_to_string cover_image;
  decoded ← decodeURIComponent cover_string;
  Some (JObj [("id", id);
              ("header", title);
              ("altText", title);
              ("caption", blurb);
              ("source", source);
              ("slug", JStr ("/news/article/" +:+ slug_string));
              ("category", category);
              ("hash_tags", hash_tags);
              ("published_on", format_date published_on);
              ("src", JStr ("http://images.newscout.in/unsafe/368x276/left/top/"
                            +:+ decoded))]).

(** The loop of [getBookmarksArticles] over the items that are left:
    [news] is [news_array] so far, [arts] the module's [article_array],
    [a] the next free address.  The flag tells whether the loop ran to
    its end; when an item throws, what was pushed before stays pushed. *)
Fixpoint collect (items : list jsval) (news : list (nat * jsval))
    (arts : list jsval) (a : nat)
    : bool * list (nat * jsval) * list jsval * nat :=
  match items with
  | [] => (true, news, arts, a)
  | item :: rest =>
      match get item "article" with
      | None => (false, news, arts, a)
      | Some article =>
          match get article "cover_image" with
          | None => (false, news, arts, a)
          | Some cover_image =>
              if truthy cover_image then
                match article_dict article with
                | None => (false, news, arts, a)
                | Some d => collect rest (news ++ [(a, d)]) (arts ++ [article]) (S a)
                end
              else collect rest news arts a
          end
      end
  end.

Definition getBookmarksArticles (body : jsval) (s : state) : outcome :=
  match get body "results" ≫= as_array with
  | None => Threw s
  | Some items =>
      let '(finished, news_array, arts, a) :=
        collect items [] (article_array s) (fresh s) in
      let s1 := set_fresh a (set_article_array arts s) in
      if finished then
        let s2 := set_is_bookmark_empty
                    (if (0 <? length news_array)%nat then false else true)
                    (set_bookmark_ids the_article_array
                       (set_newsPosts news_array s1)) in
        Done (set_timers (timers s2 ++ [Timer 300]) s2)
      else Threw s1
  end.

(** The article of the response is a value parsed from it: when it is an
    object it is a new one, at the next free address. *)
Definition articleBookmarkResponse (body : jsval) (s : state) : outcome :=
  match get body "bookmark_article" ≫= fun bookmark_obj => get bookmark_obj "article" with
  | None => Threw s
  | Some article =>
      let needle :=
        match article with
        | JObj _ | JArr _ => Ref (fresh s)
        | v => Prim v
        end in
      let index := indexOf (newsPosts s) needle in
      let s1 := set_fresh (S (fresh s)) s in
      let s2 := set_newsPosts (splice1 index (newsPosts s1)) s1 in
      if truthy (cookies_get "full_name" s2)
      then Done (getRequest (ALL_ARTICLE_BOOKMARK +:+ "?" +:+ domain)
                   cb_getBookmarksArticles (token_headers s2) s2)
      else Done s2
  end.

Definition menu_item (item : jsval) : option (option jsval) :=
  heading ← get item "heading";
  if truthy heading then
    name ← get heading "name";
    category_id ← get heading "category_id";
    icon ← get heading "icon";
    match name with
    | JStr n =>
        Some (Some (JObj [("itemtext", name);
                          ("itemurl", JStr ("news/" +:+ toLowerCase (replace_space n)));
                          ("item_id", category_id);
                          ("item_icon", icon)]))
    | _ => None
    end
  else Some None.

Definition getMenu (body : jsval) (s : state) : outcome :=
  match
    results ← get body "results";
    items ← as_array results;
    mapM menu_item items
  with
  | None => Threw s
  | Some found => Done (set_menus (omap id found) s)
  end.

Definition isSideBarToogle (data : jsval) (s : state) : state :=
  match data with
  | JBool true =>
      let s1 := set_isSideOpen true s in
      set_cookies (<["isSideOpen" := "true"]> (cookies s1)) s1
  | _ =>
      let s1 := set_isSideOpen false s in
      set_cookies (delete "isSideOpen" (cookies s1)) s1
  end.

Definition handleLogout (s : state) : state :=
  getRequest ARTICLE_LOGOUT cb_authLogoutResponse (token_headers s) s.

Definition authLogoutResponse (s : state) : state :=
  let s1 := set_cookies (delete "full_name" (delete "token" (cookies s))) s in
  let s2 := set_bookmark_ids (own_array [])
              (set_is_captcha (Some true) (set_is_loggedin false s1)) in
  set_location (Some "/") s2.

Definition handleSearch (query : string) (s : state) : state :=
  let url := SUGGESTIONS +:+ "?q=" +:+ query +:+ "&" +:+ domain in
  getRequest url cb_getSuggestionsResponse None s.

Definition getSuggestionsResponse (body : jsval) (s : state) : outcome :=
  match
    results ← get body "result";
    items ← as_array results;
    mapM (fun item => get item "value") items
  with
  | None => Threw s
  | Some options_array => Done (set_options options_array s)
  end.

Definition componentDidMount (s : state) : state :=
  let s1 := getRequest (MENUS +:+ "?" +:+ domain) cb_getMenu None s in
  let s2 :=
    if truthy (cookies_get "full_name" s1) then
      let s' := set_is_loggedin true s1 in
      getRequest (ALL_ARTICLE_BOOKMARK +:+ "?" +:+ domain)
        cb_getBookmarksArticles (token_headers s') s'
    else set_location (Some "/") s1 in
  let s3 := set_isChecked (truthy (cookies_get "isChecked" s2)) s2 in
  let s4 := set_isSideOpen (truthy (cookies_get "isSideOpen" s3)) s3 in
  getTheme s4.

(** The state the constructor builds in a browser with the given
    cookies and stylesheet link.  The module's [article_array] starts
    empty when the script is loaded. *)
Definition initial (jar : gmap string string) (link : option bool) : state :=
  State [] [] true true false false None
    (match jar !! "full_name" with Some v => JStr v | None => JUndef end)
    (own_array []) false [] false
    [] jar [] [] None link 0.

Definition dispatch (cb : callback) (body : jsval) (s : state) : outcome :=
  match cb with
  | cb_getMenu => getMenu body s
  | cb_getBookmarksArticles => getBookmarksArticles body s
  | cb_articleBookmarkResponse => articleBookmarkResponse body s
  | cb_authLogoutResponse => Done (authLogoutResponse s)
  | cb_getSuggestionsResponse => getSuggestionsResponse body s
  end.

Inductive response : Type :=
| Success (body : jsval)
| Failure.

(** What the browser and the child components deliver after the mount. *)
Inductive event : Type :=
| LoggedIn (data : jsval)
| Toggle (data : jsval)
| ToggleSwitch (data : jsval)
| SideBarToggle (data : jsval)
| ClickBookmark (articleId : jsval)
| Logout
| Search (query : string)
| Response (i : nat) (r : response)
| Timeout (i : nat).

Definition step (s : state) (e : event) : outcome :=
  match e with
  | LoggedIn data => Done (loggedInUser data s)
  | Toggle data => Done (toggle data s)
  | ToggleSwitch data => Done (toggleSwitch data s)
  | SideBarToggle data => Done (isSideBarToogle data s)
  | ClickBookmark articleId => Done (getArticleId articleId s)
  | Logout => Done (handleLogout s)
  | Search query => Done (handleSearch query s)
  | Response i r =>
      match net s !! i with
      | None => Done s
      | Some req =>
          let s1 := set_net (delete i (net s)) s in
          match r with
          | Success body => dispatch (r_callback req) body s1
          | Failure => Done s1
          end
      end
  | Timeout i =>
      match timers s !! i with
      | None => Done s
      | Some _ => Done (set_isLoading false (set_timers (delete i (timers s)) s))
      end
  end.

Fixpoint run (s : state) (es : list event) : state :=
  match es with
  | [] => s
  | e :: es' => run (state_of (step s e)) es'
  end.

End Handlers.

End Bookmark.

(** ** SubscriptionDetails.js: the form that updates one subscription *)

Module SubscriptionDetail.
Import JS.

Inductive method : Type := GET | POST.

Inductive callback : Type :=
| cb_getSubscriptionData
| cb_renderResponse.

(** A request in flight; [r_form] is the [FormData] body of a POST, the
    entries in the order they were set. *)
Record request : Type := Request {
  r_method : method;
  r_url : string;
  r_form : option (list (string * string));
  r_callback : callback
}.

Record toast : Type := Toast { t_message : string; t_level : option string }.

(** The form state of [this.state], [loading], and the requests and
    toasts of the browser.  [isSideOpen], [isChecked] and [username]
    only feed the menu and the theme; they are left out, and with them
    [isSideBarToogle], [toggleSwitch] and [getTheme]. *)
Record state : Type := State {
  id : jsval;
  email : jsval;
  subs_type : jsval;
  autoRenew : jsval;
  payement_mode : jsval;
  createdOn : jsval;
  loading : option bool;
  net : list request;
  toasts : list toast
}.

Definition set_id (v : jsval) (s : state) : state :=
  State v (email s) (subs_type s) (autoRenew s) (payement_mode s) (createdOn
    s) (loading s) (net s) (toasts s).

Definition set_email (v : jsval) (s : state) : state :=
  State (id s) v (subs_type s) (autoRenew s) (payement_mode s) (createdOn s)
    (loading s) (net s) (toasts s).

Definition set_subs_type (v : jsval) (s : state) : state :=
  State (id s) (email s) v (autoRenew s) (payement_mode s) (createdOn s)
    (loading s) (net s) (toasts s).

Definition set_autoRenew (v : jsval) (s : state) : state :=
  State (id s) (email s) (subs_type s) v (payement_mode s) (createdOn s)
    (loading s) (net s) (toasts s).

Definition set_payement_mode (v : jsval) (s : state) : state :=
  State (id s) (email s) (subs_type s) (autoRenew s) v (createdOn s)
    (loading s) (net s) (toasts s).

Definition set_createdOn (v : jsval) (s : state) : state :=
  State (id s) (email s) (subs_type s) (autoRenew s) (payement_mode s) v
    (loading s) (net s) (toasts s).

Definition set_loading (v : option bool) (s : state) : state :=
  State (id s) (email s) (subs_type s) (autoRenew s) (payement_mode s)
    (createdOn s) v (net s) (toasts s).

Definition set_net (v : list request) (s : state) : state :=
  State (id s) (email s) (subs_type s) (autoRenew s) (payement_mode s)
    (createdOn s) (loading s) v (toasts s).

Definition set_toasts (v : list toast) (s : state) : state :=
  State (id s) (email s) (subs_type s) (autoRenew s) (payement_mode s)
    (createdOn s) (loading s) (net s) v.
Inductive outcome : Type :=
| Done (s : state)
| Threw (s : state).

Definition state_of (o : outcome) : state :=
  match o with
  | Done s => s
  | Threw s => s
  end.

(** Modelled from the spec: [getRequest] and [postRequest] of
    [utils/Utils], [GET(url, onSuccess(body), headers?)] and
    [POST(url, body, onSuccess(body), method, headers)]. *)
Definition getRequest (url : string) (cb : callback) (s : state) : state :=
  set_net (net s ++ [Request GET url None cb]) s.

Definition postRequest (url : string) (body : list (string * string))
    (cb : callback) (m : method) (s : state) : state :=
  set_net (net s ++ [Request m url (Some body) cb]) s.

(** Modelled from the spec: [notify] of [utils/Utils],
    [notify(message, level = "success"|"error")]: one toast. *)
Definition notify (message : string) (level : option string) (s : state) : state :=
  set_toasts (toasts s ++ [Toast message level]) s.

(** The level a toast is shown at: the contract's default is the first
    of its two levels. *)
Definition level_of (t : toast) : string := default "success" (t_level t).

(** The five fields of the form. *)
Definition form_state (s : state) : jsval * jsval * jsval * jsval * jsval :=
  (id s, email s, subs_type s, autoRenew s, payement_mode s).

Section Handlers.

(** [SUBSCRIPTION_URL] of [utils/Constants], the page's [ID], and the
    language's ToNumber on a string ([None] for NaN) and
    Number::toString. *)
Variables (SUBSCRIPTION_URL ID : string).
Variable string_to_number : string -> option Z.
Variable number_to_string : Z -> string.

(** [v == true]: both sides are compared as numbers; an array or object
    is first turned into its primitive, which is its string, and the
    comparison raises the TypeError of that conversion ([None]). *)
Definition loose_eq_true (v : jsval) : option bool :=
  match v with
  | JBool b => Some b
  | JNum n => Some (n =? 1)%Z
  | JStr s => Some (bool_decide (string_to_number s = Some 1%Z))
  | JArr _ | JObj _ =>
      match ToString number_to_string v with
      | Some str => Some (bool_decide (string_to_number str = Some 1%Z))
      | None => None
      end
  | JUndef | JNull => Some false
  end.

Definition getSubs (s : state) : state :=
  let s1 := set_loading (Some true) s in
  getRequest (SUBSCRIPTION_URL +:+ ID) cb_getSubscriptionData s1.

Definition getSubscriptionData (body : jsval) (s : state) : outcome :=
  match
    results ← get body "results";
    email ← get results "email";
    subs_type ← get results "subs_type";
    payement_mode ← get results "payement_mode";
    auto_renew ← get results "auto_renew";
    renew ← loose_eq_true auto_renew;
    created_at ← get results "created_at";
    id ← get results "id";
    Some (email, subs_type, payement_mode, renew, created_at, id)
  with
  | None => Threw s
  | Some (email, subs_type, payement_mode, renew, created_at, id) =>
      Done (set_loading (Some false)
              (set_id id
                 (set_createdOn created_at
                    (set_autoRenew
                       (if renew : bool then JStr "Yes" else JStr "No")
                       (set_payement_mode payement_mode
                          (set_subs_type subs_type
                             (set_email email s)))))))
  end.

Definition handleChange (e : obj) (s : state) : state :=
  set_subs_type (assoc "value" e) s.

Definition handleRenewChange (e : obj) (s : state) : state :=
  set_autoRenew (assoc "value" e) s.

(** [body.set(name, value)] stores ToString(value), and raises its
    TypeError; the form is built before the request is made. *)
Definition submitForm (s : state) : outcome :=
  match
    t ← ToString number_to_string (subs_type s);
    i ← ToString number_to_string (id s);
    r ← ToString number_to_string (autoRenew s);
    Some [("subs_type", t); ("id", i); ("auto_renew", r)]
  with
  | None => Threw s
  | Some body =>
      let url := SUBSCRIPTION_URL +:+ ID +:+ "/" in
      Done (postRequest url body cb_renderResponse POST s)
  end.

Definition renderResponse (body : jsval) (s : state) : outcome :=
  match get body "results" with
  | None => Threw s
  | Some results =>
      match loose_eq_success number_to_string results with
      | None => Threw s
      | Some true => Done (notify "Subscription Updated successfully!" None s)
      | Some false => Done (notify "Something went wrong!" (Some "error") s)
      end
  end.

Definition componentDidMount (s : state) : state := getSubs s.

Definition initial : state :=
  State (JStr "") (JStr "") (JStr "Basic") (JStr "Yes") (JStr "Basic") (JStr "")
    None [] [].

Inductive response : Type :=
| Success (body : jsval)
| Failure.

Inductive event : Type :=
| SelectType (e : obj)
| SelectRenew (e : obj)
| Submit
| Response (i : nat) (r : response).

Definition step (s : state) (e : event) : outcome :=
  match e with
  | SelectType e => Done (handleChange e s)
  | SelectRenew e => Done (handleRenewChange e s)
  | Submit => submitForm s
  | Response i r =>
      match net s !! i with
      | None => Done s
      | Some req =>
          let s1 := set_net (delete i (net s)) s in
          match r with
          | Success body =>
              match r_callback req with
              | cb_getSubscriptionData => getSubscriptionData body s1
              | cb_renderResponse => renderResponse body s1
              end
          | Failure => Done s1
          end
      end
  end.

End Handlers.

End SubscriptionDetail.

(** * Notions the properties of the Group view are stated with *)

Module GroupSpec.
Import JS Group.

(** A field value that is empty or absent, in the words of the
    specification: no value, the empty string, or the empty list. *)
Definition is_empty_value (v : jsval) : bool :=
  match v with
  | JUndef | JNull => true
  | JStr s => String.eqb s ""
  | JArr l => match l with [] => true | _ => false end
  | _ => false
  end.

(** The fields held by [this.state.fields]. *)
Definition fields_value (s : state) : option jsval := heap s !! fields s.

(** The rows of the collection, as the values their objects hold. *)
Definition collection (s : state) : list (option jsval) :=
  map (λ a, heap s !! a) (results s).

(** The category of the fields is an array none of whose elements is
    [null] or [undefined]: what [editRow] and the category select store. *)
Definition category_is_option_list (o : obj) : bool :=
  match assoc "category" o with
  | JArr items => forallb not_nullish items
  | _ => false
  end.

(** The body [submitRow] sends for the fields object [o]. *)
Definition update_body (o : obj) : jsval :=
  JObj [("campaign", default JUndef (get (assoc "campaign" o) "value"));
        ("category",
         JArr (map (λ i, default JUndef (get i "value"))
                 (default [] (as_array (assoc "category" o)))));
        ("id", assoc "id" o);
        ("is_active", assoc "is_active" o)].



(** What pagination depends on. *)
Definition paging (s : state) : list nat * list request * bool * jsval * list timer :=
  (results s, net s, loading s, next s, timers s).

(** A click on Submit or Save adds at most one request, which is not a
    GET of the collection, and touches nothing else of the pagination. *)
Definition added_mutation (s s' : state) : Prop :=
  results s' = results s ∧ loading s' = loading s ∧ next s' = next s
  ∧ timers s' = timers s
  ∧ (net s' = net s
     ∨ ∃ r, net s' = net s ++ [r]
            ∧ r_callback r ≠ cb_getGroupsData ∧ r_issuer r ≠ by_getNext).

#[global] Instance callback_eq_dec : EqDecision callback.
Proof. solve_decision. Defined.

#[global] Instance issuer_eq_dec : EqDecision issuer.
Proof. solve_decision. Defined.

(** The requests in flight whose response [getGroupsData] handles, and
    among them those that [getNext] issued. *)
Definition collection_gets (n : list request) : nat :=
  length (filter (λ r, r_callback r = cb_getGroupsData) n).

Definition pages_in_flight (n : list request) : nat :=
  length (filter (λ r, r_issuer r = by_getNext) n).

(** The events that ask for the first page again: a search submission,
    the timer of a successful create, the response to an update. *)
Definition refetches (s : state) (e : event) : bool :=
  match e with
  | KeyPress key => String.eqb key "Enter"
  | Timeout i =>
      match timers s !! i with
      | Some (Timer _ (close_modal_and_reload _)) => true
      | _ => false
      end
  | Response i (Success body) =>
      match net s !! i with
      | Some req =>
          match r_callback req with
          | cb_groupUpdateResponse => not_nullish body
          | _ => false
          end
      | None => false
      end
  | _ => false
  end.

Fixpoint no_refetch (GROUP_URL : string) (s : state) (es : list event) : bool :=
  match es with
  | [] => true
  | e :: es' =>
      negb (refetches s e)
      && no_refetch GROUP_URL (state_of (step GROUP_URL s e)) es'
  end.

(** The invariant of pagination: no GET of the collection is in flight,
    or one is and the scroll handler is shut. *)
Definition guarded (s : state) : Prop :=
  (collection_gets (net s) = 0
   ∨ (collection_gets (net s) = 1
      ∧ (loading s = true ∨ truthy (next s) = false)))
  ∧ Forall (λ r, r_issuer r = by_getNext → r_callback r = cb_getGroupsData)
      (net s).

(** ** Concrete data: one group on the first page *)

Definition demo_url : string := "/api/v1/groups/".
Definition demo_categories_url : string := "/api/v1/categories/".

Definition demo_row : jsval :=
  JObj [("id", JNum 7);
        ("category", JArr [JObj [("id", JNum 1); ("name", JStr "Sports")]]);
        ("campaign", JObj [("id", JNum 3); ("name", JStr "Summer")]);
        ("is_active", JBool true)].

Definition demo_page (next : jsval) : jsval :=
  JObj [("results", JArr [demo_row]); ("next", next); ("previous", JNull)].

(** The mounted component after its first page has arrived. *)
Definition demo_loaded (next : jsval) : state :=
  run demo_url (mounted demo_url demo_categories_url)
    [Response 0 (Success (demo_page next))].


End GroupSpec.

(** * Notions the properties of the Bookmark view are stated with *)

Module BookmarkSpec.
Import JS Bookmark.

(** Every post the component shows was created before [fresh]. *)
Definition posts_allocated (s : state) : Prop :=
  Forall (λ p : nat * jsval, fst p < fresh s) (newsPosts s).

(** The articles of a page that have a cover image. *)
Definition keep (item : jsval) : option jsval :=
  article ← get item "article";
  cover_image ← get article "cover_image";
  if truthy cover_image then Some article else None.

Definition cover_articles (items : list jsval) : list jsval := omap keep items.

Definition cover_articles_of (body : jsval) : list jsval :=
  match get body "results" ≫= as_array with
  | Some items => cover_articles items
  | None => []
  end.

(** The articles of a page, all of them: the result list in the words
    of the specification. *)
Definition page_articles_of (body : jsval) : list jsval :=
  match get body "results" ≫= as_array with
  | Some items => omap (λ item, get item "article") items
  | None => []
  end.

Section Pages.

Variable format_date : jsval -> jsval.
Variable decodeURIComponent : string -> option string.
Variable number_to_string : Z -> string.

(** An item that can be read: it has an article, and when its cover
    image is shown, the slug has a string and the cover image has one
    that decodes. *)
Definition item_ok (item : jsval) : bool :=
  match get item "article" with
  | Some article =>
      match get article "cover_image" with
      | Some cover_image =>
          if truthy cover_image
          then bool_decide
                 (is_Some (get article "slug" ≫= ToString number_to_string))
               && bool_decide
                    (is_Some (ToString number_to_string cover_image
                                ≫= decodeURIComponent))
          else true
      | None => false
      end
  | None => false
  end.

(** A page every item of which can be read. *)
Definition page_ok (body : jsval) : bool :=
  match get body "results" ≫= as_array with
  | Some items => forallb item_ok items
  | None => false
  end.

(** The items of a page the handler gets through: those before the
    first one that cannot be read. *)
Fixpoint readable (items : list jsval) : list jsval :=
  match items with
  | [] => []
  | item :: rest => if item_ok item then item :: readable rest else []
  end.

(** What one call of the handler appends to the module's array: the
    cover articles of the items it gets through. *)
Definition appended (body : jsval) : list jsval :=
  match get body "results" ≫= as_array with
  | Some items => cover_articles (readable items)
  | None => []
  end.

(** The state after the responses [bodies] have been handled in turn. *)
Fixpoint fetch_all (s : state) (bodies : list jsval) : state :=
  match bodies with
  | [] => s
  | body :: rest =>
      fetch_all
        (state_of (getBookmarksArticles format_date decodeURIComponent
                     number_to_string body s))
        rest
  end.

End Pages.

(** ** Concrete data: a reader with two bookmarks *)

Definition demo_article (n : Z) (cover_image : jsval) : jsval :=
  JObj [("id", JNum n); ("title", JStr "Title"); ("cover_image", cover_image)].

Definition demo_jar : gmap string string :=
  <["full_name" := "Ann"]> (<["token" := "abc"]> ∅).

Definition demo_run : state → list event → state :=
  run "newscout" "/bookmark/" "/bookmarks/" "/logout/" "/suggest/" (λ v, v) Some
    pretty.

Definition demo_mounted (jar : gmap string string) : state :=
  componentDidMount "newscout" "/menus/" "/bookmarks/" (initial jar None).

(** Two bookmarked articles are shown. *)
Definition demo_shown : state :=
  demo_run (demo_mounted demo_jar)
    [Response 1
       (Success (JObj [("results",
                        JArr [JObj [("article", demo_article 1 (JStr "a.png"))];
                              JObj [("article", demo_article 2 (JStr "b.png"))]])]))].

(** The response to the toggle of article 1. *)
Definition demo_toggled : jsval :=
  JObj [("bookmark_article", JObj [("article", demo_article 1 (JStr "a.png"))])].

End BookmarkSpec.

(** * Notions the further properties of the Group view are stated with *)

Module GroupNotions.
Import JS Group.

(** [this.state.fields] refers to an object. *)
Definition fields_is_object (s : state) : Prop :=
  ∃ o, heap s !! fields s = Some (JObj o).

(** The requests in flight in [s'] that were issued after [s]. *)
Definition added (s s' : state) : list request :=
  drop (length (net s)) (net s').

(** A second group, for a page of two. *)
Definition demo_second_row : jsval :=
  JObj [("id", JNum 8);
        ("category", JArr [JObj [("id", JNum 2); ("name", JStr "Arts")]]);
        ("campaign", JObj [("id", JNum 4); ("name", JStr "Winter")]);
        ("is_active", JBool false)].

(** The shapes of the requests the component issues, one per response
    handler. *)
Definition well_formed (GROUP_URL CATEGORIES_CAMPAIGN_URL : string)
    (r : request) : Prop :=
  match r_callback r with
  | cb_getGroupsData =>
      r_method r = GET ∧ r_body r = None ∧ r_extra r = no_extra
  | cb_getCampaignCategories =>
      r = Request GET (JStr CATEGORIES_CAMPAIGN_URL) None
            cb_getCampaignCategories no_extra by_componentDidMount
  | cb_groupSubmitResponse =>
      ∃ o, r = Request POST (JStr GROUP_URL) (Some (JObj o))
                 cb_groupSubmitResponse (clean_results true) by_groupSubmit
           ∧ truthy (assoc "category" o) = true
           ∧ truthy (assoc "campaign" o) = true
  | cb_groupUpdateResponse =>
      ∃ campaign categories id is_active,
        r = Request PUT (JStr (GROUP_URL +:+ to_string id +:+ "/"))
              (Some (JObj [("campaign", campaign);
                           ("category", JArr categories);
                           ("id", id);
                           ("is_active", is_active)]))
              cb_groupUpdateResponse (clean_results true) by_submitRow
  | cb_deleteGroupResponse =>
      ∃ dataindex findrow,
        r = Request DELETE (JStr (GROUP_URL +:+ dataindex +:+ "/")) None
              cb_deleteGroupResponse (row_element findrow) by_deleteRow
  end.

(** The timers the component sets: the reload after a create, always
    with [clean_results], after 3000 ms; the removal of a row after
    1000 ms. *)
Definition timer_set_by_view (t : timer) : Prop :=
  match t_action t with
  | close_modal_and_reload clean => clean = true ∧ t_delay t = 3000%Z
  | fade_out_row _ => t_delay t = 1000%Z
  end.

End GroupNotions.

(** * Group.js and SubscriptionDetails.js: the theme and the side bar *)

(** The two dashboard views carry the same three handlers and the same
    end of [componentDidMount] for the theme and the side bar.  No other
    handler of the views reads or writes what these use, so they are
    embedded on their own part of the state. *)
Module Chrome.
Import JS.

(** [isSideOpen] and [isChecked] of [this.state], the cookies, and the
    [disabled] flag of the [#dark_style] link, when the document has
    it. *)
Record state : Type := State {
  isSideOpen : bool;
  isChecked : bool;
  cookies : gmap string string;
  dark_style : option bool
}.

Definition set_isSideOpen (v : bool) (s : state) : state :=
  State v (isChecked s) (cookies s) (dark_style s).

Definition set_isChecked (v : bool) (s : state) : state :=
  State (isSideOpen s) v (cookies s) (dark_style s).

Definition set_cookies (v : gmap string string) (s : state) : state :=
  State (isSideOpen s) (isChecked s) v (dark_style s).

Definition set_dark_style (v : option bool) (s : state) : state :=
  State (isSideOpen s) (isChecked s) (cookies s) v.

(** Modelled from the spec: [cookies.get] of the [universal-cookie]
    store, which is not among the source files; the persisted client
    state is cookies that are each a plain string, absent by default. *)
Definition cookies_get (name : string) (s : state) : jsval :=
  match cookies s !! name with
  | Some v => JStr v
  | None => JUndef
  end.

(** The link element is enabled when the document has it, and added
    (enabled) when it has not. *)
Definition enable_dark_style (s : state) : state := set_dark_style (Some false) s.

Definition disable_dark_style (s : state) : state :=
  match dark_style s with
  | Some _ => set_dark_style (Some true) s
  | None => s
  end.

Definition isSideBarToogle (data : jsval) (s : state) : state :=
  match data with
  | JBool true =>
      let s1 := set_isSideOpen true s in
      set_cookies (<["isSideOpen" := "true"]> (cookies s1)) s1
  | _ =>
      let s1 := set_isSideOpen false s in
      set_cookies (delete "isSideOpen" (cookies s1)) s1
  end.

Definition toggleSwitch (data : jsval) (s : state) : state :=
  match data with
  | JBool true =>
      let s1 := enable_dark_style s in
      let s2 := set_isChecked true s1 in
      set_cookies (<["isChecked" := "true"]> (cookies s2)) s2
  | _ =>
      let s1 := disable_dark_style s in
      let s2 := set_isChecked false s1 in
      set_cookies (delete "isChecked" (cookies s2)) s2
  end.

Definition getTheme (s : state) : state :=
  if truthy (cookies_get "isChecked" s)
  then enable_dark_style s
  else disable_dark_style s.

(** What [componentDidMount] does after its requests are issued. *)
Definition componentDidMount (s : state) : state :=
  let s1 := set_isSideOpen (truthy (cookies_get "isSideOpen" s)) s in
  let s2 := set_isChecked (truthy (cookies_get "isChecked" s1)) s1 in
  getTheme s2.

(** The state the constructor builds in a browser with the given
    cookies and stylesheet link. *)
Definition initial (jar : gmap string string) (link : option bool) : state :=
  State true false jar link.

(** What the menu delivers: its theme switch and its side bar button. *)
Inductive event : Type :=
| ToggleSwitch (data : jsval)
| SideBarToggle (data : jsval).

Definition step (s : state) (e : event) : state :=
  match e with
  | ToggleSwitch data => toggleSwitch data s
  | SideBarToggle data => isSideBarToogle data s
  end.

Fixpoint run (s : state) (es : list event) : state :=
  match es with
  | [] => s
  | e :: es' => run (step s e) es'
  end.

(** [data === true]. *)
Definition strict_eq_true (data : jsval) : bool :=
  match data with
  | JBool true => true
  | _ => false
  end.

(** The flags shown agree with what is persisted and with the
    stylesheet: each flag is set exactly when its cookie is truthy, and
    the dark stylesheet is in force exactly when [isChecked] is. *)
Definition agrees (s : state) : Prop :=
  isChecked s = truthy (cookies_get "isChecked" s)
  ∧ isSideOpen s = truthy (cookies_get "isSideOpen" s)
  ∧ bool_decide (dark_style s = Some false) = isChecked s.

End Chrome.

(** * Notions the further properties of the Bookmark view are stated with *)

Module BookmarkNotions.
Import JS Bookmark.

(** The theme and side bar flags agree with the cookies and with the
    stylesheet. *)
Definition agrees (s : state) : Prop :=
  isChecked s = truthy (cookies_get "isChecked" s)
  ∧ isSideOpen s = truthy (cookies_get "isSideOpen" s)
  ∧ bool_decide (dark_style s = Some false) = isChecked s.

(** The number of spaces of a string. *)
Fixpoint count_spaces (s : string) : nat :=
  match s with
  | EmptyString => 0
  | String c r => (if Ascii.eqb c " "%char then 1 else 0) + count_spaces r
  end.

(** Every character of the string is an ASCII character: on such a
    string [toLowerCase] is the language's method. *)
Fixpoint ascii_only (s : string) : bool :=
  match s with
  | EmptyString => true
  | String c r => (Ascii.nat_of_ascii c <? 128)%nat && ascii_only r
  end.

(** A request that asks for the bookmarks or toggles one. *)
Definition bookmark_request (r : request) : bool :=
  match r_callback r with
  | cb_getBookmarksArticles | cb_articleBookmarkResponse => true
  | _ => false
  end.

(** The reader is not signed in and the view shows it: no [full_name]
    cookie, no post, no timer, still loading, on its way to the front
    page, and no request for bookmarks in flight. *)
Definition anonymous (s : state) : Prop :=
  cookies s !! "full_name" = None
  ∧ newsPosts s = []
  ∧ isLoading s = true
  ∧ is_bookmark_empty s = false
  ∧ timers s = []
  ∧ location s = Some "/"
  ∧ Forall (λ r, bookmark_request r = false) (net s).

End BookmarkNotions.

(** * Notions the further properties of the subscription form are stated with *)

Module SubscriptionNotions.
Import JS SubscriptionDetail.

Section Runs.

Variables (SUBSCRIPTION_URL ID : string).
Variable string_to_number : string -> option Z.
Variable number_to_string : Z -> string.

(** The state after the events [es], one after the other. *)
Fixpoint run (s : state) (es : list event) : state :=
  match es with
  | [] => s
  | e :: es' =>
      run (state_of (step SUBSCRIPTION_URL ID string_to_number
                       number_to_string s e)) es'
  end.

End Runs.

(** The subscription has not arrived and no request asks for it: the
    form holds what the constructor put there and [loading] is set. *)
Definition never_loaded (s : state) : Prop :=
  loading s = Some true
  ∧ id s = JStr ""
  ∧ email s = JStr ""
  ∧ createdOn s = JStr ""
  ∧ Forall (λ r, r_callback r = cb_renderResponse) (net s).

End SubscriptionNotions.

(** * Properties of the Group view *)

Module GroupProps.
Import JS Group GroupSpec.

(** ** Validation *)

Lemma validate_object (o : obj) :
  validate (JObj o) =
    Some ((if truthy (assoc "campaign" o) then
             (if truthy (assoc "category" o) then ∅
              else <["category" := required_msg]> ∅)
           else <["campaign" := required_msg]>
                  (if truthy (assoc "category" o) then ∅
                   else <["category" := required_msg]> ∅)),
          truthy (assoc "category" o) && truthy (assoc "campaign" o)).
Proof.
  unfold validate; simpl.
  destruct (truthy (assoc "category" o)), (truthy (assoc "campaign" o));
    reflexivity.
Qed.

Lemma handleValidation_object (s : state) (o : obj) :
  fields_value s = Some (JObj o) →
  ∃ errs, validate (JObj o) =
            Some (errs, truthy (assoc "category" o) && truthy (assoc "campaign" o))
          ∧ handleValidation s =
            Some (truthy (assoc "category" o) && truthy (assoc "campaign" o),
                  set_errors errs s).
Proof.
  unfold fields_value, handleValidation. intros ->.
  eexists; split; [apply validate_object|].
  simpl. rewrite validate_object. reflexivity.
Qed.

(** C2, as stated, fails: a category that is the empty list is an empty
    required field, and [handleValidation] reports no error for it.  The
    fields are those of a group that has a campaign and no category, put
    in edit mode after the first page has arrived. *)
Lemma validate_accepts_empty_category :
  let row := JObj [("id", JNum 9);
                   ("category", JArr []);
                   ("campaign", JObj [("id", JNum 3); ("name", JStr "Summer")]);
                   ("is_active", JBool true)] in
  let page := JObj [("results", JArr [row]); ("next", JNull); ("previous", JNull)] in
  let s := run demo_url (mounted demo_url demo_categories_url)
             [Response 0 (Success page); ClickEdit 0 "9"] in
  (fields_value s ≫= λ flds, get flds "category") = Some (JArr [])
  ∧ is_empty_value (JArr []) = true
  ∧ handleValidation s = Some (true, set_errors ∅ s).
Proof. vm_compute. repeat split. Qed.

(** C2, amended: for every fields object, [handleValidation] stores an
    error for exactly those of [category] and [campaign] whose value is
    falsy (absent, null, the empty string, 0 or false; an empty list
    counts as populated), with the message "This fields is required",
    and returns true exactly when the stored mapping is empty.  The
    empty object gets both entries; every empty-or-absent value other
    than the empty list is falsy. *)
Theorem handleValidation_flags_falsy_required_fields :
  (∀ (s : state) (o : obj),
     fields_value s = Some (JObj o) →
     ∃ errs ok,
       handleValidation s = Some (ok, set_errors errs s)
       ∧ validate (JObj o) = Some (errs, ok)
       ∧ errs !! "category" =
           (if truthy (assoc "category" o) then None else Some required_msg)
       ∧ errs !! "campaign" =
           (if truthy (assoc "campaign" o) then None else Some required_msg)
       ∧ (∀ k, k ≠ "category" → k ≠ "campaign" → errs !! k = None)
       ∧ (ok = true ↔ errs = ∅)
       ∧ (errs = ∅ ↔
          truthy (assoc "category" o) = true ∧ truthy (assoc "campaign" o) = true))
  ∧ validate (JObj []) =
      Some (<["campaign" := required_msg]> (<["category" := required_msg]> ∅), false)
  ∧ (∀ v, is_empty_value v = true → v ≠ JArr [] → truthy v = false).
Proof.
  split; [|split].
  - intros s o Hf.
    destruct (handleValidation_object s o Hf) as (errs & Hv & Hh).
    exists errs, (truthy (assoc "category" o) && truthy (assoc "campaign" o)).
    rewrite validate_object in Hv. injection Hv as <-.
    split; [exact Hh|]. split; [apply validate_object|].
    destruct (truthy (assoc "category" o)), (truthy (assoc "campaign" o)); simpl.
    all: repeat split; intros; simplify_map_eq; try done.
    all: try (exfalso; eapply insert_non_empty; eassumption).
    all: try (destruct_and!; discriminate).
  - reflexivity.
  - intros v Hv Hne. destruct v as [| | | |s|l|]; simpl in *; try done.
    + destruct s; simpl in *; done.
    + destruct l; done.
Qed.

Lemma handleValidation_flags_falsy_required_fields_witness :
  fields_value initial = Some (JObj [])
  ∧ ∃ errs ok,
      handleValidation initial = Some (ok, set_errors errs initial)
      ∧ validate (JObj []) = Some (errs, ok)
      ∧ errs !! "category" = Some required_msg
      ∧ errs !! "campaign" = Some required_msg
      ∧ (∀ k, k ≠ "category" → k ≠ "campaign" → errs !! k = None)
      ∧ (ok = true ↔ errs = ∅)
      ∧ (errs = ∅ ↔ false = true ∧ false = true).
Proof.
  split; [reflexivity|].
  apply (proj1 handleValidation_flags_falsy_required_fields initial []).
  reflexivity.
Defined.

(** ** Editing a row *)

Lemma assoc_set_same (k : string) (v : jsval) (o : obj) :
  assoc k (assoc_set k v o) = v.
Proof.
  induction o as [|[k' v'] o IH]; simpl.
  - by rewrite String.eqb_refl.
  - destruct (String.eqb k k') eqn:E; simpl.
    + by rewrite String.eqb_refl.
    + by rewrite E.
Qed.

Lemma assoc_set_other (k k' : string) (v : jsval) (o : obj) :
  k ≠ k' → assoc k (assoc_set k' v o) = assoc k o.
Proof.
  intros Hne. induction o as [|[k0 v0] o IH]; simpl.
  - destruct (String.eqb k k') eqn:E; [|done].
    apply String.eqb_eq in E. done.
  - destruct (String.eqb k' k0) eqn:E; simpl.
    + apply String.eqb_eq in E. subst k0.
      destruct (String.eqb k k') eqn:E'; [|done].
      apply String.eqb_eq in E'. done.
    + by rewrite IH.
Qed.

(** The row [editRow] writes back is the old object with two properties
    replaced: the category by an array of options, the campaign by one
    option or [undefined]. *)
Lemma edited_row_shape (row row' : jsval) :
  edited_row row = Some row' →
  ∃ o selected campaign,
    row = JObj o
    ∧ row' = JObj (assoc_set "campaign" campaign
                     (assoc_set "category" (JArr selected) o))
    ∧ (if not_null (assoc "category" o)
       then as_array (assoc "category" o) ≫= mapM category_option = Some selected
       else selected = [])
    ∧ (if not_nullish (assoc "campaign" o)
       then (id ← get (assoc "campaign" o) "id";
             name ← get (assoc "campaign" o) "name";
             Some (option_dict id name)) = Some campaign
       else campaign = JUndef).
Proof.
  unfold edited_row. intros H.
  destruct row as [| | | | | |o]; simplify_option_eq; try done.
  all: try (destruct (not_null _); simplify_option_eq; done).
  exists o.
  destruct (not_null (assoc "category" o)) eqn:Hc;
    destruct (not_nullish (assoc "campaign" o)) eqn:Hp;
    simplify_option_eq; eexists _, _; (split; [reflexivity|]);
    (split; [reflexivity|]); rewrite ?Hc, ?Hp; simplify_option_eq; done.
Qed.

(** C3, as stated, fails: after the first page is loaded, Edit then
    Cancel on the row of group 7 leaves that row with its category and
    campaign rewritten, and leaves [this.state.fields], which was the
    empty object, holding the row. *)
Lemma editRow_cancelRow_changes_row_and_fields :
  let s := demo_loaded JNull in
  let s' := run demo_url s [ClickEdit 0 "7"; ClickCancel 0 "7"] in
  collection s = [Some demo_row]
  ∧ fields_value s = Some (JObj [])
  ∧ collection s' =
      [Some (JObj [("id", JNum 7);
                   ("category", JArr [option_dict (JNum 1) (JStr "Sports")]);
                   ("campaign", option_dict (JNum 3) (JStr "Summer"));
                   ("is_active", JBool true)])]
  ∧ fields_value s' = collection s' !!! 0%nat
  ∧ collection s' ≠ collection s
  ∧ fields_value s' ≠ fields_value s.
Proof. repeat split; discriminate. Qed.

(** C3, amended: on a row whose category and campaign can be read,
    [editRow] followed by [cancelRow] issues no request and leaves the
    collection with the same row objects in the same order and every
    object but the edited one untouched; the edited row keeps its other
    properties and has its category and campaign replaced by select
    options; the form fields are not discarded but are the edited row
    itself; the row's in-edit flag ends false. *)
Theorem editRow_then_cancelRow_effect :
  ∀ (s : state) (index : nat) (dataindex : string) (a : nat) (row row' : jsval),
    results s !! index = Some a →
    heap s !! a = Some row →
    edited_row row = Some row' →
    ∃ s1,
      editRow index dataindex s = Done s1
      ∧ results (cancelRow index dataindex s1) = results s
      ∧ heap (cancelRow index dataindex s1) = <[a := row']> (heap s)
      ∧ (∀ b, b ≠ a → heap (cancelRow index dataindex s1) !! b = heap s !! b)
      ∧ fields (cancelRow index dataindex s1) = a
      ∧ fields_value (cancelRow index dataindex s1) = Some row'
      ∧ rows (cancelRow index dataindex s1) = <[dataindex := false]> (rows s)
      ∧ net (cancelRow index dataindex s1) = net s
      ∧ toasts (cancelRow index dataindex s1) = toasts s
      ∧ timers (cancelRow index dataindex s1) = timers s
      ∧ (∀ k, k ≠ "category" → k ≠ "campaign" → get row' k = get row k)
      ∧ (∃ o selected campaign,
           row = JObj o
           ∧ row' = JObj (assoc_set "campaign" campaign
                            (assoc_set "category" (JArr selected) o))
           ∧ (if not_null (assoc "category" o)
              then as_array (assoc "category" o) ≫= mapM category_option
                   = Some selected
              else selected = [])
           ∧ (if not_nullish (assoc "campaign" o)
              then (id ← get (assoc "campaign" o) "id";
                    name ← get (assoc "campaign" o) "name";
                    Some (option_dict id name)) = Some campaign
              else campaign = JUndef)).
Proof.
  intros s index dataindex a row row' Hi Ha He.
  unfold editRow. rewrite Hi, Ha. simpl. rewrite He.
  eexists; split; [reflexivity|]. unfold fields_value; simpl.
  repeat split.
  - intros b Hb. by rewrite list_lookup_insert_ne.
  - apply list_lookup_insert_eq. by eapply lookup_lt_Some.
  - apply insert_insert_eq.
  - intros k Hc Hp.
    destruct (edited_row_shape _ _ He) as (o & sel & camp & -> & -> & _).
    simpl. by rewrite !assoc_set_other.
  - by apply edited_row_shape.
Qed.

Lemma editRow_then_cancelRow_effect_witness :
  let s := demo_loaded JNull in
  results s !! 0%nat = Some 1%nat
  ∧ heap s !! 1%nat = Some demo_row
  ∧ ∃ s1,
      editRow 0 "7" s = Done s1
      ∧ results (cancelRow 0 "7" s1) = results s
      ∧ fields (cancelRow 0 "7" s1) = 1%nat
      ∧ rows (cancelRow 0 "7" s1) = <["7" := false]> (rows s)
      ∧ net (cancelRow 0 "7" s1) = net s.
Proof.
  split; [reflexivity|]. split; [reflexivity|].
  destruct (editRow_then_cancelRow_effect (demo_loaded JNull) 0 "7" 1 demo_row
              (JObj [("id", JNum 7);
                     ("category", JArr [option_dict (JNum 1) (JStr "Sports")]);
                     ("campaign", option_dict (JNum 3) (JStr "Summer"));
                     ("is_active", JBool true)])
              eq_refl eq_refl eq_refl)
    as (s1 & H1 & H2 & _ & _ & H5 & _ & H7 & H8 & _).
  exists s1. repeat split; assumption.
Defined.

(** ** Saving a row *)

Lemma get_not_nullish (v : jsval) (k : string) :
  not_nullish v = true → get v k = Some (default JUndef (get v k)).
Proof. by destruct v. Qed.

Lemma truthy_not_nullish (v : jsval) : truthy v = true → not_nullish v = true.
Proof. by destruct v. Qed.

Lemma mapM_get_value (items : list jsval) :
  forallb not_nullish items = true →
  mapM (λ i, get i "value") items =
    Some (map (λ i, default JUndef (get i "value")) items).
Proof.
  induction items as [|i items IH]; simpl; [done|].
  intros [Hi Hr]%andb_prop.
  rewrite (get_not_nullish i "value" Hi), (IH Hr). reflexivity.
Qed.

Lemma update_request_object (GROUP_URL : string) (o : obj) :
  category_is_option_list o = true →
  truthy (assoc "campaign" o) = true →
  update_request GROUP_URL (JObj o) =
    Some (update_body o, GROUP_URL +:+ to_string (assoc "id" o) +:+ "/").
Proof.
  unfold category_is_option_list, update_request, update_body. intros Hc Hp.
  simpl. destruct (assoc "category" o) as [| | | | |items|] eqn:E; try done.
  simpl. rewrite (mapM_get_value items Hc). simpl.
  rewrite (get_not_nullish _ "value" (truthy_not_nullish _ Hp)). reflexivity.
Qed.

Lemma handleValidation_passes (s s1 : state) (o : obj) :
  fields_value s = Some (JObj o) →
  handleValidation s = Some (true, s1) →
  truthy (assoc "category" o) = true
  ∧ truthy (assoc "campaign" o) = true
  ∧ s1 = set_errors ∅ s.
Proof.
  intros Hf Hv. destruct (handleValidation_object s o Hf) as (errs & He & Hh).
  rewrite Hh in Hv. rewrite validate_object in He.
  destruct (truthy (assoc "category" o)), (truthy (assoc "campaign" o));
    simpl in *; try discriminate.
  repeat split. congruence.
Qed.

Lemma mapM_get_nullish (k : string) (items : list jsval) :
  forallb not_nullish items = false →
  mapM (λ i, get i k) items = None.
Proof.
  induction items as [|i items IH]; simpl; [done|].
  intros H. apply andb_false_iff in H as [H|H].
  - by destruct i.
  - rewrite (IH H). by destruct (get i k).
Qed.

Lemma update_request_unreadable (GROUP_URL : string) (o : obj) :
  category_is_option_list o = false →
  update_request GROUP_URL (JObj o) = None.
Proof.
  unfold category_is_option_list, update_request. simpl.
  destruct (assoc "category" o) as [| | | | |items|]; try done.
  intros H. simpl. by rewrite (mapM_get_nullish "value" items H).
Qed.

(** On the values an id takes, [to_string] is the language's ToString,
    which prints an integer below 10^21 in decimal. *)
Lemma to_string_on_keys (number_to_string : Z → string) (v : jsval) :
  (∀ n : Z, (Z.abs n < 10 ^ 21)%Z → number_to_string n = pretty n) →
  is_key v = true →
  ToString number_to_string v = Some (to_string v).
Proof.
  intros Hn. destruct v as [| | |n| | |]; simpl; try done.
  intros H%Z.ltb_lt. by rewrite Hn.
Qed.

(** C4, as stated, fails: [submitRow] reads nothing of the click.  With
    the rows 7 and 8 both in edit mode, 8 edited last, a click on the
    Save button of row 7 passes validation and sends the PUT of row 8 to
    the URL of row 8; when the response arrives with that group, the
    in-edit flag of row 8 is cleared and row 7 is still in edit mode. *)
Lemma save_on_one_row_updates_the_row_edited_last :
  let page := JObj [("results", JArr [demo_row; GroupNotions.demo_second_row]);
                    ("next", JNull); ("previous", JNull)] in
  let s := run demo_url (mounted demo_url demo_categories_url)
             [Response 0 (Success page); ClickEdit 0 "7"; ClickEdit 1 "8"] in
  let s1 := state_of (step demo_url s (ClickSave "7")) in
  let s2 := state_of (step demo_url s1
                        (Response 1 (Success (JObj [("id", JNum 8)])))) in
  (rows s !! "7" = Some true ∧ rows s !! "8" = Some true)
  ∧ handleValidation s = Some (true, set_errors ∅ s)
  ∧ net s1 =
      net s ++
      [Request PUT (JStr "/api/v1/groups/8/")
         (Some (JObj [("campaign", JNum 4); ("category", JArr [JNum 2]);
                      ("id", JNum 8); ("is_active", JBool false)]))
         cb_groupUpdateResponse (clean_results true) by_submitRow]
  ∧ rows s2 !! "7" = Some true
  ∧ rows s2 !! "8" = Some false.
Proof. vm_compute. repeat split. Qed.

(** C4, amended: the entity [submitRow] updates is the one the form
    fields hold, the row edited last, whichever Save button was clicked,
    and the flag cleared is the one of the id the response carries.  When
    the fields pass validation and their id is a string or an integer
    printed in decimal, a click on any Save button hands the transport
    exactly one request, a PUT of campaign, category, id and is_active to
    [GROUP_URL + id + "/"], provided the category is a list whose elements
    can be read; when it is not, the handler stops at a TypeError and
    nothing is sent.  When the response to the PUT arrives with a body
    whose id is such a value, the in-edit flag of that id is false,
    exactly one request is added, the GET of the whole collection, the
    collection is emptied, and the toast "Group Updated successfully" is
    shown at the success level. *)
Theorem submitRow_puts_once_and_reloads_on_success :
  ∀ (GROUP_URL : string) (s s1 : state) (o : obj) (clicked : string),
    fields_value s = Some (JObj o) →
    handleValidation s = Some (true, s1) →
    is_key (assoc "id" o) = true →
    let url := GROUP_URL +:+ to_string (assoc "id" o) +:+ "/" in
    let put := Request PUT (JStr url) (Some (update_body o))
                 cb_groupUpdateResponse (clean_results true) by_submitRow in
    let after := step GROUP_URL s (ClickSave clicked) in
    (if category_is_option_list o
     then after = Done (set_net (net s ++ [put]) (set_errors ∅ s))
     else returned after = false ∧ net (state_of after) = net s)
    ∧ ∀ (reply rid : jsval),
        category_is_option_list o = true →
        get reply "id" = Some rid →
        is_key rid = true →
        ∃ s2,
          step GROUP_URL (state_of after)
            (Response (length (net s)) (Success reply)) = Done s2
          ∧ rows s2 = <[to_string rid := false]> (rows s)
          ∧ net s2 = net s ++ [Request GET (JStr GROUP_URL) None
                                 cb_getGroupsData no_extra by_getGroups]
          ∧ toasts s2 = toasts s ++ [Toast (JStr "Group Updated successfully") None]
          ∧ level_of (Toast (JStr "Group Updated successfully") None) = "success"
          ∧ results s2 = []
          ∧ loading s2 = true.
Proof.
  intros GROUP_URL s s1 o clicked Hf Hv _ url put after.
  destruct (handleValidation_passes s s1 o Hf Hv) as (Hc & Hp & ->).
  unfold fields_value in Hf.
  assert (Hsub : category_is_option_list o = true →
                 after = Done (set_net (net s ++ [put]) (set_errors ∅ s))).
  { intros Hshape. subst after. simpl. unfold submitRow. rewrite Hv. simpl.
    rewrite Hf. simpl.
    rewrite (update_request_object GROUP_URL o Hshape Hp). reflexivity. }
  split.
  - destruct (category_is_option_list o) eqn:Hshape; [by apply Hsub|].
    subst after. simpl. unfold submitRow. rewrite Hv. simpl.
    rewrite Hf. simpl.
    by rewrite (update_request_unreadable GROUP_URL o Hshape).
  - intros reply rid Hshape Hid _. rewrite (Hsub Hshape). simpl.
    rewrite list_lookup_middle by reflexivity. simpl.
    unfold groupUpdateResponse. rewrite Hid. simpl.
    eexists; split; [reflexivity|]. simpl.
    rewrite delete_middle, app_nil_r. repeat split.
Qed.

Lemma submitRow_puts_once_and_reloads_on_success_witness :
  let s := run demo_url (demo_loaded JNull) [ClickEdit 0 "7"] in
  let o := [("id", JNum 7);
            ("category", JArr [option_dict (JNum 1) (JStr "Sports")]);
            ("campaign", option_dict (JNum 3) (JStr "Summer"));
            ("is_active", JBool true)] in
  fields_value s = Some (JObj o)
  ∧ handleValidation s = Some (true, set_errors ∅ s)
  ∧ is_key (assoc "id" o) = true
  ∧ step demo_url s (ClickSave "7") =
      Done (set_net
              (net s ++
               [Request PUT (JStr "/api/v1/groups/7/")
                  (Some (JObj [("campaign", JNum 3); ("category", JArr [JNum 1]);
                               ("id", JNum 7); ("is_active", JBool true)]))
                  cb_groupUpdateResponse (clean_results true) by_submitRow])
              (set_errors ∅ s)).
Proof.
  intros s o.
  assert (H1 : fields_value s = Some (JObj o)) by (vm_compute; reflexivity).
  assert (H2 : handleValidation s = Some (true, set_errors ∅ s))
    by (vm_compute; reflexivity).
  assert (H3 : is_key (assoc "id" o) = true) by (vm_compute; reflexivity).
  split; [exact H1|]. split; [exact H2|]. split; [exact H3|].
  pose proof (proj1 (submitRow_puts_once_and_reloads_on_success demo_url
                       s _ o "7" H1 H2 H3)) as H.
  vm_compute in H |- *. exact H.
Defined.

(** [editRow] leaves fields of the shape [submitRow] needs. *)
Lemma mapM_category_option_not_nullish (items selected : list jsval) :
  mapM category_option items = Some selected →
  forallb not_nullish selected = true.
Proof.
  rewrite mapM_Some. induction 1 as [|i y items sel Hy _ IH]; [done|].
  simpl. rewrite IH, andb_true_r.
  unfold category_option in Hy. by simplify_option_eq.
Qed.

Lemma editRow_fields_shape (index : nat) (dataindex : string) (s s1 : state) :
  editRow index dataindex s = Done s1 →
  ∃ o, fields_value s1 = Some (JObj o) ∧ category_is_option_list o = true.
Proof.
  unfold editRow. intros H.
  destruct (results s !! index) as [a|] eqn:Hi; [|done].
  destruct (heap s !! a) as [row|] eqn:Ha; simpl in H; [|done].
  destruct (edited_row row) as [row'|] eqn:He; [|done].
  injection H as <-. unfold fields_value; simpl.
  rewrite list_lookup_insert_eq by (by eapply lookup_lt_Some).
  destruct (edited_row_shape _ _ He) as (o & sel & camp & -> & -> & Hsel & _).
  eexists; split; [reflexivity|].
  unfold category_is_option_list.
  rewrite assoc_set_other by done. rewrite assoc_set_same.
  destruct (not_null (assoc "category" o)).
  - destruct (as_array (assoc "category" o)) as [items|]; [|done].
    simpl in Hsel. by eapply mapM_category_option_not_nullish.
  - by subst sel.
Qed.

(** ** Deleting a row *)






(** ** The collection between resets *)

Lemma get_nullish (v : jsval) (k : string) :
  not_nullish v = false → get v k = None.
Proof. by destruct v. Qed.

Lemma handleValidation_sets_errors (s s1 : state) (b : bool) :
  handleValidation s = Some (b, s1) → ∃ errs, s1 = set_errors errs s.
Proof.
  unfold handleValidation. intros H.
  destruct (heap s !! fields s) as [flds|]; simpl in H; [|done].
  destruct (validate flds) as [[errs ok]|]; simpl in H; [|done].
  injection H as <- <-. by exists errs.
Qed.

Lemma set_field_sets_heap (k : string) (v : jsval) (s s1 : state) :
  set_field k v s = Some s1 → ∃ h, s1 = set_heap h s.
Proof.
  unfold set_field. intros H. repeat case_match; simplify_eq. by eexists.
Qed.

Lemma handleValidation_paging (s : state) :
  ∀ b s1, handleValidation s = Some (b, s1) → paging s1 = paging s.
Proof.
  intros b s1 H. by destruct (handleValidation_sets_errors _ _ _ H) as [errs ->].
Qed.

Lemma handleChange_paging (c : change) (s : state) :
  paging (state_of (handleChange c s)) = paging s.
Proof.
  unfold handleChange.
  set (assigned := match c with
                   | ChangeCategory _ _ => _
                   | ChangeIsActive _ => _
                   | ChangeCampaign _ _ => _
                   end).
  assert (Ha : ∀ s1, assigned = Some s1 → paging s1 = paging s).
  { intros s1 H. subst assigned.
    repeat case_match; simplify_eq; try done;
      by destruct (set_field_sets_heap _ _ _ _ H) as [h ->]. }
  destruct assigned as [s1|]; [|done].
  destruct (handleValidation s1) as [[b s2]|] eqn:Hv; simpl.
  - rewrite (handleValidation_paging _ _ _ Hv). by apply Ha.
  - by apply Ha.
Qed.

Lemma editRow_paging (index : nat) (dataindex : string) (s : state) :
  paging (state_of (editRow index dataindex s)) = paging s.
Proof. unfold editRow. by repeat case_match. Qed.

Lemma groupSubmit_adds_mutation (GROUP_URL : string) (s : state) :
  added_mutation s (state_of (groupSubmit GROUP_URL s)).
Proof.
  unfold groupSubmit.
  destruct (handleValidation s) as [[b s1]|] eqn:Hv; [|by repeat split; left].
  destruct (handleValidation_sets_errors _ _ _ Hv) as [errs ->].
  destruct b; [|by repeat split; left].
  simpl. case_match; [|by repeat split; left].
  repeat split. right. eexists; split; [reflexivity|]. done.
Qed.

Lemma submitRow_adds_mutation (GROUP_URL : string) (s : state) :
  added_mutation s (state_of (submitRow GROUP_URL s)).
Proof.
  unfold submitRow.
  destruct (handleValidation s) as [[b s1]|] eqn:Hv; [|by repeat split; left].
  destruct (handleValidation_sets_errors _ _ _ Hv) as [errs ->].
  destruct b; [|by repeat split; left].
  simpl. destruct (heap s !! fields s ≫= update_request GROUP_URL)
    as [[body url]|]; [|by repeat split; left].
  repeat split. right. eexists; split; [reflexivity|]. done.
Qed.

Lemma deleteRow_adds_mutation (GROUP_URL dataindex : string) (s : state) :
  added_mutation s (deleteRow GROUP_URL dataindex s).
Proof.
  repeat split. right. eexists; split; [reflexivity|]. done.
Qed.






(** ** Pagination *)

Lemma collection_gets_app (n1 n2 : list request) :
  collection_gets (n1 ++ n2) = collection_gets n1 + collection_gets n2.
Proof. unfold collection_gets. by rewrite filter_app, length_app. Qed.

Lemma collection_gets_delete (n : list request) (i : nat) (r : request) :
  n !! i = Some r →
  collection_gets n =
    collection_gets (delete i n)
    + (if decide (r_callback r = cb_getGroupsData) then 1 else 0).
Proof.
  intros Hi. rewrite <- (take_drop_middle n i r Hi) at 1.
  rewrite delete_take_drop, !collection_gets_app.
  change (r :: drop (S i) n) with ([r] ++ drop (S i) n).
  rewrite collection_gets_app. unfold collection_gets at 2.
  rewrite filter_cons, filter_nil. case_decide; simpl; lia.
Qed.

Lemma pages_le_collection_gets (n : list request) :
  Forall (λ r, r_issuer r = by_getNext → r_callback r = cb_getGroupsData) n →
  pages_in_flight n ≤ collection_gets n.
Proof.
  unfold pages_in_flight, collection_gets.
  induction 1 as [|r n Hr _ IH]; [done|].
  rewrite !filter_cons. repeat case_decide; simpl; try lia.
  by destruct (Hr ltac:(done)).
Qed.

Lemma guarded_frame (s s' : state) :
  net s' = net s → loading s' = loading s → next s' = next s →
  guarded s → guarded s'.
Proof. unfold guarded. by intros -> -> ->. Qed.

Lemma guarded_added_mutation (s s' : state) :
  added_mutation s s' → guarded s → guarded s'.
Proof.
  intros (_ & Hl & Hn & _ & [Hnet | (r & Hnet & Hcb & Hby)]) Hg.
  - by apply (guarded_frame s).
  - destruct Hg as [Hc Hf]. unfold guarded.
    rewrite Hnet, Hl, Hn, collection_gets_app. split.
    + unfold collection_gets at 2 4. rewrite filter_cons, filter_nil.
      rewrite decide_False by done. simpl. by rewrite !Nat.add_0_r.
    + apply Forall_app. split; [done|]. by apply Forall_singleton.
Qed.

Lemma guarded_removed (s : state) (i : nat) (req : request) :
  net s !! i = Some req → guarded s →
  guarded (set_net (delete i (net s)) s)
  ∧ (r_callback req = cb_getGroupsData →
     collection_gets (delete i (net s)) = 0).
Proof.
  intros Hi [Hc Hf]. pose proof (collection_gets_delete _ _ _ Hi) as Hd.
  assert (Hf' : Forall (λ r, r_issuer r = by_getNext →
                             r_callback r = cb_getGroupsData)
                  (delete i (net s))).
  { rewrite delete_take_drop. apply Forall_app.
    split; [by apply Forall_take|by apply Forall_drop]. }
  split; [split; [|done]|]; simpl.
  - case_decide.
    + left. destruct Hc as [Hc|[Hc _]]; lia.
    + destruct Hc as [Hc|[Hc Hx]]; [left; lia|right; split; [lia|done]].
  - intros Hcb. rewrite decide_True in Hd by done.
    destruct Hc as [Hc|[Hc _]]; lia.
Qed.

Lemma guarded_step (GROUP_URL : string) (s : state) (e : event) :
  guarded s → refetches s e = false →
  guarded (state_of (step GROUP_URL s e)).
Proof.
  intros Hg Hr.
  destruct e as [tbl|b|v|key|c| | | |i d|i d|d|i r|i]; simpl in Hr; simpl.
  - by apply (guarded_frame s).
  - unfold handleScroll. destruct b; [|done].
    destruct (loading s) eqn:Hl; [done|].
    destruct (truthy (next s)) eqn:Hn; [|done]. simpl.
    destruct Hg as [[Hc|[_ [?|?]]] Hf]; try congruence.
    unfold guarded, getNext, getRequest; simpl.
    rewrite collection_gets_app, Hc. split.
    + right. split; [reflexivity|]. by left.
    + apply Forall_app. split; [done|]. by apply Forall_singleton.
  - by apply (guarded_frame s).
  - unfold handleKeyPress. by rewrite Hr.
  - pose proof (handleChange_paging c s) as Hp. injection Hp as _ Hn Hl Hx _.
    by apply (guarded_frame s).
  - eapply guarded_added_mutation; [apply groupSubmit_adds_mutation|done].
  - by apply (guarded_frame s).
  - eapply guarded_added_mutation; [apply submitRow_adds_mutation|done].
  - pose proof (editRow_paging i d s) as Hp. injection Hp as _ Hn Hl Hx _.
    by apply (guarded_frame s).
  - by apply (guarded_frame s).
  - eapply guarded_added_mutation; [apply deleteRow_adds_mutation|done].
  - destruct (net s !! i) as [req|] eqn:Hi; [|done].
    destruct (guarded_removed s i req Hi Hg) as [Hg1 Hz].
    destruct r as [body|]; [|done].
    destruct (r_callback req) eqn:Hcb; simpl.
    + unfold getGroupsData. case_match; [|done].
      destruct p as [[fetched nxt] prev]. simpl.
      destruct Hg1 as [_ Hf]. split; [|done]. left. simpl. by apply Hz.
    + unfold getCampaignCategories.
      repeat case_match; by apply (guarded_frame (set_net (delete i (net s)) s)).
    + unfold groupSubmitResponse, setTimeout.
      case_match; by apply (guarded_frame (set_net (delete i (net s)) s)).
    + unfold groupUpdateResponse. rewrite (get_nullish _ _ Hr).
      by apply (guarded_frame (set_net (delete i (net s)) s)).
    + unfold deleteGroupResponse.
      case_match; by apply (guarded_frame (set_net (delete i (net s)) s)).
  - destruct (timers s !! i) as [[ms [clean|findrow]]|] eqn:Hi; try done.
    simpl. case_match; by apply (guarded_frame s).
Qed.

Lemma guarded_run (GROUP_URL : string) (es : list event) (s : state) :
  guarded s → no_refetch GROUP_URL s es = true →
  guarded (run GROUP_URL s es).
Proof.
  revert s. induction es as [|e es IH]; intros s Hg Hq; [done|].
  simpl in *. apply andb_prop in Hq as [He Hq]. apply negb_true_iff in He.
  apply IH; [|done]. by apply guarded_step.
Qed.

Lemma guarded_mounted (GROUP_URL CATEGORIES_CAMPAIGN_URL : string) :
  guarded (mounted GROUP_URL CATEGORIES_CAMPAIGN_URL).
Proof.
  split.
  - right. split; [reflexivity|]. by right.
  - repeat constructor; done.
Qed.

Lemma getGroupsData_appends (s : state) (body : jsval) (fetched : list jsval) :
  isArray body = false →
  get body "results" ≫= spread = Some fetched →
  ∃ s',
    getGroupsData body s = Done s'
    ∧ results s' = results s ++ seq (length (heap s)) (length fetched)
    ∧ heap s' = heap s ++ fetched
    ∧ Some (next s') = get body "next"
    ∧ Some (previous s') = get body "previous"
    ∧ loading s' = false
    ∧ net s' = net s.
Proof.
  intros Ha Hf. unfold getGroupsData. rewrite Ha, Hf. simpl.
  destruct body; try done; simpl; eexists; by repeat split.
Qed.

(** C1, as stated, fails.  With a next cursor and no load in flight, a
    scroll that does not end at the bottom issues no request.  And two
    page requests can be in flight at once: after Enter in the search
    box and a scroll to the bottom, the response to the search opens the
    scroll handler again while the page asked for by the first scroll is
    still awaited, and the next scroll asks for a second page. *)
Lemma two_page_requests_in_flight :
  let s0 := demo_loaded (JStr "/api/v1/groups/?page=2") in
  let s := run demo_url s0
             [KeyPress "Enter";
              Scroll true;
              Response 1 (Success (demo_page (JStr "/api/v1/groups/?page=2&q=")));
              Scroll true] in
  (next s0 = JStr "/api/v1/groups/?page=2" ∧ loading s0 = false
   ∧ handleScroll false s0 = s0)
  ∧ pages_in_flight (net s) = 2
  ∧ filter (λ r, r_issuer r = by_getNext) (net s) =
      [Request GET (JStr "/api/v1/groups/?page=2") None cb_getGroupsData
         no_extra by_getNext;
       Request GET (JStr "/api/v1/groups/?page=2&q=") None cb_getGroupsData
         no_extra by_getNext].
Proof. vm_compute. repeat split. Qed.

(** C1, amended: the scroll handler issues no request when a load is in
    flight, when the next cursor is falsy (null, undefined or empty) or
    when the window is not at the bottom; otherwise it issues exactly
    one GET for the next cursor and shuts itself by setting [loading].
    The response appends its rows, stores its cursors and opens the
    handler again.  From the mount on, as long as no search, create or
    update asks for the first page again, at most one GET of the
    collection, hence at most one page request, is in flight. *)
Theorem handleScroll_guards_pagination :
  (∀ (s : state) (at_bottom : bool),
     loading s = true ∨ truthy (next s) = false ∨ at_bottom = false →
     handleScroll at_bottom s = s)
  ∧ (∀ s : state,
       loading s = false → truthy (next s) = true →
       handleScroll true s =
         set_net (net s ++ [Request GET (next s) None cb_getGroupsData
                              no_extra by_getNext])
           (set_page (page s + 1)%Z (set_loading true s)))
  ∧ (∀ (s : state) (body : jsval) (fetched : list jsval),
       isArray body = false →
       get body "results" ≫= spread = Some fetched →
       ∃ s',
         getGroupsData body s = Done s'
         ∧ results s' = results s ++ seq (length (heap s)) (length fetched)
         ∧ heap s' = heap s ++ fetched
         ∧ Some (next s') = get body "next"
         ∧ Some (previous s') = get body "previous"
         ∧ loading s' = false
         ∧ net s' = net s)
  ∧ (∀ (GROUP_URL CATEGORIES_CAMPAIGN_URL : string) (es : list event),
       no_refetch GROUP_URL (mounted GROUP_URL CATEGORIES_CAMPAIGN_URL) es = true →
       collection_gets
         (net (run GROUP_URL (mounted GROUP_URL CATEGORIES_CAMPAIGN_URL) es)) ≤ 1
       ∧ pages_in_flight
           (net (run GROUP_URL (mounted GROUP_URL CATEGORIES_CAMPAIGN_URL) es)) ≤ 1).
Proof.
  split; [|split; [|split]].
  - intros s b H. unfold handleScroll. destruct b; [|done].
    destruct H as [->|[->|?]]; [done| |done]. by rewrite andb_false_r.
  - intros s Hl Hn. unfold handleScroll. by rewrite Hl, Hn.
  - apply getGroupsData_appends.
  - intros U C es Hq.
    destruct (guarded_run U es _ (guarded_mounted U C) Hq) as [Hc Hf].
    pose proof (pages_le_collection_gets _ Hf).
    destruct Hc as [Hc|[Hc _]]; lia.
Qed.

Lemma handleScroll_guards_pagination_witness :
  let s := demo_loaded (JStr "/api/v1/groups/?page=2") in
  let es := [Response 0 (Success (demo_page (JStr "/api/v1/groups/?page=2")));
             Scroll true; Scroll true] in
  (loading s = false ∧ truthy (next s) = true)
  ∧ handleScroll true s =
      set_net (net s ++ [Request GET (next s) None cb_getGroupsData
                           no_extra by_getNext])
        (set_page (page s + 1)%Z (set_loading true s))
  ∧ handleScroll true (handleScroll true s) = handleScroll true s
  ∧ no_refetch demo_url (mounted demo_url demo_categories_url) es = true
  ∧ pages_in_flight
      (net (run demo_url (mounted demo_url demo_categories_url) es)) ≤ 1.
Proof.
  intros s es.
  destruct handleScroll_guards_pagination as (Hshut & Hopen & _ & Hinv).
  assert (Hq : no_refetch demo_url (mounted demo_url demo_categories_url) es = true)
    by (vm_compute; reflexivity).
  split; [split; reflexivity|].
  split; [apply Hopen; reflexivity|].
  split; [apply Hshut; left; reflexivity|].
  split; [exact Hq|].
  exact (proj2 (Hinv demo_url demo_categories_url es Hq)).
Defined.

End GroupProps.

(** * Properties of the Bookmark view *)

Module BookmarkProps.
Import JS Bookmark BookmarkSpec.

Lemma splice1_minus_one {A : Type} (l : list A) :
  splice1 (-1) l = removelast l.
Proof.
  unfold splice1. simpl.
  destruct l as [|x l'] using rev_ind; [done|].
  rewrite removelast_last, length_app. simpl.
  replace (Z.to_nat (Z.max (Z.of_nat (length l' + 1) + -1) 0))
    with (length l') by lia.
  by rewrite delete_middle, app_nil_r.
Qed.

Lemma indexOf_prim (posts : list (nat * jsval)) (v : jsval) :
  indexOf posts (Prim v) = (-1)%Z.
Proof. induction posts as [|p posts IH]; simpl; [done|]. by rewrite IH. Qed.

Lemma indexOf_unallocated (posts : list (nat * jsval)) (a : nat) :
  Forall (λ p : nat * jsval, fst p < a) posts →
  indexOf posts (Ref a) = (-1)%Z.
Proof.
  induction 1 as [|p posts Hp _ IH]; simpl; [done|].
  destruct (Nat.eqb_spec (fst p) a); [lia|]. by rewrite IH.
Qed.

Section Props.

Variables (DOMAIN MENUS ARTICLE_BOOKMARK ALL_ARTICLE_BOOKMARK
           ARTICLE_LOGOUT SUGGESTIONS : string).
Variable format_date : jsval -> jsval.
Variable decodeURIComponent : string -> option string.
Variable number_to_string : Z -> string.

Abbreviation step :=
  (Bookmark.step DOMAIN ARTICLE_BOOKMARK ALL_ARTICLE_BOOKMARK ARTICLE_LOGOUT
     SUGGESTIONS format_date decodeURIComponent number_to_string).
Abbreviation getBookmarksArticles :=
  (Bookmark.getBookmarksArticles format_date decodeURIComponent
     number_to_string).
Abbreviation articleBookmarkResponse :=
  (Bookmark.articleBookmarkResponse DOMAIN ALL_ARTICLE_BOOKMARK).
Abbreviation componentDidMount :=
  (Bookmark.componentDidMount DOMAIN MENUS ALL_ARTICLE_BOOKMARK).
Abbreviation collect :=
  (Bookmark.collect format_date decodeURIComponent number_to_string).
Abbreviation article_dict :=
  (Bookmark.article_dict format_date decodeURIComponent number_to_string).
Abbreviation item_ok :=
  (BookmarkSpec.item_ok decodeURIComponent number_to_string).
Abbreviation page_ok :=
  (BookmarkSpec.page_ok decodeURIComponent number_to_string).
Abbreviation fetch_all :=
  (BookmarkSpec.fetch_all format_date decodeURIComponent number_to_string).
Abbreviation readable :=
  (BookmarkSpec.readable decodeURIComponent number_to_string).
Abbreviation appended :=
  (BookmarkSpec.appended decodeURIComponent number_to_string).

(** ** Toggling a bookmark *)

Lemma articleBookmarkResponse_index (s : state) (body bookmark_obj article : jsval) :
  get body "bookmark_article" = Some bookmark_obj →
  get bookmark_obj "article" = Some article →
  posts_allocated s →
  ∃ s', articleBookmarkResponse body s = Done s'
        ∧ newsPosts s' = removelast (newsPosts s)
        ∧ fresh s' = S (fresh s)
        ∧ article_array s' = article_array s
        ∧ (net s' = net s
           ∨ net s' = net s ++
               [Request GET (ALL_ARTICLE_BOOKMARK +:+ "?" +:+ domain DOMAIN) None
                  cb_getBookmarksArticles (token_headers s)]).
Proof.
  intros Hb Ha Hp. unfold Bookmark.articleBookmarkResponse. rewrite Hb. simpl.
  rewrite Ha.
  assert (Hi : indexOf (newsPosts s)
                 match article with
                 | JObj _ | JArr _ => Ref (fresh s)
                 | v => Prim v
                 end = (-1)%Z).
  { destruct article; auto using indexOf_prim, indexOf_unallocated. }
  rewrite Hi. simpl. rewrite splice1_minus_one.
  destruct (truthy (cookies_get _ _)); eexists; (split; [reflexivity|]);
    simpl; repeat split; auto.
Qed.

(** C7: whatever article the response names, [articleBookmarkResponse]
    removes the last post of the list, because no post is the value the
    response carries: [indexOf] answers -1 and [splice(-1, 1)] drops the
    last element. *)
Theorem articleBookmarkResponse_removes_last_post :
  ∀ (s : state) (body bookmark_obj article : jsval),
    get body "bookmark_article" = Some bookmark_obj →
    get bookmark_obj "article" = Some article →
    posts_allocated s →
    newsPosts (state_of (articleBookmarkResponse body s))
      = removelast (newsPosts s).
Proof.
  intros s body bookmark_obj article Hb Ha Hp.
  destruct (articleBookmarkResponse_index s body bookmark_obj article Hb Ha Hp)
    as (s' & -> & Hn & _). exact Hn.
Qed.

(** ** The module's array of articles *)

Lemma collect_spec (items : list jsval) :
  ∀ (news : list (nat * jsval)) (arts : list jsval) (a : nat)
    (fin : bool) (news' : list (nat * jsval)) (arts' : list jsval) (a' : nat),
    collect items news arts a = (fin, news', arts', a') →
    (∃ pushed, arts' = arts ++ pushed
               ∧ (fin = true → pushed = cover_articles items))
    ∧ a ≤ a'
    ∧ (Forall (λ p : nat * jsval, fst p < a) news →
       Forall (λ p : nat * jsval, fst p < a') news').
Proof.
  induction items as [|item items IH]; intros news arts a fin news' arts' a' H;
    simpl in H.
  - injection H as <- <- <- <-. split; [|done].
    exists []. by rewrite app_nil_r.
  - assert (Hstop : (false, news, arts, a) = (fin, news', arts', a') →
            (∃ pushed, arts' = arts ++ pushed
               ∧ (fin = true → pushed = cover_articles (item :: items)))
            ∧ a ≤ a'
            ∧ (Forall (λ p : nat * jsval, fst p < a) news →
               Forall (λ p : nat * jsval, fst p < a') news')).
    { intros [= <- <- <- <-]. split; [|done].
      exists []. rewrite app_nil_r. done. }
    destruct (get item "article") as [article|] eqn:Ea; [|by apply Hstop].
    destruct (get article "cover_image") as [cover|] eqn:Ec; [|by apply Hstop].
    destruct (truthy cover) eqn:Et.
    + destruct (article_dict article) as [d|]; [|by apply Hstop].
      destruct (IH _ _ _ _ _ _ _ H) as ((pushed & -> & Hfin) & Hle & Hall).
      split; [|split].
      * exists (article :: pushed). rewrite <- app_assoc. split; [done|].
        intros Ht. rewrite (Hfin Ht).
        unfold cover_articles, keep. simpl. rewrite Ea. simpl.
        by rewrite Ec; simpl; rewrite Et.
      * lia.
      * intros Hn. apply Hall. apply Forall_app. split.
        -- eapply Forall_impl; [exact Hn|]. simpl. lia.
        -- apply Forall_singleton. simpl. lia.
    + destruct (IH _ _ _ _ _ _ _ H) as ((pushed & -> & Hfin) & Hle & Hall).
      split; [|done]. exists pushed. split; [done|].
      intros Ht. rewrite (Hfin Ht).
      unfold cover_articles, keep. simpl. rewrite Ea. simpl.
      by rewrite Ec; simpl; rewrite Et.
Qed.

(** What one call of [getBookmarksArticles] does to the module's array
    and to the posts, whether it runs to its end or throws. *)
Lemma getBookmarksArticles_effect (body : jsval) (s : state) :
  (∃ pushed,
     article_array (state_of (getBookmarksArticles body s))
       = article_array s ++ pushed
     ∧ (returned (getBookmarksArticles body s) = true →
        pushed = cover_articles_of body
        ∧ bookmark_ids (state_of (getBookmarksArticles body s))
            = the_article_array))
  ∧ (posts_allocated s →
     posts_allocated (state_of (getBookmarksArticles body s))).
Proof.
  unfold Bookmark.getBookmarksArticles, cover_articles_of.
  destruct (get body "results" ≫= as_array) as [items|]; simpl.
  2: { split; [|done]. exists []. by rewrite app_nil_r. }
  destruct (collect items [] (article_array s) (fresh s))
    as [[[fin news] arts] a] eqn:Hc.
  destruct (collect_spec _ _ _ _ _ _ _ _ Hc) as ((pushed & -> & Hfin) & Hle & Hall).
  destruct fin; simpl.
  - split.
    + exists pushed. split; [done|]. intros _. split; [by apply Hfin|done].
    + intros _. unfold posts_allocated; simpl. by apply Hall.
  - split.
    + exists pushed. by split.
    + unfold posts_allocated; simpl. intros Hp.
      eapply Forall_impl; [exact Hp|]. simpl. lia.
Qed.

Lemma step_article_array (s : state) (e : event) :
  ∃ pushed, article_array (state_of (step s e)) = article_array s ++ pushed.
Proof.
  assert (Hsame : ∀ s', article_array s' = article_array s →
                        ∃ pushed, article_array s' = article_array s ++ pushed).
  { intros s' ->. exists []. by rewrite app_nil_r. }
  destruct e as [d|d|d|d|a| |q|i r|i]; simpl.
  - by apply Hsame.
  - by apply Hsame.
  - apply Hsame. unfold toggleSwitch, disable_dark_style.
    by repeat case_match.
  - apply Hsame. unfold isSideBarToogle. by repeat case_match.
  - apply Hsame. unfold getArticleId. by case_match.
  - by apply Hsame.
  - by apply Hsame.
  - destruct (net s !! i) as [req|]; [|by apply Hsame].
    destruct r as [body|]; [|by apply Hsame].
    destruct (r_callback req); simpl.
    + apply Hsame. unfold getMenu. by case_match.
    + destruct (getBookmarksArticles_effect body (set_net (delete i (net s)) s))
        as ((pushed & Hp & _) & _).
      by exists pushed.
    + apply Hsame. unfold Bookmark.articleBookmarkResponse.
      destruct (get body "bookmark_article" ≫= _) as [article|]; [|done].
      by destruct (truthy (cookies_get _ _)).
    + by apply Hsame.
    + apply Hsame. unfold getSuggestionsResponse. by case_match.
  - destruct (timers s !! i); by apply Hsame.
Qed.

(** The invariant the removal of C7 rests on holds from the constructor
    on. *)
Lemma step_posts_allocated (s : state) (e : event) :
  posts_allocated s → posts_allocated (state_of (step s e)).
Proof.
  intros Hp.
  destruct e as [d|d|d|d|a| |q|i r|i]; simpl; try done.
  - unfold toggleSwitch, disable_dark_style. by repeat case_match.
  - unfold isSideBarToogle. by repeat case_match.
  - unfold getArticleId. by case_match.
  - destruct (net s !! i) as [req|]; [|done].
    destruct r as [body|]; [|done].
    destruct (r_callback req); simpl.
    + unfold getMenu. by case_match.
    + by apply getBookmarksArticles_effect.
    + unfold Bookmark.articleBookmarkResponse.
      destruct (get body "bookmark_article" ≫= _) as [article|]; [|done].
      assert (Hd : ∀ k, Forall (λ p : nat * jsval, fst p < S (fresh s))
                          (splice1 k (newsPosts s))).
      { intros k. unfold splice1. rewrite delete_take_drop.
        apply Forall_app. split; [apply Forall_take|apply Forall_drop];
          (eapply Forall_impl; [exact Hp|]); simpl; lia. }
      destruct (truthy (cookies_get _ _)); unfold posts_allocated; simpl;
        apply Hd.
    + done.
    + unfold getSuggestionsResponse. by case_match.
  - by destruct (timers s !! i).
Qed.

(** When the card of an article can be built. *)
Lemma article_dict_defined (article cover : jsval) :
  get article "cover_image" = Some cover →
  is_Some (article_dict article) ↔
  is_Some (get article "slug" ≫= ToString number_to_string)
  ∧ is_Some (ToString number_to_string cover ≫= decodeURIComponent).
Proof.
  intros Hc. unfold Bookmark.article_dict.
  destruct article as [| |b|z|str|l|o]; try done; simpl in *;
    injection Hc as <-; simpl.
  1-4: destruct (decodeURIComponent "undefined") as [d|]; simpl;
       split; try (by intros [? ?]); try (by intros [_ [? ?]]);
       by (intros _; split; eexists).
  destruct (ToString number_to_string (assoc "slug" o)) as [ss|]; simpl.
  2: { split; [by intros [? ?]|by intros [[? ?] _]]. }
  destruct (ToString number_to_string (assoc "cover_image" o)) as [cs|]; simpl.
  2: { split; [by intros [? ?]|by intros [_ [? ?]]]. }
  destruct (decodeURIComponent cs) as [d|]; simpl.
  - split; intros _; [split|]; by eexists.
  - split; [by intros [? ?]|by intros [_ [? ?]]].
Qed.

Lemma item_ok_shown (article cover : jsval) :
  get article "cover_image" = Some cover →
  bool_decide (is_Some (get article "slug" ≫= ToString number_to_string))
  && bool_decide (is_Some (ToString number_to_string cover
                             ≫= decodeURIComponent))
  = bool_decide (is_Some (article_dict article)).
Proof.
  intros Hc. pose proof (article_dict_defined article cover Hc) as H.
  repeat case_bool_decide; simpl; try done; tauto.
Qed.

Lemma collect_finishes (items : list jsval) :
  forallb item_ok items = true →
  ∀ news arts a, fst (fst (fst (collect items news arts a))) = true.
Proof.
  induction items as [|item items IH]; simpl; [done|].
  intros [Hi Hr]%andb_prop news arts a. unfold item_ok in Hi.
  destruct (get item "article") as [article|]; [|done].
  destruct (get article "cover_image") as [cover|] eqn:Ec; [|done].
  destruct (truthy cover); [|by apply IH].
  rewrite (item_ok_shown _ _ Ec) in Hi. apply bool_decide_eq_true in Hi.
  destruct Hi as [d ->]. by apply IH.
Qed.

Lemma getBookmarksArticles_returns (body : jsval) (s : state) :
  page_ok body = true → returned (getBookmarksArticles body s) = true.
Proof.
  unfold page_ok, Bookmark.getBookmarksArticles.
  destruct (get body "results" ≫= as_array) as [items|]; [|done].
  intros Hok.
  pose proof (collect_finishes items Hok [] (article_array s) (fresh s)) as Hf.
  destruct (collect items [] (article_array s) (fresh s)) as [[[fin news] arts] a].
  simpl in Hf. by subst fin.
Qed.

Lemma collect_app_ok (ok : list jsval) :
  forallb item_ok ok = true →
  ∀ (l : list jsval) (news : list (nat * jsval)) (arts : list jsval) (a : nat),
    ∃ posts,
      length posts = length (cover_articles ok)
      ∧ collect (ok ++ l) news arts a =
          collect l (news ++ posts) (arts ++ cover_articles ok)
            (a + length (cover_articles ok)).
Proof.
  induction ok as [|item ok IH]; intros Hok l news arts a.
  - exists []. by rewrite !app_nil_r, Nat.add_0_r.
  - simpl in Hok. apply andb_prop in Hok as [Hi Hok].
    unfold BookmarkSpec.item_ok in Hi.
    destruct (get item "article") as [article|] eqn:Ha; [|done].
    destruct (get article "cover_image") as [cover|] eqn:Hc; [|done].
    destruct (truthy cover) eqn:Ht.
    + rewrite (item_ok_shown _ _ Hc) in Hi. apply bool_decide_eq_true in Hi.
      destruct Hi as [d Hd].
      assert (Hcov : cover_articles (item :: ok) = article :: cover_articles ok).
      { unfold cover_articles, keep. simpl. rewrite Ha. simpl.
        rewrite Hc. simpl. by rewrite Ht. }
      rewrite Hcov. simpl. rewrite Ha, Hc, Ht, Hd.
      destruct (IH Hok l (news ++ [(a, d)]) (arts ++ [article]) (S a))
        as (posts & Hlen & ->).
      exists ((a, d) :: posts). simpl. split; [by rewrite Hlen|].
      by rewrite <- !app_assoc, Nat.add_succ_r.
    + assert (Hcov : cover_articles (item :: ok) = cover_articles ok).
      { unfold cover_articles, keep. simpl. rewrite Ha. simpl.
        rewrite Hc. simpl. by rewrite Ht. }
      rewrite Hcov. simpl. rewrite Ha, Hc, Ht.
      destruct (IH Hok l news arts a) as (posts & Hlen & ->).
      by exists posts.
Qed.

Lemma collect_stops (item : jsval) (rest : list jsval)
    (news : list (nat * jsval)) (arts : list jsval) (a : nat) :
  item_ok item = false →
  collect (item :: rest) news arts a = (false, news, arts, a).
Proof.
  unfold BookmarkSpec.item_ok. simpl. intros Hi.
  destruct (get item "article") as [article|]; [|done].
  destruct (get article "cover_image") as [cover|] eqn:Hc; [|done].
  destruct (truthy cover); [|done].
  rewrite (item_ok_shown _ _ Hc) in Hi. apply bool_decide_eq_false in Hi.
  destruct (article_dict article) as [d|]; [|done].
  destruct Hi. by eexists.
Qed.

Lemma readable_all (items : list jsval) :
  forallb item_ok items = true → readable items = items.
Proof.
  induction items as [|item items IH]; simpl; [done|].
  intros [Hi Hr]%andb_prop. by rewrite Hi, (IH Hr).
Qed.

(** What the loop of the handler does on any list of items. *)
Lemma collect_readable (items : list jsval) :
  ∀ (news : list (nat * jsval)) (arts : list jsval) (a : nat),
    ∃ posts a',
      collect items news arts a =
        (forallb item_ok items, news ++ posts,
         arts ++ cover_articles (readable items), a').
Proof.
  induction items as [|item items IH]; intros news arts a.
  - exists [], a. by rewrite !app_nil_r.
  - simpl forallb. simpl BookmarkSpec.readable.
    destruct (item_ok item) eqn:Hi.
    + destruct (collect_app_ok [item] ltac:(by simpl; rewrite Hi) items
                  news arts a) as (posts & _ & Hc).
      change ([item] ++ items) with (item :: items) in Hc. rewrite Hc.
      destruct (IH (news ++ posts) (arts ++ cover_articles [item])
                  (a + length (cover_articles [item])))
        as (posts' & a' & ->).
      exists (posts ++ posts'), a'. rewrite <- !app_assoc. simpl andb.
      do 3 f_equal. unfold cover_articles. simpl. by destruct (keep item).
    + exists [], a. rewrite (collect_stops item items news arts a Hi).
      by rewrite !app_nil_r.
Qed.

Lemma getBookmarksArticles_appends (body : jsval) (s : state) :
  article_array (state_of (getBookmarksArticles body s))
    = article_array s ++ appended body
  ∧ returned (getBookmarksArticles body s) = page_ok body
  ∧ bookmark_ids (state_of (getBookmarksArticles body s))
    = (if page_ok body then the_article_array else bookmark_ids s)
  ∧ (page_ok body = true → appended body = cover_articles_of body).
Proof.
  unfold Bookmark.getBookmarksArticles, BookmarkSpec.appended,
    BookmarkSpec.page_ok, cover_articles_of.
  destruct (get body "results" ≫= as_array) as [items|]; simpl.
  2: { by rewrite app_nil_r. }
  destruct (collect_readable items [] (article_array s) (fresh s))
    as (posts & a' & ->).
  destruct (forallb item_ok items) eqn:Hok; simpl.
  - repeat split; try done. intros _. by rewrite (readable_all items Hok).
  - by repeat split.
Qed.

Lemma fetch_all_appends (bodies : list jsval) (s : state) :
  article_array (fetch_all s bodies)
    = article_array s ++ concat (map appended bodies)
  ∧ (bookmark_ids s = the_article_array
     ∨ Exists (λ body, page_ok body = true) bodies →
     bookmark_ids (fetch_all s bodies) = the_article_array).
Proof.
  revert s. induction bodies as [|body bodies IH]; intros s; simpl.
  - rewrite app_nil_r. split; [done|]. intros [H|H]; [done|].
    by apply Exists_nil in H.
  - destruct (getBookmarksArticles_appends body s) as (Ha & _ & Hb & _).
    destruct (IH (state_of (getBookmarksArticles body s))) as [IHa IHb].
    rewrite IHa, Ha, <- app_assoc. split; [done|].
    intros H. apply IHb. rewrite Hb.
    destruct (page_ok body) eqn:Hok; [by left|].
    destruct H as [H|H]; [by left|]. right.
    apply Exists_cons in H as [H|H]; [congruence|done].
Qed.

(** C9, amended: no event ever removes an element of [article_array].
    Every call of [getBookmarksArticles] appends to it, in order, the
    articles that have a cover image of the items it gets through, which
    are the items before the first one that cannot be read: all items of
    the page when every item can be read, and none when the body has no
    list of results.  The call runs to its end exactly when every item
    can be read, and then makes [bookmark_ids] the array itself;
    otherwise it leaves [bookmark_ids] as it was.  So after k fetches
    [article_array] holds the concatenation of what the k calls appended,
    repeats included, and so does [bookmark_ids] once one of the calls
    has run to its end. *)
Theorem article_array_accumulates_cover_articles :
  (∀ (s : state) (e : event),
     article_array s `prefix_of` article_array (state_of (step s e)))
  ∧ (∀ (s : state) (body : jsval),
       article_array (state_of (getBookmarksArticles body s))
         = article_array s ++ appended body
       ∧ returned (getBookmarksArticles body s) = page_ok body
       ∧ bookmark_ids (state_of (getBookmarksArticles body s))
         = (if page_ok body then the_article_array else bookmark_ids s)
       ∧ (page_ok body = true → appended body = cover_articles_of body))
  ∧ (∀ (bodies : list jsval) (s : state),
       article_array (fetch_all s bodies)
         = article_array s ++ concat (map appended bodies)
       ∧ (Exists (λ body, page_ok body = true) bodies →
          bookmark_ids_value (fetch_all s bodies)
            = article_array s ++ concat (map appended bodies))).
Proof.
  split; [|split].
  - intros s e. destruct (step_article_array s e) as [pushed Hp]. by exists pushed.
  - intros s body. apply getBookmarksArticles_appends.
  - intros bodies s.
    destruct (fetch_all_appends bodies s) as [Ha Hb].
    split; [done|]. intros Hex. unfold bookmark_ids_value.
    by rewrite (Hb (or_intror Hex)).
Qed.

(** ** The mount *)

Lemma componentDidMount_cookies (s : state) :
  cookies (componentDidMount s) = cookies s.
Proof.
  unfold Bookmark.componentDidMount, getTheme, enable_dark_style,
    disable_dark_style, cookies_get; simpl.
  repeat case_match; reflexivity.
Qed.

Lemma step_token (s : state) (e : event) :
  cookies (state_of (step s e)) !! "token" = cookies s !! "token"
  ∨ cookies (state_of (step s e)) !! "token" = None.
Proof.
  destruct e as [d|d|d|d|a| |q|i r|i]; simpl; try by left.
  - left. unfold toggleSwitch, disable_dark_style.
    repeat case_match; simpl; by simplify_map_eq.
  - left. unfold isSideBarToogle. repeat case_match; simpl; by simplify_map_eq.
  - left. unfold getArticleId. by case_match.
  - destruct (net s !! i) as [req|]; [|by left].
    destruct r as [body|]; [|by left].
    destruct (r_callback req); simpl.
    + left. unfold getMenu. by case_match.
    + left. unfold Bookmark.getBookmarksArticles.
      destruct (get body "results" ≫= as_array) as [items|]; [|done].
      destruct (collect items [] _ _) as [[[fin news] arts] a].
      by destruct fin.
    + left. unfold Bookmark.articleBookmarkResponse.
      destruct (get body "bookmark_article" ≫= _) as [article|]; [|done].
      by destruct (truthy (cookies_get _ _)).
    + right. unfold authLogoutResponse; simpl. by simplify_map_eq.
    + left. unfold getSuggestionsResponse. by case_match.
  - left. by destruct (timers s !! i).
Qed.

Lemma falsy_cookie (s : state) (name : string) :
  truthy (cookies_get name s) = false ↔
  cookies s !! name = None ∨ cookies s !! name = Some "".
Proof.
  unfold cookies_get. destruct (cookies s !! name) as [v|]; simpl.
  - rewrite negb_false_iff, String.eqb_eq. split.
    + intros ->. by right.
    + by intros [?|[= ->]].
  - split; [by left|done].
Qed.

(** C8, amended: the session is detected by a [full_name] cookie that
    is present and not empty.  Mounted with the cookie absent or empty,
    the view assigns "/" to the location and hands the transport the
    menu request only, so no request for the bookmarks; with a cookie
    that is not empty (and whatever the token cookie holds, even nothing)
    it marks the user logged in, stays on the page and asks for the
    bookmarks.  No event of the view ever writes the token cookie: it is
    kept or removed. *)
Theorem mount_without_full_name_redirects :
  (∀ s : state,
     truthy (cookies_get "full_name" s) = false ↔
     cookies s !! "full_name" = None ∨ cookies s !! "full_name" = Some "")
  ∧ (∀ s : state,
       truthy (cookies_get "full_name" s) = false →
       location (componentDidMount s) = Some "/"
       ∧ net (componentDidMount s) =
           net s ++ [Request GET (MENUS +:+ "?" +:+ domain DOMAIN) None cb_getMenu None]
       ∧ is_loggedin (componentDidMount s) = is_loggedin s)
  ∧ (∀ s : state,
       truthy (cookies_get "full_name" s) = true →
       location (componentDidMount s) = location s
       ∧ net (componentDidMount s) =
           net s ++ [Request GET (MENUS +:+ "?" +:+ domain DOMAIN) None cb_getMenu None;
                     Request GET (ALL_ARTICLE_BOOKMARK +:+ "?" +:+ domain DOMAIN) None
                       cb_getBookmarksArticles (token_headers s)]
       ∧ is_loggedin (componentDidMount s) = true)
  ∧ (∀ s : state, cookies (componentDidMount s) = cookies s)
  ∧ (∀ (s : state) (e : event),
       cookies (state_of (step s e)) !! "token" = cookies s !! "token"
       ∨ cookies (state_of (step s e)) !! "token" = None).
Proof.
  split; [|split; [|split; [|split]]].
  - intros s. apply falsy_cookie.
  - intros s Hc.
    unfold Bookmark.componentDidMount. cbv zeta.
    set (s1 := getRequest _ _ _ s).
    assert (E : truthy (cookies_get "full_name" s1) = false) by exact Hc.
    rewrite E. unfold getTheme, enable_dark_style, disable_dark_style.
    repeat case_match; by repeat split.
  - intros s Hc.
    unfold Bookmark.componentDidMount. cbv zeta.
    set (s1 := getRequest _ _ _ s).
    assert (E : truthy (cookies_get "full_name" s1) = true) by exact Hc.
    rewrite E. unfold getTheme, enable_dark_style, disable_dark_style.
    repeat case_match; simpl; repeat split; rewrite <- ?app_assoc; reflexivity.
  - apply componentDidMount_cookies.
  - apply step_token.
Qed.

Lemma componentDidMount_posts (s : state) :
  newsPosts (componentDidMount s) = newsPosts s
  ∧ fresh (componentDidMount s) = fresh s
  ∧ article_array (componentDidMount s) = article_array s.
Proof.
  unfold Bookmark.componentDidMount, getTheme, enable_dark_style,
    disable_dark_style, cookies_get; simpl.
  repeat case_match; by repeat split.
Qed.

(** Every state the view reaches has its posts allocated. *)
Lemma run_posts_allocated (es : list event) (s : state) :
  posts_allocated s →
  posts_allocated
    (Bookmark.run DOMAIN ARTICLE_BOOKMARK ALL_ARTICLE_BOOKMARK ARTICLE_LOGOUT
       SUGGESTIONS format_date decodeURIComponent number_to_string s es).
Proof.
  revert s. induction es as [|e es IH]; intros s Hp; [done|].
  simpl. apply IH. by apply step_posts_allocated.
Qed.

Lemma mounted_posts_allocated (jar : gmap string string) (link : option bool) :
  posts_allocated (componentDidMount (initial jar link)).
Proof.
  unfold posts_allocated.
  destruct (componentDidMount_posts (initial jar link)) as (-> & -> & _).
  constructor.
Qed.

End Props.

(** ** The properties at concrete inputs *)

Lemma articleBookmarkResponse_removes_last_post_witness :
  map (λ p, assoc "id" (default [] (match snd p with JObj o => Some o | _ => None end)))
    (newsPosts demo_shown) = [JNum 1; JNum 2]
  ∧ posts_allocated demo_shown
  ∧ newsPosts (state_of (articleBookmarkResponse "newscout" "/bookmarks/"
                           demo_toggled demo_shown))
    = removelast (newsPosts demo_shown)
  ∧ map fst (newsPosts (demo_run demo_shown
                          [ClickBookmark (JNum 1);
                           Response 1 (Success demo_toggled)])) = [0].
Proof.
  assert (Hp : posts_allocated demo_shown).
  { apply run_posts_allocated, mounted_posts_allocated. }
  split; [vm_compute; reflexivity|]. split; [exact Hp|].
  split; [|vm_compute; reflexivity].
  exact (articleBookmarkResponse_removes_last_post "newscout" "/bookmarks/"
           demo_shown demo_toggled _ _ eq_refl eq_refl Hp).
Defined.

(** C9, as stated, fails: an article without a cover image is an article
    of the fetched page, and it is not appended. *)
Lemma article_without_cover_image_not_appended :
  let body := JObj [("results", JArr [JObj [("article", demo_article 3 JNull)]])] in
  let s := state_of (getBookmarksArticles (λ v, v) Some pretty body (demo_mounted demo_jar)) in
  page_articles_of body = [demo_article 3 JNull]
  ∧ returned (getBookmarksArticles (λ v, v) Some pretty body (demo_mounted demo_jar)) = true
  ∧ article_array s = []
  ∧ bookmark_ids_value s = [].
Proof. vm_compute. repeat split. Qed.

Lemma article_array_accumulates_cover_articles_witness :
  let page := JObj [("results",
                     JArr [JObj [("article", demo_article 1 (JStr "a.png"))];
                           JObj [("article", demo_article 3 JNull)]])] in
  let bodies := [page; page] in
  Exists (λ body, page_ok Some pretty body = true) bodies
  ∧ bookmark_ids_value (fetch_all (λ v, v) Some pretty (demo_mounted demo_jar) bodies)
    = [] ++ concat (map (appended Some pretty) bodies)
  ∧ concat (map (appended Some pretty) bodies)
    = [demo_article 1 (JStr "a.png"); demo_article 1 (JStr "a.png")].
Proof.
  intros page bodies.
  assert (H1 : Exists (λ body, page_ok Some pretty body = true) bodies).
  { by apply Exists_cons_hd. }
  split; [exact H1|]. split; [|reflexivity].
  exact (proj2 (proj2 (proj2 (article_array_accumulates_cover_articles
                                "newscout" "/bookmark/" "/bookmarks/" "/logout/"
                                "/suggest/" (λ v, v) Some pretty))
                  bodies (demo_mounted demo_jar)) H1).
Defined.

(** C8, as stated, fails: a [full_name] cookie that is present and empty
    is not taken for a session.  The view redirects and does not ask for
    the bookmarks, although the cookie is there, and a token with it. *)
Lemma empty_full_name_cookie_redirects :
  let s := initial (<["full_name" := ""]> (<["token" := "abc"]> ∅)) None in
  let s' := componentDidMount "newscout" "/menus/" "/bookmarks/" s in
  cookies s !! "full_name" = Some ""
  ∧ location s' = Some "/"
  ∧ net s' = [Request GET "/menus/?domain=newscout" None cb_getMenu None]
  ∧ is_loggedin s' = false.
Proof. vm_compute. repeat split. Qed.

Lemma mount_without_full_name_redirects_witness :
  let s := initial (<["token" := "abc"]> ∅) None in
  let s' := initial (<["full_name" := "Ann"]> ∅) None in
  truthy (cookies_get "full_name" s) = false
  ∧ location (componentDidMount "newscout" "/menus/" "/bookmarks/" s) = Some "/"
  ∧ net (componentDidMount "newscout" "/menus/" "/bookmarks/" s) =
      net s ++ [Request GET ("/menus/" +:+ "?" +:+ domain "newscout") None
                  cb_getMenu None]
  ∧ truthy (cookies_get "full_name" s') = true
  ∧ is_loggedin (componentDidMount "newscout" "/menus/" "/bookmarks/" s') = true.
Proof.
  intros s s'. split; [reflexivity|].
  destruct (proj1 (proj2 (mount_without_full_name_redirects "newscout" "/menus/"
                            "/bookmark/" "/bookmarks/" "/logout/" "/suggest/"
                            (λ v, v) Some pretty))
              s eq_refl) as (H1 & H2 & _).
  destruct (proj1 (proj2 (proj2 (mount_without_full_name_redirects "newscout"
                            "/menus/" "/bookmark/" "/bookmarks/" "/logout/"
                            "/suggest/" (λ v, v) Some pretty)))
              s' eq_refl) as (_ & _ & H3).
  split; [exact H1|]. split; [exact H2|]. split; [reflexivity|exact H3].
Defined.

End BookmarkProps.

(** * Properties of the SubscriptionDetail view *)

Module SubscriptionDetailProps.
Import JS SubscriptionDetail.

(** ** The string of an array *)

Lemma ToString_array (num : Z → string) (l : list jsval) :
  ToString num (JArr l) =
    match mapM (element_string num) l with
    | Some strs => Some (join "," strs)
    | None => None
    end.
Proof.
  simpl.
  match goal with
  | |- match ?f l with _ => _ end = _ =>
      assert (H : ∀ k, f k = mapM (element_string num) k)
  end.
  { induction k as [|x k IH]; [done|]. rewrite IH.
    by destruct x. }
  by rewrite H.
Qed.

Lemma mapM_None {A B : Type} (f : A → option B) (l : list A) :
  mapM f l = None ↔ ∃ x, x ∈ l ∧ f x = None.
Proof.
  induction l as [|x l IH]; simpl.
  - split; [done|]. intros (x & Hx & _). by apply elem_of_nil in Hx.
  - destruct (f x) as [y|] eqn:Hy; simpl.
    + destruct (mapM f l) as [ys|]; simpl.
      * split; [done|]. intros (z & Hz & Hn).
        apply elem_of_cons in Hz as [->|Hz]; [congruence|].
        assert (None = Some ys → False) by done.
        exfalso. apply H. symmetry. apply IH. by exists z.
      * split; [|done]. intros _.
        destruct (proj1 IH eq_refl) as (z & Hz & Hn).
        exists z. split; [apply elem_of_cons; by right|done].
    + split; [|done]. intros _. exists x. split; [apply elem_of_cons; by left|done].
Qed.

Lemma element_string_None (num : Z → string) (x : jsval) :
  element_string num x = None ↔ ToString num x = None.
Proof. by destruct x. Qed.

Lemma loose_eq_success_primitive (num : Z → string) (v : jsval) :
  isArray v = false → (∀ o, v ≠ JObj o) →
  (loose_eq_success num v = Some true ↔ v = JStr "success")
  ∧ loose_eq_success num v ≠ None.
Proof.
  intros Ha Ho. destruct v as [| | | |s|l|o]; simpl in *; try done.
  - split; [|done]. split; [|by intros [= ->]].
    intros [= H]. apply String.eqb_eq in H. by subst.
  - by destruct (Ho o).
Qed.

Lemma loose_eq_success_raises (num : Z → string) (v : jsval) :
  loose_eq_success num v = None ↔
  (∃ o, v = JObj o ∧ has_own "toString" o = true)
  ∨ (∃ l, v = JArr l ∧ ∃ x, x ∈ l ∧ ToString num x = None).
Proof.
  destruct v as [| | | |s|l|o].
  1-5: split; [done|]; by intros [(? & ? & _)|(? & ? & _)].
  - unfold loose_eq_success. rewrite ToString_array.
    split.
    + intros H. right. exists l. split; [done|].
      destruct (mapM (element_string num) l) as [strs|] eqn:Hm; [done|].
      apply mapM_None in Hm as (x & Hx & Hn).
      exists x. split; [done|]. by apply element_string_None.
    + intros [(? & ? & _)|(l' & [= <-] & x & Hx & Hn)]; [done|].
      assert (Hm : mapM (element_string num) l = None).
      { apply mapM_None. exists x. split; [done|].
        by apply element_string_None. }
      by rewrite Hm.
  - simpl. destruct (has_own "toString" o) eqn:Hh.
    + split; [|done]. intros _. left. by exists o.
    + split; [done|]. intros [(o' & [= <-] & H)|(? & ? & _)]; [congruence|done].
Qed.

Lemma loose_eq_success_holds (num : Z → string) (v : jsval) :
  loose_eq_success num v = Some true ↔
  v = JStr "success" ∨ ∃ l, v = JArr l ∧ ToString num v = Some "success".
Proof.
  destruct v as [| | | |s|l|o].
  1-4: split; [done|]; by intros [?|(? & ? & _)].
  - simpl. split.
    + intros [= H]. apply String.eqb_eq in H. left. by subst.
    + intros [[= ->]|(? & ? & _)]; done.
  - unfold loose_eq_success. split.
    + intros H. right. exists l. split; [done|].
      destruct (ToString num (JArr l)) as [str|]; [|done].
      injection H as H. apply String.eqb_eq in H. by subst.
    + intros [?|(l' & _ & ->)]; done.
  - simpl. split.
    + by destruct (has_own "toString" o).
    + by intros [?|(? & ? & _)].
Qed.

Lemma renderResponse_form_state (num : Z → string) (body : jsval) (s : state) :
  form_state (state_of (renderResponse num body s)) = form_state s.
Proof. unfold renderResponse. by repeat case_match. Qed.

(** C10, as stated, fails: a results field that is the array
    ["success"] is not the string "success", and the success toast is
    shown for it. *)
Lemma array_of_success_reported_as_success :
  let body := JObj [("results", JArr [JStr "success"])] in
  toasts (state_of (renderResponse pretty body initial))
    = [Toast "Subscription Updated successfully!" None]
  ∧ get body "results" = Some (JArr [JStr "success"])
  ∧ JArr [JStr "success"] ≠ JStr "success".
Proof. repeat split. discriminate. Qed.

(** C10, amended: for a response whose body has fields, [renderResponse]
    compares [results == "success"].  When the comparison holds, which is
    so for the string "success" and for an array whose string is
    "success", and for no other value, it shows the one toast
    "Subscription Updated successfully!" at the success level; when the
    comparison does not hold it shows the one toast "Something went
    wrong!" at the error level; when the comparison raises a TypeError,
    which is so for an object with an own [toString] property and for an
    array with an element whose string cannot be made, and for no other
    value, the handler stops there and shows no toast.  In every case,
    also when the body has no fields, the form state is left as it
    was. *)
Theorem renderResponse_reports_by_loose_equality :
  ∀ number_to_string : Z → string,
    (∀ (s : state) (body results : jsval),
       get body "results" = Some results →
       renderResponse number_to_string body s =
         match loose_eq_success number_to_string results with
         | Some true =>
             Done (set_toasts
                     (toasts s ++ [Toast "Subscription Updated successfully!" None])
                     s)
         | Some false =>
             Done (set_toasts
                     (toasts s ++ [Toast "Something went wrong!" (Some "error")])
                     s)
         | None => Threw s
         end)
    ∧ (level_of (Toast "Subscription Updated successfully!" None) = "success"
       ∧ level_of (Toast "Something went wrong!" (Some "error")) = "error")
    ∧ (∀ v : jsval,
         loose_eq_success number_to_string v = Some true ↔
         v = JStr "success"
         ∨ ∃ l, v = JArr l ∧ ToString number_to_string v = Some "success")
    ∧ (∀ v : jsval,
         loose_eq_success number_to_string v = None ↔
         (∃ o, v = JObj o ∧ has_own "toString" o = true)
         ∨ (∃ l, v = JArr l
                 ∧ ∃ x, x ∈ l ∧ ToString number_to_string x = None))
    ∧ (∀ (s : state) (body : jsval),
         form_state (state_of (renderResponse number_to_string body s))
           = form_state s).
Proof.
  intros num. split; [|split; [|split; [|split]]].
  - intros s body results Hr. unfold renderResponse. rewrite Hr.
    by destruct (loose_eq_success num results) as [[|]|].
  - done.
  - apply loose_eq_success_holds.
  - apply loose_eq_success_raises.
  - intros s body. apply renderResponse_form_state.
Qed.

Lemma renderResponse_reports_by_loose_equality_witness :
  let ok := JObj [("results", JStr "success")] in
  let ko := JObj [("results", JStr "failed")] in
  let no := JObj [("results", JObj [("toString", JNum 1)])] in
  toasts (state_of (renderResponse pretty ok initial))
    = [Toast "Subscription Updated successfully!" None]
  ∧ toasts (state_of (renderResponse pretty ko initial))
    = [Toast "Something went wrong!" (Some "error")]
  ∧ renderResponse pretty no initial = Threw initial.
Proof.
  intros ok ko no.
  pose proof (proj1 (renderResponse_reports_by_loose_equality pretty)) as H.
  rewrite (H initial ok _ eq_refl), (H initial ko _ eq_refl),
    (H initial no _ eq_refl).
  repeat split.
Defined.

End SubscriptionDetailProps.

(** * Further properties of the Group view *)

Module GroupMore.
Import JS Group GroupSpec GroupNotions GroupProps.

(** ** The form fields are always an object *)

Lemma set_field_object (k : string) (v : jsval) (s s1 : state) :
  set_field k v s = Some s1 →
  ∃ o, heap s !! fields s = Some (JObj o)
       ∧ s1 = set_heap (<[fields s := JObj (assoc_set k v o)]> (heap s)) s.
Proof.
  unfold set_field. intros H.
  destruct (heap s !! fields s) as [[| | | | | |o]|] eqn:E; simplify_eq.
  by exists o.
Qed.

Lemma set_field_keeps_object (k : string) (v : jsval) (s s1 : state) :
  set_field k v s = Some s1 → fields_is_object s1.
Proof.
  intros H. destruct (set_field_object _ _ _ _ H) as (o & Ho & ->).
  eexists. simpl. apply list_lookup_insert_eq. by eapply lookup_lt_Some.
Qed.

Lemma handleChange_keeps_object (c : change) (s : state) :
  fields_is_object s → fields_is_object (state_of (handleChange c s)).
Proof.
  intros Hs. unfold handleChange.
  set (assigned := match c with
                   | ChangeCategory _ _ => _
                   | ChangeIsActive _ => _
                   | ChangeCampaign _ _ => _
                   end).
  assert (Ha : ∀ s1, assigned = Some s1 → fields_is_object s1).
  { intros s1 H. subst assigned.
    repeat case_match; simplify_eq; try done;
      by eapply set_field_keeps_object. }
  destruct assigned as [s1|]; [|done].
  destruct (handleValidation s1) as [[b s2]|] eqn:Hv; simpl; [|by apply Ha].
  destruct (handleValidation_sets_errors _ _ _ Hv) as [errs ->].
  destruct (Ha s1 eq_refl) as [o Ho]. by exists o.
Qed.

Lemma editRow_keeps_object (index : nat) (dataindex : string) (s : state) :
  fields_is_object s → fields_is_object (state_of (editRow index dataindex s)).
Proof.
  intros Hs. unfold editRow.
  destruct (results s !! index) as [a|]; [|done].
  destruct (heap s !! a) as [row|] eqn:Ha; simpl; [|done].
  destruct (edited_row row) as [row'|] eqn:He; simpl; [|done].
  destruct (edited_row_shape _ _ He) as (o & sel & camp & _ & -> & _).
  eexists. simpl. apply list_lookup_insert_eq. by eapply lookup_lt_Some.
Qed.

Lemma step_keeps_object (GROUP_URL : string) (s : state) (e : event) :
  fields_is_object s → fields_is_object (state_of (step GROUP_URL s e)).
Proof.
  intros Hs.
  destruct e as [tbl|b|v|key|c| | | |i d|i d|d|i r|i]; simpl; try done.
  - unfold handleScroll, getNext. by repeat case_match.
  - unfold handleKeyPress. by case_match.
  - by apply handleChange_keeps_object.
  - unfold groupSubmit.
    destruct (handleValidation s) as [[b s1]|] eqn:Hv; [|done].
    destruct (handleValidation_sets_errors _ _ _ Hv) as [errs ->].
    destruct b; [|done]. simpl. by case_match.
  - unfold submitRow.
    destruct (handleValidation s) as [[b s1]|] eqn:Hv; [|done].
    destruct (handleValidation_sets_errors _ _ _ Hv) as [errs ->].
    destruct b; [|done]. simpl. by repeat case_match.
  - by apply editRow_keeps_object.
  - destruct (net s !! i) as [req|]; [|done].
    destruct r as [body|]; [|done].
    destruct (r_callback req); simpl.
    + unfold getGroupsData. case_match; [|done].
      destruct p as [[fetched nxt] prev]. simpl.
      destruct Hs as [o Ho]. exists o. simpl. by apply lookup_app_l_Some.
    + unfold getCampaignCategories. by repeat case_match.
    + unfold groupSubmitResponse, setTimeout. by case_match.
    + unfold groupUpdateResponse. by repeat case_match.
    + unfold deleteGroupResponse. by case_match.
  - destruct (timers s !! i) as [[ms [clean|findrow]]|]; try done.
    + simpl. by destruct clean.
    + simpl. by case_match.
Qed.

(** X1: in every state the mounted component reaches, whatever the
    events and whatever the responses hold, [this.state.fields] is an
    object; so [handleValidation] never throws there, and neither does
    [groupSubmit]. *)
Theorem fields_always_an_object :
  ∀ (GROUP_URL CATEGORIES_CAMPAIGN_URL : string) (es : list event),
    fields_is_object (run GROUP_URL (mounted GROUP_URL CATEGORIES_CAMPAIGN_URL) es)
    ∧ is_Some (handleValidation
                 (run GROUP_URL (mounted GROUP_URL CATEGORIES_CAMPAIGN_URL) es))
    ∧ returned (groupSubmit GROUP_URL
                  (run GROUP_URL (mounted GROUP_URL CATEGORIES_CAMPAIGN_URL) es))
      = true.
Proof.
  intros U C es.
  assert (Hrun : ∀ s, fields_is_object s → fields_is_object (run U s es)).
  { induction es as [|e es IH]; intros s Hs; [done|].
    simpl. apply IH. by apply step_keeps_object. }
  assert (Hm : fields_is_object (mounted U C)) by (by exists []).
  pose proof (Hrun _ Hm) as [o Ho]. set (s := run U (mounted U C) es) in *.
  destruct (handleValidation_object s o Ho) as (errs & _ & Hv).
  split; [by exists o|]. split; [by rewrite Hv|].
  unfold groupSubmit. rewrite Hv.
  destruct (truthy (assoc "category" o) && truthy (assoc "campaign" o)); [|done].
  simpl. by rewrite Ho.
Qed.

(** ** Changes of the form fields *)

Lemma handleChange_fields (c : change) (s : state) :
  fields (state_of (handleChange c s)) = fields s.
Proof.
  unfold handleChange.
  set (assigned := match c with
                   | ChangeCategory _ _ => _
                   | ChangeIsActive _ => _
                   | ChangeCampaign _ _ => _
                   end).
  assert (Ha : ∀ s1, assigned = Some s1 → fields s1 = fields s).
  { intros s1 H. subst assigned.
    repeat case_match; simplify_eq; try done;
      by destruct (set_field_sets_heap _ _ _ _ H) as [h ->]. }
  destruct assigned as [s1|]; [|done].
  destruct (handleValidation s1) as [[b s2]|] eqn:Hv; simpl; [|by apply Ha].
  destruct (handleValidation_sets_errors _ _ _ Hv) as [errs ->].
  simpl. by apply Ha.
Qed.

(** X2: emptying a select does not empty the field.  When the category
    select reports [null] or an empty array, or the campaign select
    reports [null], [handleChange] leaves the fields object as it was
    and only validates it again: the value chosen before stays the
    pending one. *)
Theorem empty_selection_keeps_the_field :
  ∀ (s : state) (c : change) (is_editable : bool),
    fields_is_object s →
    c = ChangeCategory None is_editable
    ∨ c = ChangeCategory (Some []) is_editable
    ∨ c = ChangeCampaign None is_editable →
    ∃ ok errs,
      handleValidation s = Some (ok, set_errors errs s)
      ∧ handleChange c s = Done (set_errors errs s)
      ∧ heap (state_of (handleChange c s)) = heap s.
Proof.
  intros s c b [o Ho] Hc.
  destruct (handleValidation_object s o Ho) as (errs & _ & Hv).
  exists (truthy (assoc "category" o) && truthy (assoc "campaign" o)), errs.
  split; [exact Hv|].
  assert (Hd : handleChange c s = Done (set_errors errs s)).
  { unfold handleChange. destruct Hc as [->|[->| ->]]; by rewrite Hv. }
  by rewrite Hd.
Qed.

Lemma empty_selection_keeps_the_field_witness :
  let s := run demo_url (demo_loaded JNull) [ClickEdit 0 "7"] in
  fields_is_object s
  ∧ ∃ ok errs,
      handleValidation s = Some (ok, set_errors errs s)
      ∧ handleChange (ChangeCategory None true) s = Done (set_errors errs s)
      ∧ heap (state_of (handleChange (ChangeCategory None true) s)) = heap s.
Proof.
  intros s.
  assert (H : fields_is_object s) by (eexists; reflexivity).
  split; [exact H|].
  exact (empty_selection_keeps_the_field s _ true H (or_introl eq_refl)).
Defined.

(** X3: what is changed in the form of a row in edit mode is changed in
    the collection.  After [editRow] the fields object is the row object:
    a [handleChange] writes into the row that [results] holds, and
    [cancelRow] does not take it back, although no request was sent.  So
    after Edit, a click on the [is_active] checkbox and Cancel, the row
    of the collection carries the clicked value. *)
Theorem changes_of_an_edited_row_reach_the_collection :
  ∀ (s : state) (index : nat) (dataindex : string) (a : nat)
    (row row' : jsval) (c : change),
    results s !! index = Some a →
    heap s !! a = Some row →
    edited_row row = Some row' →
    ∃ s1,
      editRow index dataindex s = Done s1
      ∧ fields (cancelRow index dataindex (state_of (handleChange c s1))) = a
      ∧ results (cancelRow index dataindex (state_of (handleChange c s1)))
        = results s
      ∧ collection (cancelRow index dataindex (state_of (handleChange c s1)))
          !! index
        = Some (fields_value
                  (cancelRow index dataindex (state_of (handleChange c s1))))
      ∧ net (cancelRow index dataindex (state_of (handleChange c s1))) = net s
      ∧ (∀ checked, c = ChangeIsActive checked →
         ∃ o, heap (cancelRow index dataindex (state_of (handleChange c s1))) !! a
              = Some (JObj o)
              ∧ assoc "is_active" o = JBool checked).
Proof.
  intros s index d a row row' c Hi Ha He.
  unfold editRow. rewrite Hi, Ha. simpl. rewrite He.
  eexists; split; [reflexivity|].
  set (s1 := set_fields a _).
  pose proof (handleChange_fields c s1) as Hf.
  pose proof (handleChange_paging c s1) as Hp. injection Hp as Hr Hn _ _ _.
  assert (Hfa : fields (cancelRow index d (state_of (handleChange c s1))) = a)
    by exact Hf.
  split; [exact Hfa|]. split; [exact Hr|].
  split.
  { unfold collection, fields_value. rewrite list_lookup_fmap. simpl.
    rewrite Hr, Hf. simpl. by rewrite Hi. }
  split; [exact Hn|].
  intros checked ->. unfold handleChange.
  destruct (edited_row_shape _ _ He) as (o & sel & camp & _ & -> & _).
  assert (Hl : heap s1 !! fields s1 = Some
                 (JObj (assoc_set "campaign" camp
                          (assoc_set "category" (JArr sel) o)))).
  { simpl. apply list_lookup_insert_eq. by eapply lookup_lt_Some. }
  unfold set_field. rewrite Hl.
  set (s2 := set_heap _ s1).
  assert (Hl2 : heap s2 !! fields s2 = Some
                  (JObj (assoc_set "is_active" (JBool checked)
                           (assoc_set "campaign" camp
                              (assoc_set "category" (JArr sel) o))))).
  { simpl. apply list_lookup_insert_eq. rewrite length_insert.
    by eapply lookup_lt_Some. }
  destruct (handleValidation_object s2 _ Hl2) as (errs & _ & ->).
  eexists. split; [exact Hl2|]. apply assoc_set_same.
Qed.

Lemma changes_of_an_edited_row_reach_the_collection_witness :
  let s := demo_loaded JNull in
  results s !! 0%nat = Some 1%nat
  ∧ heap s !! 1%nat = Some demo_row
  ∧ is_Some (edited_row demo_row)
  ∧ ∃ s1,
      editRow 0 "7" s = Done s1
      ∧ ∃ o, heap (cancelRow 0 "7"
                     (state_of (handleChange (ChangeIsActive false) s1))) !! 1%nat
             = Some (JObj o)
             ∧ assoc "is_active" o = JBool false.
Proof.
  intros s. split; [reflexivity|]. split; [reflexivity|].
  split; [by eexists|].
  destruct (changes_of_an_edited_row_reach_the_collection s 0 "7" 1 demo_row _
              (ChangeIsActive false) eq_refl eq_refl eq_refl)
    as (s1 & H1 & _ & _ & _ & _ & H6).
  exists s1. split; [exact H1|]. exact (H6 false eq_refl).
Defined.

(** X4: the category that Save sends is what the category select
    reported last.  On fields that hold a campaign, a [handleChange] of
    the category in edit mode with the options [item :: items], followed
    by [submitRow], sends exactly one PUT, whose category is the list of
    the [value]s of those options, in their order. *)
Theorem selected_categories_are_sent :
  ∀ (GROUP_URL : string) (s : state) (o : obj) (item : obj) (items : list obj),
    fields_value s = Some (JObj o) →
    truthy (assoc "campaign" o) = true →
    ∃ s1 body,
      handleChange (ChangeCategory (Some (item :: items)) true) s = Done s1
      ∧ submitRow GROUP_URL s1 =
          Done (set_net
                  (net s ++
                   [Request PUT
                      (JStr (GROUP_URL +:+ to_string (assoc "id" o) +:+ "/"))
                      (Some (JObj body)) cb_groupUpdateResponse
                      (clean_results true) by_submitRow])
                  s1)
      ∧ assoc "category" body = JArr (map (assoc "value") (item :: items))
      ∧ assoc "id" body = assoc "id" o.
Proof.
  intros U s o item items Ho Hp.
  set (sel := map (λ it : obj, option_dict (assoc "value" it) (assoc "name" it))
                (item :: items)).
  set (o' := assoc_set "category" (JArr sel) o).
  set (s0 := set_heap (<[fields s := JObj o']> (heap s)) s).
  assert (Hl : fields_value s0 = Some (JObj o')).
  { unfold fields_value. simpl. apply list_lookup_insert_eq.
    by eapply lookup_lt_Some. }
  assert (Hcat : assoc "category" o' = JArr sel) by apply assoc_set_same.
  assert (Hcam : assoc "campaign" o' = assoc "campaign" o)
    by (by apply assoc_set_other).
  assert (Hid : assoc "id" o' = assoc "id" o) by (by apply assoc_set_other).
  destruct (handleValidation_object s0 o' Hl) as (errs & He & Hv).
  rewrite validate_object, Hcat, Hcam, Hp in He. simpl in He.
  injection He as <-. rewrite Hcat, Hcam, Hp in Hv. simpl in Hv.
  assert (Hshape : category_is_option_list o' = true).
  { unfold category_is_option_list. rewrite Hcat. subst sel.
    clear. induction (item :: items) as [|x l IH]; [done|]. simpl. exact IH. }
  assert (Hvals : map (λ i, default JUndef (get i "value")) sel
                  = map (assoc "value") (item :: items)).
  { subst sel. rewrite map_map. reflexivity. }
  exists (set_errors ∅ s0), (match update_body o' with JObj b => b | _ => [] end).
  split.
  { unfold handleChange, set_field. unfold fields_value in Ho. rewrite Ho.
    fold sel. fold o'. fold s0. by rewrite Hv. }
  split.
  { unfold submitRow.
    assert (Hv' : handleValidation (set_errors ∅ s0)
                  = Some (true, set_errors ∅ (set_errors ∅ s0))).
    { destruct (handleValidation_object (set_errors ∅ s0) o' Hl)
        as (errs & He & Hv').
      rewrite validate_object, Hcat, Hcam, Hp in He. simpl in He.
      injection He as <-. by rewrite Hcat, Hcam, Hp in Hv'. }
    rewrite Hv'. simpl. unfold fields_value in Hl. simpl in Hl. rewrite Hl.
    simpl. rewrite (update_request_object U o' Hshape); [|by rewrite Hcam].
    rewrite <- Hid. reflexivity. }
  unfold update_body. rewrite Hcat.
  change (default [] (as_array (JArr sel))) with sel. rewrite Hvals.
  split; [reflexivity|exact Hid].
Qed.

Lemma selected_categories_are_sent_witness :
  let s := run demo_url (demo_loaded JNull) [ClickEdit 0 "7"] in
  let picked := [("value", JNum 5); ("name", JStr "Politics")] in
  (∃ o, fields_value s = Some (JObj o) ∧ truthy (assoc "campaign" o) = true)
  ∧ ∃ s1 body,
      handleChange (ChangeCategory (Some [picked]) true) s = Done s1
      ∧ net (state_of (submitRow demo_url s1)) =
          net s ++
          [Request PUT (JStr (demo_url +:+ to_string (JNum 7) +:+ "/"))
             (Some (JObj body)) cb_groupUpdateResponse (clean_results true)
             by_submitRow]
      ∧ assoc "category" body = JArr [JNum 5].
Proof.
  intros s picked.
  split; [eexists; split; reflexivity|].
  destruct (selected_categories_are_sent demo_url s _ picked [] eq_refl eq_refl)
    as (s1 & body & H1 & H2 & H3 & _).
  exists s1, body. split; [exact H1|]. split; [|exact H3].
  rewrite H2. reflexivity.
Defined.

(** ** Editing a row again *)

Lemma category_option_of_option (value name : jsval) :
  category_option (option_dict value name) = Some (option_dict value name).
Proof. reflexivity. Qed.

Lemma mapM_category_option_fixed (items selected : list jsval) :
  mapM category_option items = Some selected →
  mapM category_option selected = Some selected.
Proof.
  rewrite !mapM_Some. induction 1 as [|i y items sel Hy _ IH]; [constructor|].
  constructor; [|exact IH].
  unfold category_option in Hy. simplify_option_eq.
  apply category_option_of_option.
Qed.

(** The second [editRow] of a row: the category is kept, and the
    campaign option loses its value, for [editRow] reads [campaign.id]
    and the option has no [id]. *)
Lemma edited_row_again (row row' : jsval) :
  edited_row row = Some row' →
  ∃ o' selected campaign,
    row' = JObj o'
    ∧ assoc "category" o' = JArr selected
    ∧ assoc "campaign" o' = campaign
    ∧ edited_row row' =
        Some (JObj (assoc_set "campaign"
                      (if not_nullish campaign
                       then option_dict JUndef (assoc "name"
                              match campaign with JObj c => c | _ => [] end)
                       else JUndef)
                      (assoc_set "category" (JArr selected) o')))
    ∧ (not_nullish campaign = true → ∃ value name, campaign = option_dict value name).
Proof.
  intros He.
  destruct (edited_row_shape _ _ He) as (o & sel & camp & -> & -> & Hsel & Hcamp).
  eexists _, sel, camp. split; [reflexivity|].
  assert (Hc : assoc "category"
                 (assoc_set "campaign" camp (assoc_set "category" (JArr sel) o))
               = JArr sel).
  { rewrite assoc_set_other by done. apply assoc_set_same. }
  assert (Hp : assoc "campaign"
                 (assoc_set "campaign" camp (assoc_set "category" (JArr sel) o))
               = camp) by apply assoc_set_same.
  split; [exact Hc|]. split; [exact Hp|].
  assert (Hfix : mapM category_option sel = Some sel).
  { destruct (not_null (assoc "category" o)); [|by subst sel].
    destruct (as_array (assoc "category" o)) as [items|]; [|done].
    simpl in Hsel. by eapply mapM_category_option_fixed. }
  assert (Hshape : not_nullish camp = true →
                   ∃ value name, camp = option_dict value name).
  { destruct (not_nullish (assoc "campaign" o)); [|by subst camp].
    intros _. simplify_option_eq. by eexists _, _. }
  split; [|exact Hshape].
  unfold edited_row. simpl. rewrite Hc, Hp. simpl. rewrite Hfix. simpl.
  destruct (not_nullish camp) eqn:Hn; [|reflexivity].
  destruct (Hshape eq_refl) as (value & name & ->). reflexivity.
Qed.

(** X5: a second Edit of a row loses its campaign.  After Edit, Cancel
    and Edit again on a row that has a campaign, the fields pass
    validation and [submitRow] sends one PUT whose campaign is
    [undefined]: the first Edit replaced the campaign by a select option,
    which has a [value] and no [id], and the second Edit reads [id]. *)
Theorem second_edit_sends_no_campaign :
  ∀ (GROUP_URL : string) (s : state) (index : nat) (dataindex : string)
    (a : nat) (row row' : jsval),
    results s !! index = Some a →
    heap s !! a = Some row →
    edited_row row = Some row' →
    (get row "campaign" ≫= λ c, Some (not_nullish c)) = Some true →
    ∃ s3 body,
      run GROUP_URL s [ClickEdit index dataindex; ClickCancel index dataindex;
                       ClickEdit index dataindex] = s3
      ∧ fields s3 = a
      ∧ submitRow GROUP_URL s3 =
          Done (set_net
                  (net s ++
                   [Request PUT
                      (JStr (GROUP_URL +:+ to_string (default JUndef (get row "id"))
                             +:+ "/"))
                      (Some (JObj body)) cb_groupUpdateResponse
                      (clean_results true) by_submitRow])
                  (set_errors ∅ s3))
      ∧ assoc "campaign" body = JUndef.
Proof.
  intros U s index d a row row' Hi Ha He Hcamp.
  destruct (edited_row_again _ _ He)
    as (o' & sel & camp & -> & Hc' & Hp' & He2 & Hshape).
  destruct (edited_row_shape _ _ He) as (o & sel0 & camp0 & -> & Ho' & _ & Hcamp0).
  injection Ho' as ->.
  simpl in Hcamp. injection Hcamp as Hcamp. rewrite Hcamp in Hcamp0.
  assert (Hn : not_nullish camp = true).
  { rewrite assoc_set_same in Hp'. subst camp0. simplify_option_eq. done. }
  rewrite Hn in He2. destruct (Hshape Hn) as (value & name & Hcv).
  set (o1 := assoc_set "campaign" camp0 (assoc_set "category" (JArr sel0) o)) in *.
  set (o2 := assoc_set "campaign" _ (assoc_set "category" (JArr sel) o1)) in He2.
  assert (Hlt : a < length (heap s)) by (by eapply lookup_lt_Some).
  assert (Hrun : run U s [ClickEdit index d; ClickCancel index d; ClickEdit index d]
                 = set_fields a
                     (set_rows (<[d := true]> (<[d := false]> (<[d := true]> (rows s))))
                        (set_heap (<[a := JObj o2]> (<[a := JObj o1]> (heap s))) s))).
  { simpl. unfold editRow at 2. rewrite Hi, Ha. simpl. rewrite He. simpl.
    unfold editRow. simpl. rewrite Hi. simpl.
    rewrite list_lookup_insert_eq by done. simpl. rewrite He2. reflexivity. }
  eexists _, _. split; [exact Hrun|].
  set (s3 := set_fields a _).
  assert (Hl : fields_value s3 = Some (JObj o2)).
  { unfold fields_value. simpl. apply list_lookup_insert_eq.
    by rewrite length_insert. }
  assert (Hcat : assoc "category" o2 = JArr sel).
  { subst o2. rewrite assoc_set_other by done. apply assoc_set_same. }
  assert (Hcam : assoc "campaign" o2
                 = option_dict JUndef (assoc "name"
                     match camp with JObj c => c | _ => [] end))
    by apply assoc_set_same.
  assert (Hid : assoc "id" o2 = assoc "id" o)
    by (subst o2 o1; by rewrite !assoc_set_other).
  destruct (handleValidation_object s3 o2 Hl) as (errs & Hv & Hh).
  rewrite validate_object, Hcat, Hcam in Hv. simpl in Hv. injection Hv as <-.
  rewrite Hcat, Hcam in Hh. simpl in Hh.
  assert (Hshape2 : category_is_option_list o2 = true).
  { unfold category_is_option_list. rewrite Hcat.
    destruct (editRow_fields_shape index d s
                (set_fields a (set_rows (<[d := true]> (rows s))
                                 (set_heap (<[a := JObj o1]> (heap s)) s))))
      as (ox & Hx & Hsh).
    { unfold editRow. rewrite Hi, Ha. simpl. by rewrite He. }
    unfold fields_value in Hx. simpl in Hx.
    rewrite list_lookup_insert_eq in Hx by done. injection Hx as <-.
    unfold category_is_option_list in Hsh. by rewrite Hc' in Hsh. }
  split; [reflexivity|]. split.
  - unfold submitRow. rewrite Hh. simpl.
    unfold fields_value in Hl. simpl in Hl. rewrite Hl. simpl.
    rewrite (update_request_object U o2 Hshape2) by (by rewrite Hcam).
    rewrite Hid. reflexivity.
  - unfold update_body. simpl. by rewrite Hcam.
Qed.

Lemma second_edit_sends_no_campaign_witness :
  let s := demo_loaded JNull in
  results s !! 0%nat = Some 1%nat
  ∧ heap s !! 1%nat = Some demo_row
  ∧ is_Some (edited_row demo_row)
  ∧ ∃ s3 body,
      run demo_url s [ClickEdit 0 "7"; ClickCancel 0 "7"; ClickEdit 0 "7"] = s3
      ∧ net (state_of (submitRow demo_url s3)) =
          net s ++
          [Request PUT (JStr (demo_url +:+ to_string (JNum 7) +:+ "/"))
             (Some (JObj body)) cb_groupUpdateResponse (clean_results true)
             by_submitRow]
      ∧ assoc "campaign" body = JUndef.
Proof.
  intros s. split; [reflexivity|]. split; [reflexivity|].
  split; [by eexists|].
  destruct (second_edit_sends_no_campaign demo_url s 0 "7" 1 demo_row _
              eq_refl eq_refl eq_refl eq_refl)
    as (s3 & body & H1 & _ & H3 & H4).
  exists s3, body. split; [exact H1|]. split; [|exact H4].
  rewrite H3. reflexivity.
Defined.

(** ** One form for all rows *)

Lemma update_request_url (GROUP_URL : string) (o : obj) (body : jsval)
    (url : string) :
  update_request GROUP_URL (JObj o) = Some (body, url) →
  url = GROUP_URL +:+ to_string (assoc "id" o) +:+ "/"
  ∧ get body "id" = Some (assoc "id" o).
Proof.
  unfold update_request. intros H. simplify_option_eq. by split.
Qed.

(** X6: the rows in edit mode share one form.  After Edit on one row and
    Edit on another, both rows are in edit mode and the fields are the
    second row; whichever Save is clicked, a request that [submitRow]
    sends goes to the URL of the second row and carries its id. *)
Theorem save_submits_the_row_edited_last :
  ∀ (GROUP_URL : string) (s : state) (i j : nat) (di dj : string) (a b : nat)
    (rowa rowa' rowb rowb' : jsval),
    results s !! i = Some a → heap s !! a = Some rowa →
    edited_row rowa = Some rowa' →
    results s !! j = Some b → heap s !! b = Some rowb →
    edited_row rowb = Some rowb' →
    a ≠ b →
    ∃ s2,
      run GROUP_URL s [ClickEdit i di; ClickEdit j dj] = s2
      ∧ rows s2 !! di = Some true
      ∧ rows s2 !! dj = Some true
      ∧ fields s2 = b
      ∧ fields_value s2 = Some rowb'
      ∧ heap s2 !! a = Some rowa'
      ∧ ∀ r, added s2 (state_of (submitRow GROUP_URL s2)) = [r] →
             r_url r = JStr (GROUP_URL +:+ to_string (default JUndef (get rowb "id"))
                             +:+ "/")
             ∧ (r_body r ≫= λ body, get body "id") = get rowb "id".
Proof.
  intros U s i j di dj a b rowa rowa' rowb rowb' Hi Ha Hea Hj Hb Heb Hab.
  assert (Hla : a < length (heap s)) by (by eapply lookup_lt_Some).
  assert (Hlb : b < length (heap s)) by (by eapply lookup_lt_Some).
  eexists. split.
  { simpl. unfold editRow at 2. rewrite Hi, Ha. simpl. rewrite Hea. simpl.
    unfold editRow. simpl. rewrite Hj. simpl.
    rewrite list_lookup_insert_ne by done. rewrite Hb. simpl. rewrite Heb.
    reflexivity. }
  set (s2 := set_fields b _).
  assert (Hf : fields_value s2 = Some rowb').
  { unfold fields_value. simpl. apply list_lookup_insert_eq.
    by rewrite length_insert. }
  split; [simpl; by destruct (decide (di = dj)) as [->|];
                 simplify_map_eq|].
  split; [simpl; by simplify_map_eq|].
  split; [reflexivity|]. split; [exact Hf|].
  split.
  { simpl. rewrite list_lookup_insert_ne by done.
    by apply list_lookup_insert_eq. }
  clearbody s2. intros r Hr.
  destruct (edited_row_shape _ _ Heb) as (o & sel & camp & -> & -> & _).
  set (o' := assoc_set "campaign" camp (assoc_set "category" (JArr sel) o)) in *.
  assert (Hid : assoc "id" o' = assoc "id" o)
    by (subst o'; by rewrite !assoc_set_other).
  revert Hr. unfold added, submitRow.
  change (state_of (Done s2)) with s2.
  destruct (handleValidation s2) as [[ok s3]|] eqn:Hv.
  2: { simpl. by rewrite drop_all. }
  destruct (handleValidation_sets_errors _ _ _ Hv) as [errs ->].
  destruct ok.
  2: { simpl. by rewrite drop_all. }
  unfold fields_value in Hf. simpl in Hf. simpl. rewrite Hf. simpl.
  destruct (update_request U (JObj o')) as [[body url]|] eqn:Hu.
  2: { simpl. by rewrite drop_all. }
  destruct (update_request_url _ _ _ _ Hu) as [-> Hbid].
  simpl. rewrite drop_app_length. intros [= <-].
  simpl. by rewrite Hbid, Hid.
Qed.

Lemma save_submits_the_row_edited_last_witness :
  let page := JObj [("results", JArr [demo_row; demo_second_row]);
                    ("next", JNull); ("previous", JNull)] in
  let s := run demo_url (mounted demo_url demo_categories_url)
             [Response 0 (Success page)] in
  (results s !! 0%nat = Some 1%nat ∧ results s !! 1%nat = Some 2%nat)
  ∧ ∃ s2,
      run demo_url s [ClickEdit 0 "7"; ClickEdit 1 "8"] = s2
      ∧ rows s2 !! "7" = Some true
      ∧ fields s2 = 2%nat
      ∧ ∀ r, added s2 (state_of (submitRow demo_url s2)) = [r] →
             r_url r = JStr (demo_url +:+ to_string (JNum 8) +:+ "/").
Proof.
  intros page s. split; [split; reflexivity|].
  destruct (save_submits_the_row_edited_last demo_url s 0 1 "7" "8" 1 2
              demo_row _ demo_second_row _
              eq_refl eq_refl eq_refl eq_refl eq_refl eq_refl ltac:(lia))
    as (s2 & H1 & H2 & _ & H4 & _ & _ & H7).
  exists s2. split; [exact H1|]. split; [exact H2|]. split; [exact H4|].
  intros r Hr. exact (proj1 (H7 r Hr)).
Defined.

(** ** What goes to the network *)

Lemma update_request_body (GROUP_URL : string) (o : obj) (body : jsval)
    (url : string) :
  update_request GROUP_URL (JObj o) = Some (body, url) →
  ∃ campaign categories,
    body = JObj [("campaign", campaign); ("category", JArr categories);
                 ("id", assoc "id" o); ("is_active", assoc "is_active" o)].
Proof.
  unfold update_request. intros H. simplify_option_eq. by eexists _, _.
Qed.

Lemma paging_net_timers (s s' : state) :
  paging s' = paging s → net s' = net s ∧ timers s' = timers s.
Proof. unfold paging. by intros [= _ -> _ _ ->]. Qed.

Lemma step_requests_well_formed (GROUP_URL CATEGORIES_CAMPAIGN_URL : string)
    (s : state) (e : event) :
  fields_is_object s →
  Forall (well_formed GROUP_URL CATEGORIES_CAMPAIGN_URL) (net s) →
  Forall (well_formed GROUP_URL CATEGORIES_CAMPAIGN_URL)
    (net (state_of (step GROUP_URL s e))).
Proof.
  intros [o Ho] Hn.
  destruct e as [tbl|b|v|key|c| | | |i d|i d|d|i r|i]; simpl; try done.
  - unfold handleScroll, getNext. repeat case_match; try done.
    simpl. apply Forall_app. split; [done|]. by repeat constructor.
  - unfold handleKeyPress. case_match; [|done].
    simpl. apply Forall_app. split; [done|]. by repeat constructor.
  - by rewrite (proj1 (paging_net_timers _ _ (handleChange_paging c s))).
  - unfold groupSubmit.
    destruct (handleValidation s) as [[ok s1]|] eqn:Hv; [|done].
    destruct ok.
    + destruct (handleValidation_passes _ _ _ Ho Hv) as (Hc & Hp & ->).
      simpl. rewrite Ho. simpl. apply Forall_app. split; [done|].
      repeat constructor. by exists o.
    + destruct (handleValidation_sets_errors _ _ _ Hv) as [errs ->]. done.
  - unfold submitRow.
    destruct (handleValidation s) as [[ok s1]|] eqn:Hv; [|done].
    destruct (handleValidation_sets_errors _ _ _ Hv) as [errs ->].
    destruct ok; [|done]. simpl. rewrite Ho. simpl.
    destruct (update_request GROUP_URL (JObj o)) as [[body url]|] eqn:Hu;
      [|done].
    destruct (update_request_url _ _ _ _ Hu) as [-> _].
    destruct (update_request_body _ _ _ _ Hu) as (campaign & cats & ->).
    simpl. apply Forall_app. split; [done|].
    repeat constructor. by eexists _, _, _, _.
  - by rewrite (proj1 (paging_net_timers _ _ (editRow_paging i d s))).
  - apply Forall_app. split; [done|]. repeat constructor. by eexists _, _.
  - destruct (net s !! i) as [req|]; [|done].
    assert (Hd : Forall (well_formed GROUP_URL CATEGORIES_CAMPAIGN_URL)
                   (delete i (net s))) by by apply Forall_delete.
    destruct r as [body|]; [|done].
    destruct (r_callback req); simpl.
    + unfold getGroupsData. case_match; [|done].
      by destruct p as [[fetched nxt] prev].
    + unfold getCampaignCategories. by repeat case_match.
    + unfold groupSubmitResponse, setTimeout. by case_match.
    + unfold groupUpdateResponse. case_match; [|done].
      case_match; simpl; (apply Forall_app; split; [done|]);
        by repeat constructor.
    + unfold deleteGroupResponse. by case_match.
  - destruct (timers s !! i) as [t|]; [|done].
    destruct (t_action t) as [clean|[el|]]; simpl; try done.
    destruct clean; simpl; (apply Forall_app; split; [done|]);
      by repeat constructor.
Qed.

Lemma step_timers_set_by_view (GROUP_URL CATEGORIES_CAMPAIGN_URL : string)
    (s : state) (e : event) :
  Forall (well_formed GROUP_URL CATEGORIES_CAMPAIGN_URL) (net s) →
  Forall timer_set_by_view (timers s) →
  Forall timer_set_by_view (timers (state_of (step GROUP_URL s e))).
Proof.
  intros Hn Ht.
  destruct e as [tbl|b|v|key|c| | | |i d|i d|d|i r|i]; simpl; try done.
  - unfold handleScroll, getNext. by repeat case_match.
  - unfold handleKeyPress. by case_match.
  - by rewrite (proj2 (paging_net_timers _ _ (handleChange_paging c s))).
  - destruct (groupSubmit_adds_mutation GROUP_URL s) as (_ & _ & _ & -> & _).
    done.
  - destruct (submitRow_adds_mutation GROUP_URL s) as (_ & _ & _ & -> & _).
    done.
  - by rewrite (proj2 (paging_net_timers _ _ (editRow_paging i d s))).
  - destruct (net s !! i) as [req|] eqn:Hi; [|done].
    destruct r as [body|]; [|done].
    pose proof (Forall_lookup_1 _ _ _ _ Hn Hi) as Hw.
    unfold well_formed in Hw.
    destruct (r_callback req); simpl.
    + unfold getGroupsData. case_match; [|done].
      by destruct p as [[fetched nxt] prev].
    + unfold getCampaignCategories. by repeat case_match.
    + destruct Hw as (o & -> & _). simpl.
      apply Forall_app. split; [done|]. by repeat constructor.
    + unfold groupUpdateResponse. by repeat case_match.
    + unfold deleteGroupResponse.
      case_match; simpl; (apply Forall_app; split; [done|]);
        by repeat constructor.
  - destruct (timers s !! i) as [t|]; [|done].
    assert (Hd : Forall timer_set_by_view (delete i (timers s)))
      by by apply Forall_delete.
    destruct (t_action t) as [clean|[el|]]; simpl; try done.
    by destruct clean.
Qed.

(** X7: whatever the user does and whatever the server answers, every
    request in flight has the shape its response handler expects: a
    create request is a POST of fields whose category and campaign are
    truthy to [GROUP_URL]; an update is a PUT of the four keys to the URL
    of the id it carries; both carry [clean_results: true], so no timer
    of the other branch of [groupSubmitResponse] is ever set. *)
Theorem requests_in_flight_are_well_formed :
  ∀ (GROUP_URL CATEGORIES_CAMPAIGN_URL : string) (es : list event),
    let s := run GROUP_URL (mounted GROUP_URL CATEGORIES_CAMPAIGN_URL) es in
    Forall (well_formed GROUP_URL CATEGORIES_CAMPAIGN_URL) (net s)
    ∧ Forall timer_set_by_view (timers s).
Proof.
  intros U C es. simpl.
  assert (H : ∀ s,
            fields_is_object s →
            Forall (well_formed U C) (net s) →
            Forall timer_set_by_view (timers s) →
            Forall (well_formed U C) (net (run U s es))
            ∧ Forall timer_set_by_view (timers (run U s es))).
  { induction es as [|e es IH]; intros s Ho Hn Ht; [done|].
    simpl. apply IH.
    - by apply step_keeps_object.
    - by apply step_requests_well_formed.
    - by eapply step_timers_set_by_view. }
  apply H.
  - by exists [].
  - by repeat constructor.
  - constructor.
Qed.

(** ** Creating a group *)

(** X8: a Submit on fields whose category and campaign are truthy posts
    the fields to [GROUP_URL]; whatever the response holds, the form
    reports success and stays open for 3000 ms; the timer then closes it,
    empties the collection and asks for the first page.  The fields are
    left as they were sent. *)
Theorem create_posts_the_fields_then_reloads :
  ∀ (GROUP_URL : string) (s : state) (o : obj) (body : jsval),
    fields_value s = Some (JObj o) →
    truthy (assoc "category" o) = true →
    truthy (assoc "campaign" o) = true →
    let s1 := state_of (step GROUP_URL s ClickSubmit) in
    let s2 := state_of (step GROUP_URL s1
                          (Response (length (net s)) (Success body))) in
    let s3 := state_of (step GROUP_URL s2 (Timeout (length (timers s)))) in
    added s s1 = [Request POST (JStr GROUP_URL) (Some (JObj o))
                    cb_groupSubmitResponse (clean_results true) by_groupSubmit]
    ∧ errors s1 = ∅
    ∧ (formSuccess s2 = true ∧ modal s2 = modal s ∧ net s2 = net s
       ∧ results s2 = results s
       ∧ timers s2 = timers s ++ [Timer 3000 (close_modal_and_reload true)])
    ∧ (modal s3 = false ∧ formSuccess s3 = false ∧ results s3 = []
       ∧ loading s3 = true ∧ timers s3 = timers s
       ∧ net s3 = net s ++ [Request GET (JStr GROUP_URL) None cb_getGroupsData
                              no_extra by_getGroups])
    ∧ fields_value s3 = Some (JObj o).
Proof.
  intros U s o body Ho Hc Hp s1 s2 s3.
  destruct (handleValidation_object _ _ Ho) as (errs & Hval & Hv).
  rewrite validate_object, Hc, Hp in Hval. injection Hval as <-.
  rewrite Hc, Hp in Hv. unfold fields_value in Ho.
  assert (E1 : s1 = postRequest (JStr U) (JObj o) cb_groupSubmitResponse POST
                      (clean_results true) by_groupSubmit (set_errors ∅ s)).
  { subst s1. cbn [step]. unfold groupSubmit. rewrite Hv.
    cbn [heap fields set_errors]. by rewrite Ho. }
  assert (E2 : s2 = setTimeout (close_modal_and_reload true) 3000
                      (set_formSuccess true (set_net (net s) s1))).
  { subst s2. rewrite E1. unfold step, postRequest. cbn [net set_net set_errors].
    rewrite list_lookup_middle by done.
    by rewrite delete_middle, app_nil_r. }
  assert (E3 : s3 = getGroups U
                      (set_loading true
                         (set_results []
                            (set_formSuccess false
                               (set_modal false (set_timers (timers s) s2)))))).
  { subst s3. rewrite E2, E1. unfold step, setTimeout.
    cbn [timers set_timers set_formSuccess set_net postRequest set_errors].
    rewrite list_lookup_middle by done.
    by rewrite delete_middle, app_nil_r. }
  clearbody s1 s2 s3. subst s3 s2 s1.
  split; [unfold added; simpl; by rewrite drop_app_length|].
  done.
Qed.

Lemma create_posts_the_fields_then_reloads_witness :
  let o := [("category", JArr [JNum 1]); ("campaign", JNum 3)] in
  let s := run demo_url (demo_loaded JNull)
             [Change (ChangeCategory (Some [[("value", JNum 1)]]) false);
              Change (ChangeCampaign (Some [("value", JNum 3)]) false);
              ClickToggle] in
  let s3 := run demo_url s
              [ClickSubmit; Response 1 (Success JNull); Timeout 0] in
  fields_value s = Some (JObj o)
  ∧ modal s = true ∧ length (results s) = 1%nat
  ∧ modal s3 = false ∧ results s3 = [] ∧ loading s3 = true
  ∧ fields_value s3 = Some (JObj o).
Proof.
  intros o s s3.
  assert (Ho : fields_value s = Some (JObj o)) by (vm_compute; reflexivity).
  split; [exact Ho|]. split; [reflexivity|]. split; [reflexivity|].
  destruct (create_posts_the_fields_then_reloads demo_url s o JNull Ho
              eq_refl eq_refl)
    as (_ & _ & _ & (H1 & _ & H3 & H4 & _) & H5).
  split; [exact H1|]. split; [exact H3|]. split; [exact H4|]. exact H5.
Defined.

(** ** A page that does not arrive *)

Lemma no_collection_get (n : list request) (i : nat) (req : request) :
  collection_gets n = 0 → n !! i = Some req →
  r_callback req ≠ cb_getGroupsData ∧ collection_gets (delete i n) = 0.
Proof.
  intros Hz Hi. pose proof (collection_gets_delete _ _ _ Hi) as Hd.
  case_decide; [lia|]. split; [done|lia].
Qed.

Lemma added_mutation_no_collection_get (s s' : state) :
  added_mutation s s' → collection_gets (net s) = 0 →
  collection_gets (net s') = 0 ∧ loading s' = loading s
  ∧ results s' = results s ∧ next s' = next s.
Proof.
  intros (Hr & Hl & Hn & _ & [Hnet | (r & Hnet & Hcb & _)]) Hz.
  - by rewrite Hnet.
  - rewrite Hnet, collection_gets_app, Hz. unfold collection_gets.
    rewrite filter_cons, filter_nil. by rewrite decide_False.
Qed.

Lemma handleChange_sets_heap_errors (c : change) (s : state) :
  ∃ h errs, state_of (handleChange c s) = set_errors errs (set_heap h s).
Proof.
  assert (Hid : ∀ s0, s0 = set_errors (errors s0) (set_heap (heap s0) s0))
    by by intros [].
  unfold handleChange.
  set (assigned := match c with
                   | ChangeCategory _ _ => _
                   | ChangeIsActive _ => _
                   | ChangeCampaign _ _ => _
                   end).
  assert (Ha : ∀ s1, assigned = Some s1 → ∃ h, s1 = set_heap h s).
  { intros s1 H. subst assigned.
    repeat case_match; simplify_eq;
      try (match goal with
           | |- ∃ h, ?x = set_heap h ?x => exists (heap x); by destruct x
           end);
      by destruct (set_field_sets_heap _ _ _ _ H) as [h ->]; exists h. }
  destruct assigned as [s1|]; [|by eexists _, _].
  destruct (Ha s1 eq_refl) as [h ->].
  destruct (handleValidation (set_heap h s)) as [[b s2]|] eqn:Hv; simpl.
  - destruct (handleValidation_sets_errors _ _ _ Hv) as [errs ->].
    by eexists _, _.
  - exists h, (errors s). by destruct s.
Qed.

Lemma page_of_mutations (GROUP_URL : string) (s : state) :
  page (state_of (groupSubmit GROUP_URL s)) = page s
  ∧ page (state_of (submitRow GROUP_URL s)) = page s.
Proof.
  unfold groupSubmit, submitRow.
  destruct (handleValidation s) as [[b s1]|] eqn:Hv; [|done].
  destruct (handleValidation_sets_errors _ _ _ Hv) as [errs ->].
  destruct b; [|done]. simpl. by repeat case_match.
Qed.

Lemma waiting_step (GROUP_URL : string) (s : state) (e : event) :
  collection_gets (net s) = 0 → loading s = true → refetches s e = false →
  let s' := state_of (step GROUP_URL s e) in
  collection_gets (net s') = 0 ∧ loading s' = true
  ∧ results s' = results s ∧ next s' = next s ∧ page s' = page s.
Proof.
  intros Hz Hl Hr.
  destruct e as [tbl|b|v|key|c| | | |i d|i d|d|i r|i]; simpl in Hr; simpl;
    try done.
  - unfold handleScroll. rewrite Hl. by destruct b.
  - unfold handleKeyPress. by rewrite Hr.
  - by destruct (handleChange_sets_heap_errors c s) as (h & errs & ->).
  - destruct (added_mutation_no_collection_get _ _
                (groupSubmit_adds_mutation GROUP_URL s) Hz)
      as (-> & -> & -> & ->).
    by rewrite (proj1 (page_of_mutations GROUP_URL s)).
  - destruct (added_mutation_no_collection_get _ _
                (submitRow_adds_mutation GROUP_URL s) Hz)
      as (-> & -> & -> & ->).
    by rewrite (proj2 (page_of_mutations GROUP_URL s)).
  - pose proof (editRow_paging i d s) as Hp. injection Hp as -> -> -> -> _.
    repeat split; try done. unfold editRow. by repeat case_match.
  - destruct (added_mutation_no_collection_get _ _
                (deleteRow_adds_mutation GROUP_URL d s) Hz)
      as (H1 & _).
    split; [exact H1|done].
  - destruct (net s !! i) as [req|] eqn:Hi; [|done].
    destruct (no_collection_get _ _ _ Hz Hi) as [Hcb Hd].
    destruct r as [body|]; [|done].
    destruct (r_callback req); simpl; try done.
    + unfold getCampaignCategories. by repeat case_match.
    + unfold groupSubmitResponse, setTimeout. by case_match.
    + unfold groupUpdateResponse. by rewrite (get_nullish _ _ Hr).
    + unfold deleteGroupResponse. by case_match.
  - destruct (timers s !! i) as [[ms [clean|findrow]]|] eqn:Hi; try done.
    simpl. by case_match.
Qed.

Lemma waiting_run (GROUP_URL : string) (es : list event) (s : state) :
  collection_gets (net s) = 0 → loading s = true →
  no_refetch GROUP_URL s es = true →
  let s' := run GROUP_URL s es in
  collection_gets (net s') = 0 ∧ loading s' = true
  ∧ results s' = results s ∧ next s' = next s ∧ page s' = page s.
Proof.
  revert s. induction es as [|e es IH]; intros s Hz Hl Hq; [done|].
  simpl in *. apply andb_prop in Hq as [He Hq]. apply negb_true_iff in He.
  destruct (waiting_step GROUP_URL s e Hz Hl He) as (Hz' & Hl' & <- & <- & <-).
  by apply IH.
Qed.

(** X9: when [loading] is false, the next cursor is truthy and no
    request for the collection is in flight, and the page request that a
    scroll to the bottom then issues fails, or is answered by a body
    whose [results] cannot be spread, [loading] stays true: the page
    counter has advanced, no row was added, and until a search, a create
    or an update asks for the first page again no scroll requests a page
    and nothing clears [loading]. *)
Theorem failed_page_stops_pagination :
  ∀ (GROUP_URL : string) (s : state) (r : response) (es : list event),
    collection_gets (net s) = 0 →
    loading s = false →
    truthy (next s) = true →
    (r = Failure
     ∨ ∃ body, r = Success body ∧ isArray body = false
               ∧ get body "results" ≫= spread = None) →
    let s1 := run GROUP_URL s [Scroll true; Response (length (net s)) r] in
    no_refetch GROUP_URL s1 es = true →
    let s2 := run GROUP_URL s1 es in
    loading s2 = true
    ∧ results s2 = results s
    ∧ page s2 = (page s + 1)%Z
    ∧ next s2 = next s
    ∧ collection_gets (net s2) = 0.
Proof.
  intros U s r es Hz Hl Hn Hr s1 Hq s2.
  assert (E1 : s1 = set_net (net s) (getNext s)).
  { subst s1. simpl. unfold handleScroll. rewrite Hl, Hn. simpl.
    rewrite list_lookup_middle by done.
    rewrite delete_middle, app_nil_r.
    destruct Hr as [->|(body & -> & Ha & Hs)]; [done|].
    simpl. unfold getGroupsData. rewrite Ha. simpl. by rewrite Hs. }
  destruct (waiting_run U es s1) as (H1 & H2 & H3 & H4 & H5);
    [by rewrite E1..|done|].
  fold s2 in H1, H2, H3, H4, H5.
  rewrite H2, H3, H4, H5, H1, E1. done.
Qed.

Lemma failed_page_stops_pagination_witness :
  let s := demo_loaded (JStr "/api/v1/groups/?page=2") in
  let r := Success (JObj [("detail", JStr "Not found.")]) in
  let s1 := run demo_url s [Scroll true; Response (length (net s)) r] in
  let s2 := run demo_url s1 [Scroll true; ClickEdit 0 "7"; Scroll true] in
  loading s = false
  ∧ loading s2 = true ∧ results s2 = results s ∧ page s2 = (page s + 1)%Z
  ∧ collection_gets (net s2) = 0%nat.
Proof.
  intros s r s1 s2. split; [reflexivity|].
  destruct (failed_page_stops_pagination demo_url s r
              [Scroll true; ClickEdit 0 "7"; Scroll true]
              eq_refl eq_refl eq_refl
              (or_intror (ex_intro _ _ (conj eq_refl (conj eq_refl eq_refl))))
              ltac:(vm_compute; reflexivity))
    as (H1 & H2 & H3 & _ & H5).
  split; [exact H1|]. split; [exact H2|]. split; [exact H3|]. exact H5.
Defined.

(** ** Searching while a page is in flight *)

Lemma delete_app_left {A : Type} (l k : list A) (i : nat) :
  i < length l → delete i (l ++ k) = delete i l ++ k.
Proof.
  intros Hi. rewrite !delete_take_drop, take_app_le, drop_app_le by lia.
  by rewrite app_assoc.
Qed.

Lemma lookup_fresh_rows (h l : list jsval) :
  map (λ a, (h ++ l) !! a) (seq (length h) (length l)) = map Some l.
Proof.
  revert h. induction l as [|x l IH]; intros h; [done|].
  simpl. rewrite list_lookup_middle by done. f_equal.
  specialize (IH (h ++ [x])).
  rewrite <- app_assoc, length_app, Nat.add_1_r in IH. exact IH.
Qed.

(** X10: [getGroupsData] does not know which request it answers.  When
    the user submits a search while a request for the collection is in
    flight, the collection is emptied and the search is requested; the
    response to the earlier request then fills the collection with its
    rows and clears [loading], while the search is still in flight. *)
Theorem search_shows_the_page_requested_before :
  ∀ (GROUP_URL : string) (s : state) (i : nat) (req : request)
    (v : string) (body : jsval) (fetched : list jsval),
    net s !! i = Some req →
    r_callback req = cb_getGroupsData →
    isArray body = false →
    get body "results" ≫= spread = Some fetched →
    let s1 := run GROUP_URL s [QueryChange v; KeyPress "Enter"] in
    let s2 := state_of (step GROUP_URL s1 (Response i (Success body))) in
    results s1 = []
    ∧ loading s1 = loading s
    ∧ added s s1 = [Request GET (JStr (GROUP_URL +:+ "?q=" +:+ v)) None
                      cb_getGroupsData no_extra by_handleKeyPress]
    ∧ collection s2 = map Some fetched
    ∧ loading s2 = false
    ∧ Some (next s2) = get body "next"
    ∧ last (net s2) = Some (Request GET (JStr (GROUP_URL +:+ "?q=" +:+ v)) None
                              cb_getGroupsData no_extra by_handleKeyPress).
Proof.
  intros U s i req v body fetched Hi Hcb Ha Hf s1 s2.
  set (search := Request GET (JStr (U +:+ "?q=" +:+ v)) None
                   cb_getGroupsData no_extra by_handleKeyPress).
  assert (E1 : s1 = set_net (net s ++ [search]) (set_results [] (set_q v s)))
    by reflexivity.
  assert (Hl : i < length (net s)) by (by eapply lookup_lt_Some).
  destruct (getGroupsData_appends
              (set_net (delete i (net s) ++ [search]) (set_results [] (set_q v s)))
              body fetched Ha Hf)
    as (s' & Hg & Hr & Hh & Hn & _ & Hld & Hnet).
  assert (E2 : s2 = s').
  { subst s2. rewrite E1. cbn [step net set_net].
    rewrite lookup_app_l, Hi by done. cbn [r_callback dispatch].
    rewrite Hcb. cbn [dispatch set_net net set_results set_q].
    rewrite delete_app_left by done.
    unfold set_net, set_results, set_q in Hg. simpl in Hg.
    unfold set_net. simpl. by rewrite Hg. }
  clearbody s1 s2. subst s1 s2.
  split; [done|]. split; [done|].
  split; [unfold added; simpl; by rewrite drop_app_length|].
  split.
  { unfold collection. rewrite Hr, Hh. simpl. apply lookup_fresh_rows. }
  split; [done|]. split; [done|].
  rewrite Hnet. simpl. by rewrite last_snoc.
Qed.

Lemma search_shows_the_page_requested_before_witness :
  let s := mounted demo_url demo_categories_url in
  let s2 := run demo_url s
              [QueryChange "zz"; KeyPress "Enter";
               Response 0 (Success (demo_page JNull))] in
  q s2 = "zz" ∧ collection s2 = [Some demo_row] ∧ loading s2 = false.
Proof.
  intros s s2.
  destruct (search_shows_the_page_requested_before demo_url s 0 _ "zz"
              (demo_page JNull) [demo_row] eq_refl eq_refl eq_refl eq_refl)
    as (_ & _ & _ & H4 & H5 & _).
  split; [reflexivity|]. split; [exact H4|exact H5].
Defined.

(** ** Deleting a row that is not where it was *)




End GroupMore.

(** * Properties of the theme and the side bar of the dashboard views *)

Module ChromeProps.
Import JS Chrome.

Lemma chrome_getTheme_effect (s : state) :
  isChecked (getTheme s) = isChecked s
  ∧ isSideOpen (getTheme s) = isSideOpen s
  ∧ cookies (getTheme s) = cookies s
  ∧ bool_decide (dark_style (getTheme s) = Some false)
    = truthy (cookies_get "isChecked" s).
Proof.
  unfold getTheme, enable_dark_style, disable_dark_style.
  destruct (truthy (cookies_get "isChecked" s)); [done|].
  destruct (dark_style s) as [b|] eqn:E; simpl; [done|].
  by rewrite E.
Qed.

Lemma chrome_componentDidMount_agrees (jar : gmap string string) (link : option bool) :
  agrees (componentDidMount (initial jar link)).
Proof.
  unfold agrees, componentDidMount.
  set (s2 := set_isChecked _ _).
  destruct (chrome_getTheme_effect s2) as (-> & -> & Hc & ->).
  unfold cookies_get. by rewrite Hc.
Qed.

Lemma chrome_disable_dark_style_effect (s : state) :
  ∃ d, disable_dark_style s = set_dark_style d s ∧ d ≠ Some false.
Proof.
  unfold disable_dark_style. destruct (dark_style s) as [b|] eqn:E.
  - by exists (Some true).
  - exists None. split; [|done]. destruct s. simpl in E. by subst.
Qed.

Lemma chrome_toggleSwitch_cases (data : jsval) (s : state) :
  toggleSwitch data s =
    if strict_eq_true data
    then set_cookies (<["isChecked" := "true"]> (cookies s))
           (set_isChecked true (enable_dark_style s))
    else set_cookies (delete "isChecked" (cookies (disable_dark_style s)))
           (set_isChecked false (disable_dark_style s)).
Proof. by destruct data as [| |[|]| | | |]. Qed.

Lemma chrome_isSideBarToogle_cases (data : jsval) (s : state) :
  isSideBarToogle data s =
    if strict_eq_true data
    then set_cookies (<["isSideOpen" := "true"]> (cookies s))
           (set_isSideOpen true s)
    else set_cookies (delete "isSideOpen" (cookies s)) (set_isSideOpen false s).
Proof. by destruct data as [| |[|]| | | |]. Qed.

Lemma chrome_step_agrees (s : state) (e : event) : agrees s → agrees (step s e).
Proof.
  intros (Hc & Hs & Hd). unfold agrees, cookies_get in *.
  destruct e as [data|data]; simpl.
  - rewrite chrome_toggleSwitch_cases. destruct (strict_eq_true data); simpl.
    + rewrite lookup_insert_eq, lookup_insert_ne by done. done.
    + destruct (chrome_disable_dark_style_effect s) as (d & -> & Hne). simpl.
      rewrite lookup_delete_eq, lookup_delete_ne by done.
      split; [done|]. split; [done|]. by rewrite bool_decide_eq_false_2.
  - rewrite chrome_isSideBarToogle_cases. destruct (strict_eq_true data); simpl.
    + rewrite lookup_insert_eq, lookup_insert_ne by done. done.
    + rewrite lookup_delete_eq, lookup_delete_ne by done. done.
Qed.

(** X12: in Group.js and SubscriptionDetails.js the theme and the side
    bar are persisted.  After the mount and any sequence of switches,
    each flag is set exactly when its cookie is truthy and the dark
    stylesheet is in force exactly when [isChecked] is; a reload (the
    constructor and the mount again, on a document without the link) then
    shows the same flags and the same theme. *)
Theorem theme_and_side_bar_survive_a_reload :
  ∀ (jar : gmap string string) (link : option bool) (es : list event),
    let s := run (componentDidMount (initial jar link)) es in
    let s' := componentDidMount (initial (cookies s) None) in
    agrees s
    ∧ isChecked s' = isChecked s
    ∧ isSideOpen s' = isSideOpen s
    ∧ dark_style s' = (if isChecked s then Some false else None).
Proof.
  intros jar link es s s'.
  assert (Ha : agrees s).
  { subst s. generalize (chrome_componentDidMount_agrees jar link).
    generalize (componentDidMount (initial jar link)).
    induction es as [|e es IH]; intros s0 H0; [done|].
    simpl. apply IH. by apply chrome_step_agrees. }
  split; [done|]. destruct Ha as (Hc & Hs & _). clearbody s.
  subst s'. unfold componentDidMount, getTheme, cookies_get in *. simpl.
  rewrite <- Hc, <- Hs. by destruct (isChecked s).
Qed.

(** X13: the last switch decides.  [toggleSwitch] and [isSideBarToogle]
    set their flag exactly when they are given [true] itself, whatever
    the state was; neither changes the other's flag or cookie. *)
Theorem last_switch_decides :
  ∀ (s : state) (data : jsval),
    let on := strict_eq_true data in
    let t := toggleSwitch data s in
    let b := isSideBarToogle data s in
    (isChecked t = on
     ∧ bool_decide (is_Some (cookies t !! "isChecked")) = on
     ∧ isSideOpen t = isSideOpen s
     ∧ cookies t !! "isSideOpen" = cookies s !! "isSideOpen")
    ∧ (isSideOpen b = on
       ∧ bool_decide (is_Some (cookies b !! "isSideOpen")) = on
       ∧ isChecked b = isChecked s
       ∧ dark_style b = dark_style s
       ∧ cookies b !! "isChecked" = cookies s !! "isChecked").
Proof.
  intros s data on t b. subst on t b.
  rewrite chrome_toggleSwitch_cases, chrome_isSideBarToogle_cases.
  destruct (chrome_disable_dark_style_effect s) as (d & -> & _).
  destruct (strict_eq_true data); simpl;
    rewrite ?lookup_insert_eq, ?lookup_delete_eq;
    rewrite ?lookup_insert_ne, ?lookup_delete_ne by done;
    repeat split; try done;
    by rewrite ?bool_decide_eq_true, ?bool_decide_eq_false, <- ?not_eq_None_Some.
Qed.

End ChromeProps.

(** * Further properties of the Bookmark view *)

Module BookmarkMore.
Import JS Bookmark BookmarkSpec BookmarkNotions BookmarkProps.

Section More.

Variables (DOMAIN MENUS ARTICLE_BOOKMARK ALL_ARTICLE_BOOKMARK
           ARTICLE_LOGOUT SUGGESTIONS : string).
Variable format_date : jsval -> jsval.
Variable decodeURIComponent : string -> option string.
Variable number_to_string : Z -> string.

Abbreviation step :=
  (Bookmark.step DOMAIN ARTICLE_BOOKMARK ALL_ARTICLE_BOOKMARK ARTICLE_LOGOUT
     SUGGESTIONS format_date decodeURIComponent number_to_string).
Abbreviation run :=
  (Bookmark.run DOMAIN ARTICLE_BOOKMARK ALL_ARTICLE_BOOKMARK ARTICLE_LOGOUT
     SUGGESTIONS format_date decodeURIComponent number_to_string).
Abbreviation getBookmarksArticles :=
  (Bookmark.getBookmarksArticles format_date decodeURIComponent
     number_to_string).
Abbreviation articleBookmarkResponse :=
  (Bookmark.articleBookmarkResponse DOMAIN ALL_ARTICLE_BOOKMARK).
Abbreviation componentDidMount :=
  (Bookmark.componentDidMount DOMAIN MENUS ALL_ARTICLE_BOOKMARK).
Abbreviation getArticleId := (Bookmark.getArticleId DOMAIN ARTICLE_BOOKMARK).
Abbreviation collect :=
  (Bookmark.collect format_date decodeURIComponent number_to_string).
Abbreviation item_ok :=
  (BookmarkSpec.item_ok decodeURIComponent number_to_string).

(** ** What the handlers leave alone *)

Lemma getBookmarksArticles_frame (body : jsval) (s : state) :
  let s' := state_of (getBookmarksArticles body s) in
  cookies s' = cookies s ∧ isChecked s' = isChecked s
  ∧ isSideOpen s' = isSideOpen s ∧ dark_style s' = dark_style s
  ∧ net s' = net s ∧ location s' = location s.
Proof.
  unfold Bookmark.getBookmarksArticles.
  destruct (get body "results" ≫= as_array) as [items|]; [|done].
  destruct (collect items [] (article_array s) (fresh s))
    as [[[fin news] arts] a].
  by destruct fin.
Qed.

Lemma articleBookmarkResponse_frame (body : jsval) (s : state) :
  let s' := state_of (articleBookmarkResponse body s) in
  cookies s' = cookies s ∧ isChecked s' = isChecked s
  ∧ isSideOpen s' = isSideOpen s ∧ dark_style s' = dark_style s
  ∧ location s' = location s ∧ timers s' = timers s
  ∧ isLoading s' = isLoading s.
Proof.
  unfold Bookmark.articleBookmarkResponse.
  destruct (get body "bookmark_article" ≫= _) as [article|]; [|done].
  simpl. by destruct (truthy _).
Qed.

Lemma getMenu_frame (body : jsval) (s : state) :
  ∃ m, state_of (getMenu body s) = set_menus m s.
Proof.
  unfold getMenu. case_match.
  - by eexists.
  - exists (menus s). by destruct s.
Qed.

Lemma getSuggestionsResponse_frame (body : jsval) (s : state) :
  ∃ o, state_of (getSuggestionsResponse body s) = set_options o s.
Proof.
  unfold getSuggestionsResponse. case_match.
  - by eexists.
  - exists (options s). by destruct s.
Qed.

(** ** The theme and the side bar *)

Lemma getTheme_effect (s : state) :
  isChecked (getTheme s) = isChecked s
  ∧ isSideOpen (getTheme s) = isSideOpen s
  ∧ cookies (getTheme s) = cookies s
  ∧ bool_decide (dark_style (getTheme s) = Some false)
    = truthy (cookies_get "isChecked" s).
Proof.
  unfold getTheme, enable_dark_style, disable_dark_style.
  destruct (truthy (cookies_get "isChecked" s)); [done|].
  destruct (dark_style s) as [b|] eqn:E; simpl; [done|].
  by rewrite E.
Qed.

Lemma disable_dark_style_effect (s : state) :
  ∃ d, disable_dark_style s = set_dark_style d s ∧ d ≠ Some false.
Proof.
  unfold disable_dark_style. destruct (dark_style s) as [b|] eqn:E.
  - by exists (Some true).
  - exists None. split; [|done]. destruct s. simpl in E. by subst.
Qed.

Lemma toggleSwitch_cases (data : jsval) (s : state) :
  toggleSwitch data s =
    if Chrome.strict_eq_true data
    then set_cookies (<["isChecked" := "true"]> (cookies s))
           (set_isChecked true (enable_dark_style s))
    else set_cookies (delete "isChecked" (cookies (disable_dark_style s)))
           (set_isChecked false (disable_dark_style s)).
Proof. by destruct data as [| |[|]| | | |]. Qed.

Lemma isSideBarToogle_cases (data : jsval) (s : state) :
  isSideBarToogle data s =
    if Chrome.strict_eq_true data
    then set_cookies (<["isSideOpen" := "true"]> (cookies s))
           (set_isSideOpen true s)
    else set_cookies (delete "isSideOpen" (cookies s)) (set_isSideOpen false s).
Proof. by destruct data as [| |[|]| | | |]. Qed.

Lemma componentDidMount_agrees (jar : gmap string string) (link : option bool) :
  agrees (componentDidMount (initial jar link)).
Proof.
  unfold agrees, Bookmark.componentDidMount.
  set (s4 := set_isSideOpen _ _).
  destruct (getTheme_effect s4) as (-> & -> & Hc & ->).
  unfold cookies_get. rewrite Hc. subst s4. simpl.
  by destruct (truthy _).
Qed.

Lemma step_agrees (s : state) (e : event) :
  agrees s → agrees (state_of (step s e)).
Proof.
  intros (Hc & Hs & Hd). unfold agrees, cookies_get in *.
  destruct e as [data|data|data|data|articleId| |query|i r|i]; simpl;
    try done.
  - rewrite toggleSwitch_cases. destruct (Chrome.strict_eq_true data); simpl.
    + rewrite lookup_insert_eq, lookup_insert_ne by done. done.
    + destruct (disable_dark_style_effect s) as (d & -> & Hne). simpl.
      rewrite lookup_delete_eq, lookup_delete_ne by done.
      split; [done|]. split; [done|]. by rewrite bool_decide_eq_false_2.
  - rewrite isSideBarToogle_cases. destruct (Chrome.strict_eq_true data); simpl.
    + rewrite lookup_insert_eq, lookup_insert_ne by done. done.
    + rewrite lookup_delete_eq, lookup_delete_ne by done. done.
  - unfold Bookmark.getArticleId.
    by destruct (truthy (cookies_get "full_name" s)).
  - destruct (net s !! i) as [req|]; [|done].
    destruct r as [body|]; [|done].
    destruct (r_callback req); simpl.
    + by destruct (getMenu_frame body (set_net (delete i (net s)) s)) as [m ->].
    + destruct (getBookmarksArticles_frame body (set_net (delete i (net s)) s))
        as (-> & -> & -> & -> & _). done.
    + destruct (articleBookmarkResponse_frame body
                  (set_net (delete i (net s)) s))
        as (-> & -> & -> & -> & _). done.
    + by rewrite !lookup_delete_ne by done.
    + by destruct (getSuggestionsResponse_frame body
                     (set_net (delete i (net s)) s)) as [o ->].
  - by destruct (timers s !! i).
Qed.

Lemma componentDidMount_dark_style (s : state) :
  dark_style (componentDidMount s) =
    if truthy (cookies_get "isChecked" s) then Some false
    else match dark_style s with
         | Some _ => Some true
         | None => None
         end.
Proof.
  unfold Bookmark.componentDidMount. cbv zeta.
  set (s1 := getRequest _ _ _ s).
  set (s2 := if truthy (cookies_get "full_name" s1) then _ else _).
  assert (H : cookies s2 = cookies s ∧ dark_style s2 = dark_style s)
    by (subst s2; by destruct (truthy _)).
  destruct H as [Hk Hd]. clearbody s2.
  unfold getTheme, cookies_get, enable_dark_style, disable_dark_style.
  simpl. rewrite Hk, Hd.
  destruct (truthy _); [done|]. by destruct (dark_style s).
Qed.

(** X14: the Bookmark view persists the theme and the side bar in the
    same way.  After the mount and any events, responses and timers,
    each flag is set exactly when its cookie is truthy and the dark
    stylesheet is in force exactly when [isChecked] is; the constructor
    and the mount on the cookies left behind show the same flags. *)
Theorem bookmark_theme_and_side_bar_survive_a_reload :
  ∀ (jar : gmap string string) (link : option bool) (es : list event),
    let s := run (componentDidMount (initial jar link)) es in
    let s' := componentDidMount (initial (cookies s) None) in
    agrees s
    ∧ isChecked s' = isChecked s
    ∧ isSideOpen s' = isSideOpen s
    ∧ dark_style s' = (if isChecked s then Some false else None).
Proof.
  intros jar link es s s'.
  assert (Ha : agrees s).
  { subst s. generalize (componentDidMount_agrees jar link).
    generalize (componentDidMount (initial jar link)).
    induction es as [|e es IH]; intros s0 H0; [done|].
    simpl. apply IH. by apply step_agrees. }
  split; [done|]. destruct Ha as (Hc & Hs & _). clearbody s.
  destruct (componentDidMount_agrees (cookies s) None) as (Hc' & Hs' & _).
  fold s' in Hc', Hs'.
  assert (Hk : cookies s' = cookies s)
    by (subst s'; by rewrite componentDidMount_cookies).
  unfold cookies_get in *. rewrite Hk in Hc', Hs'.
  split; [congruence|]. split; [congruence|].
  subst s'. rewrite componentDidMount_dark_style. unfold cookies_get. simpl.
  by rewrite <- Hc.
Qed.

(** ** A reader who is not signed in *)

Lemma getTheme_frame (s : state) : ∃ d, getTheme s = set_dark_style d s.
Proof.
  unfold getTheme. destruct (truthy _); [by eexists|].
  destruct (disable_dark_style_effect s) as (d & -> & _). by exists d.
Qed.

Lemma componentDidMount_anonymous (jar : gmap string string)
    (link : option bool) :
  jar !! "full_name" = None →
  anonymous (componentDidMount (initial jar link)).
Proof.
  intros Hj. unfold anonymous.
  rewrite componentDidMount_cookies.
  unfold Bookmark.componentDidMount. cbv zeta.
  set (s1 := getRequest _ _ _ (initial jar link)).
  assert (E : truthy (cookies_get "full_name" s1) = false)
    by (unfold cookies_get; simpl; by rewrite Hj).
  rewrite E.
  set (s4 := set_isSideOpen _ _).
  destruct (getTheme_frame s4) as [d ->]. subst s4 s1. simpl.
  repeat split; try done. by repeat constructor.
Qed.

Lemma step_anonymous (s : state) (e : event) :
  anonymous s → anonymous (state_of (step s e)).
Proof.
  intros (Hf & Hp & Hl & Hb & Ht & Hu & Hn). unfold anonymous.
  destruct e as [data|data|data|data|articleId| |query|i r|i]; simpl;
    try done.
  - rewrite toggleSwitch_cases.
    destruct (Chrome.strict_eq_true data); simpl.
    + by rewrite lookup_insert_ne.
    + destruct (disable_dark_style_effect s) as (d & -> & _). simpl.
      by rewrite lookup_delete_ne.
  - rewrite isSideBarToogle_cases.
    destruct (Chrome.strict_eq_true data); simpl.
    + by rewrite lookup_insert_ne.
    + by rewrite lookup_delete_ne.
  - unfold Bookmark.getArticleId, cookies_get. by rewrite Hf.
  - repeat split; try done. apply Forall_app. split; [done|].
    by repeat constructor.
  - repeat split; try done. apply Forall_app. split; [done|].
    by repeat constructor.
  - destruct (net s !! i) as [req|] eqn:Hi; [|done].
    assert (Hd : Forall (λ r, bookmark_request r = false) (delete i (net s)))
      by by apply Forall_delete.
    destruct r as [body|]; [|done].
    pose proof (Forall_lookup_1 _ _ _ _ Hn Hi) as Hr.
    unfold bookmark_request in Hr.
    destruct (r_callback req); simpl; try done.
    + by destruct (getMenu_frame body (set_net (delete i (net s)) s)) as [m ->].
    + by rewrite !lookup_delete_eq.
    + by destruct (getSuggestionsResponse_frame body
                     (set_net (delete i (net s)) s)) as [o ->].
  - by rewrite Ht.
Qed.

(** X15: a reader without the [full_name] cookie never gets past the
    loading view.  From the mount on, whatever happens, the view is on
    its way to the front page, shows no post and not the empty notice,
    keeps [isLoading], has no request for bookmarks in flight, and a
    click on a bookmark button sends nothing and opens the login
    dialog. *)
Theorem anonymous_reader_stays_loading :
  ∀ (jar : gmap string string) (link : option bool) (es : list event)
    (articleId : jsval),
    jar !! "full_name" = None →
    let s := run (componentDidMount (initial jar link)) es in
    anonymous s
    ∧ net (getArticleId articleId s) = net s
    ∧ modal (getArticleId articleId s) = true.
Proof.
  intros jar link es articleId Hj s.
  assert (Ha : anonymous s).
  { subst s. generalize (componentDidMount_anonymous jar link Hj).
    generalize (componentDidMount (initial jar link)).
    induction es as [|e es IH]; intros s0 H0; [done|].
    simpl. apply IH. by apply step_anonymous. }
  split; [done|]. destruct Ha as (Hf & _).
  unfold Bookmark.getArticleId, cookies_get. by rewrite Hf.
Qed.


(** ** Signing out *)

(** X16: [handleLogout] sends the token it finds; when the request is
    answered, the token and the name are gone from the cookies, the view
    is on its way to the front page and [bookmark_ids] is a new empty
    array, while the posts, the user name and the module's
    [article_array] stay as they were.  A click on a bookmark button then
    sends nothing.  When the request fails, only the request is gone. *)
Theorem logout_forgets_the_reader_not_the_articles :
  ∀ (s : state) (body articleId : jsval),
    let s1 := state_of (step s Logout) in
    let i := length (net s) in
    let s2 := state_of (step s1 (Response i (Success body))) in
    let s2' := state_of (step s1 (Response i Failure)) in
    net s1 = net s ++ [Request GET ARTICLE_LOGOUT None cb_authLogoutResponse
                         (Some ("Token " +:+ to_string (cookies_get "token" s)))]
    ∧ (cookies s2 = delete "full_name" (delete "token" (cookies s))
       ∧ location s2 = Some "/"
       ∧ is_loggedin s2 = false
       ∧ bookmark_ids s2 = own_array []
       ∧ newsPosts s2 = newsPosts s
       ∧ username s2 = username s
       ∧ article_array s2 = article_array s
       ∧ net s2 = net s)
    ∧ (net (getArticleId articleId s2) = net s
       ∧ modal (getArticleId articleId s2) = true)
    ∧ s2' = s.
Proof.
  intros s body articleId s1 i s2 s2'.
  assert (E1 : s1 = handleLogout ARTICLE_LOGOUT s) by reflexivity.
  assert (E2 : s2 = authLogoutResponse (set_net (net s) s)).
  { subst s2 i. rewrite E1. unfold Bookmark.step, handleLogout, getRequest.
    cbn [net set_net]. rewrite list_lookup_middle by done.
    by rewrite delete_middle, app_nil_r. }
  assert (E3 : s2' = s).
  { subst s2' i. rewrite E1. unfold Bookmark.step, handleLogout, getRequest.
    cbn [net set_net]. rewrite list_lookup_middle by done.
    rewrite delete_middle, app_nil_r. by destruct s. }
  clearbody s2 s2' s1. subst s2 s2' s1.
  split; [done|]. split; [done|]. split; [|done].
  unfold Bookmark.getArticleId, cookies_get. simpl.
  by rewrite lookup_delete_eq.
Qed.

(** ** The menu *)

Lemma lower_ascii_space (c : ascii) :
  Ascii.eqb (lower_ascii c) " "%char = Ascii.eqb c " "%char.
Proof. by destruct c as [[] [] [] [] [] [] [] []]. Qed.

Lemma count_spaces_toLowerCase (n : string) :
  count_spaces (toLowerCase n) = count_spaces n.
Proof.
  induction n as [|c n IH]; [done|]. simpl.
  by rewrite lower_ascii_space, IH.
Qed.

Lemma count_spaces_replace_space (n : string) :
  count_spaces (replace_space n) = pred (count_spaces n).
Proof.
  induction n as [|c n IH]; [done|]. simpl.
  destruct (Ascii.eqb c " "%char) eqn:E; simpl; [done|].
  by rewrite E, IH.
Qed.

Lemma replace_space_none (n : string) :
  count_spaces n = 0 → replace_space n = n.
Proof.
  induction n as [|c n IH]; [done|]. simpl.
  destruct (Ascii.eqb c " "%char); [done|]. simpl. intros H. by rewrite IH.
Qed.

Lemma replace_space_first (pre post : string) :
  count_spaces pre = 0 →
  replace_space (pre +:+ (" " +:+ post)) = pre +:+ ("-" +:+ post).
Proof.
  induction pre as [|c pre IH]; [done|]. simpl.
  destruct (Ascii.eqb c " "%char); [done|]. simpl. intros H.
  change (String c pre +:+ ("-" +:+ post))
    with (String c (pre +:+ ("-" +:+ post))).
  f_equal. by apply IH.
Qed.

Lemma toLowerCase_app (a b : string) :
  toLowerCase (a +:+ b) = toLowerCase a +:+ toLowerCase b.
Proof. induction a as [|c a IH]; [done|]. simpl. by rewrite IH. Qed.

(** X17: the URL [getMenu] gives a heading whose name is an ASCII
    string is "news/" and the name in lower case with its first space,
    and only that one, replaced by a dash: every further space of the
    name is a space of the URL. *)
Theorem menu_url_keeps_all_spaces_but_the_first :
  ∀ (item heading : jsval) (n : string),
    get item "heading" = Some heading →
    truthy heading = true →
    get heading "name" = Some (JStr n) →
    ascii_only n = true →
    let url := toLowerCase (replace_space n) in
    menu_item item =
      Some (Some (JObj [("itemtext", JStr n);
                        ("itemurl", JStr ("news/" +:+ url));
                        ("item_id", default JUndef (get heading "category_id"));
                        ("item_icon", default JUndef (get heading "icon"))]))
    ∧ (count_spaces n = 0 → url = toLowerCase n)
    ∧ (∀ pre post : string,
         n = pre +:+ (" " +:+ post) → count_spaces pre = 0 →
         url = toLowerCase pre +:+ ("-" +:+ toLowerCase post))
    ∧ count_spaces url = pred (count_spaces n).
Proof.
  intros item heading n Hh Ht Hn _ url. subst url. split; [|split; [|split]].
  - unfold menu_item. rewrite Hh. simpl. rewrite Ht, Hn. simpl.
    by destruct heading.
  - intros H. by rewrite replace_space_none.
  - intros pre post -> Hpre.
    by rewrite replace_space_first, !toLowerCase_app.
  - by rewrite count_spaces_toLowerCase, count_spaces_replace_space.
Qed.

(** ** A page that cannot be read to its end *)

(** X18: when an item of the response cannot be read, the handler stops
    at it: the posts shown, [bookmark_ids] and the timers stay as they
    were, but the cover articles of the items before it have already
    been pushed on the module's [article_array]. *)
Theorem unreadable_item_leaves_articles_pushed :
  ∀ (s : state) (body : jsval) (ok rest : list jsval) (bad : jsval),
    get body "results" ≫= as_array = Some (ok ++ bad :: rest) →
    forallb item_ok ok = true →
    item_ok bad = false →
    let o := getBookmarksArticles body s in
    returned o = false
    ∧ article_array (state_of o) = article_array s ++ cover_articles ok
    ∧ fresh (state_of o) = fresh s + length (cover_articles ok)
    ∧ newsPosts (state_of o) = newsPosts s
    ∧ bookmark_ids (state_of o) = bookmark_ids s
    ∧ is_bookmark_empty (state_of o) = is_bookmark_empty s
    ∧ timers (state_of o) = timers s.
Proof.
  intros s body ok rest bad Hb Hok Hbad o. subst o.
  unfold Bookmark.getBookmarksArticles. rewrite Hb.
  destruct (collect_app_ok format_date decodeURIComponent number_to_string
              ok Hok (bad :: rest) [] (article_array s) (fresh s))
    as (posts & _ & ->).
  by rewrite (collect_stops format_date decodeURIComponent number_to_string).
Qed.

End More.

Lemma anonymous_reader_stays_loading_witness :
  let s := demo_run (demo_mounted ∅)
             [ClickBookmark (JNum 1); Logout; Response 0 Failure; Timeout 0] in
  isLoading s = true ∧ newsPosts s = [] ∧ location s = Some "/".
Proof.
  intros s.
  destruct (anonymous_reader_stays_loading "newscout" "/menus/" "/bookmark/"
              "/bookmarks/" "/logout/" "/suggest/" (λ v, v) Some pretty ∅ None
              [ClickBookmark (JNum 1); Logout; Response 0 Failure; Timeout 0]
              JNull (lookup_empty _))
    as ((_ & Hp & Hl & _ & _ & Hu & _) & _).
  split; [exact Hl|]. split; [exact Hp|exact Hu].
Defined.

Lemma menu_url_keeps_all_spaces_but_the_first_witness :
  menu_item (JObj [("heading", JObj [("name", JStr "Top News Today");
                                     ("category_id", JNum 4)])]) =
    Some (Some (JObj [("itemtext", JStr "Top News Today");
                      ("itemurl", JStr "news/top-news today");
                      ("item_id", JNum 4);
                      ("item_icon", JUndef)])).
Proof.
  exact (proj1 (menu_url_keeps_all_spaces_but_the_first
                  (JObj [("heading", JObj [("name", JStr "Top News Today");
                                           ("category_id", JNum 4)])])
                  (JObj [("name", JStr "Top News Today"); ("category_id", JNum 4)])
                  "Top News Today" eq_refl eq_refl eq_refl eq_refl)).
Defined.

Lemma unreadable_item_leaves_articles_pushed_witness :
  let body := JObj [("results",
                     JArr [JObj [("article", demo_article 3 (JStr "c.png"))];
                           JObj [("title", JStr "no article")]])] in
  let o := getBookmarksArticles (λ v, v) Some pretty body demo_shown in
  returned o = false
  ∧ length (article_array demo_shown) = 2%nat
  ∧ article_array (state_of o)
    = article_array demo_shown ++ [demo_article 3 (JStr "c.png")]
  ∧ length (newsPosts (state_of o)) = 2%nat.
Proof.
  intros body o.
  destruct (unreadable_item_leaves_articles_pushed (λ v, v) Some pretty demo_shown
              body [JObj [("article", demo_article 3 (JStr "c.png"))]] []
              (JObj [("title", JStr "no article")])
              eq_refl eq_refl eq_refl)
    as (H1 & H2 & _ & H4 & _).
  split; [exact H1|]. split; [reflexivity|]. split; [exact H2|].
  fold o in H4. rewrite H4. reflexivity.
Defined.

End BookmarkMore.

(** * Further properties of the subscription form *)

Module SubscriptionMore.
Import JS SubscriptionDetail SubscriptionNotions.

Section More.

Variables (SUBSCRIPTION_URL ID : string).
Variable string_to_number : string -> option Z.
Variable number_to_string : Z -> string.

Abbreviation step :=
  (SubscriptionDetail.step SUBSCRIPTION_URL ID string_to_number number_to_string).
Abbreviation run :=
  (SubscriptionNotions.run SUBSCRIPTION_URL ID string_to_number number_to_string).
Abbreviation getSubscriptionData :=
  (SubscriptionDetail.getSubscriptionData string_to_number number_to_string).
Abbreviation submitForm :=
  (SubscriptionDetail.submitForm SUBSCRIPTION_URL ID number_to_string).
Abbreviation componentDidMount :=
  (SubscriptionDetail.componentDidMount SUBSCRIPTION_URL ID).
Abbreviation loose_eq_true :=
  (SubscriptionDetail.loose_eq_true string_to_number number_to_string).
Abbreviation ToString := (JS.ToString number_to_string).

(** ** From the response to the form that is posted *)

(** X19: what [submitForm] posts after the subscription has arrived.
    When the response has results and [auto_renew == true] can be
    decided, [getSubscriptionData] clears [loading], and a Submit then
    posts to [SUBSCRIPTION_URL + ID + "/"] the three entries [subs_type],
    [id] and [auto_renew], in this order: the strings of the type and of
    the id of the results, and "Yes" or "No" for the comparison.  The
    email and the payment mode are not posted.  When the type or the id
    has no string, the Submit stops at the TypeError and posts nothing;
    when the comparison raises one, the response handler stops and
    leaves the state as it was. *)
Theorem loaded_subscription_is_posted_back :
  ∀ (s : state) (body results : jsval),
    get body "results" = Some results →
    not_nullish results = true →
    let subs := default JUndef (get results "subs_type") in
    let rid := default JUndef (get results "id") in
    let renew := default JUndef (get results "auto_renew") in
    match loose_eq_true renew with
    | None => getSubscriptionData body s = Threw s
    | Some yes =>
        ∃ s1,
          getSubscriptionData body s = Done s1
          ∧ loading s1 = Some false
          ∧ net s1 = net s
          ∧ submitForm s1 =
              match ToString subs, ToString rid with
              | Some t, Some i =>
                  Done (set_net
                          (net s ++
                           [Request POST (SUBSCRIPTION_URL +:+ ID +:+ "/")
                              (Some [("subs_type", t); ("id", i);
                                     ("auto_renew",
                                      if yes : bool then "Yes" else "No")])
                              cb_renderResponse])
                          s1)
              | _, _ => Threw s1
              end
    end.
Proof.
  intros s body results Hb Hr subs rid renew. subst subs rid renew.
  unfold SubscriptionDetail.getSubscriptionData. rewrite Hb.
  destruct results as [| |b|z|str|l|o]; try done; simpl.
  1-4: eexists; split; [reflexivity|]; by repeat split.
  destruct (SubscriptionDetail.loose_eq_true string_to_number number_to_string
              (assoc "auto_renew" o)) as [yes|]; simpl; [|done].
  eexists. split; [reflexivity|]. split; [done|]. split; [done|].
  unfold SubscriptionDetail.submitForm. simpl.
  destruct (JS.ToString number_to_string (assoc "subs_type" o)); simpl; [|done].
  destruct (JS.ToString number_to_string (assoc "id" o)); simpl; [|done].
  by destruct yes.
Qed.

(** ** A subscription that does not arrive *)

Lemma step_never_loaded (s : state) (e : event) :
  never_loaded s → never_loaded (state_of (step s e)).
Proof.
  intros (Hl & Hi & He & Hc & Hn). unfold never_loaded.
  destruct e as [o|o| |i r]; simpl; try done.
  - unfold SubscriptionDetail.submitForm.
    destruct (_ ≫= _) as [form|]; simpl; [|done].
    repeat split; try done. apply Forall_app. split; [done|].
    by repeat constructor.
  - destruct (net s !! i) as [req|] eqn:Hreq; [|done].
    assert (Hd : Forall (λ r, r_callback r = cb_renderResponse)
                   (delete i (net s))) by by apply Forall_delete.
    destruct r as [body|]; [|done].
    rewrite (Forall_lookup_1 _ _ _ _ Hn Hreq).
    unfold renderResponse. destruct (get body "results"); [|done].
    by destruct (loose_eq_success _ _) as [[|]|].
Qed.

Lemma run_never_loaded (es : list event) (s : state) :
  never_loaded s → never_loaded (run s es).
Proof.
  revert s. induction es as [|e es IH]; intros s Hs; [done|].
  simpl. apply IH. by apply step_never_loaded.
Qed.

(** X20: when the request of the mount fails, or is answered by a body
    without results, [loading] stays set for good: whatever is selected,
    submitted or answered afterwards, the id, the email and the creation
    date are the empty strings of the constructor, and no request for
    the subscription is in flight. *)
Theorem subscription_that_does_not_arrive_keeps_loading :
  ∀ (r : response) (es : list event),
    (r = Failure
     ∨ ∃ body, r = Success body
               ∧ (get body "results" ≫= λ results, get results "email") = None) →
    never_loaded (run (componentDidMount initial) (Response 0 r :: es)).
Proof.
  intros r es Hr.
  assert (H0 : never_loaded
                 (state_of (step (componentDidMount initial) (Response 0 r)))).
  { destruct Hr as [->|(body & -> & Hb)]; [by repeat constructor|].
    simpl. unfold SubscriptionDetail.getSubscriptionData.
    destruct (get body "results") as [results|]; [|by repeat constructor].
    simpl in Hb. simpl. rewrite Hb. by repeat constructor. }
  change (run (componentDidMount initial) (Response 0 r :: es))
    with (run (state_of (step (componentDidMount initial) (Response 0 r))) es).
  by apply run_never_loaded.
Qed.

End More.

Lemma loaded_subscription_is_posted_back_witness :
  let results := JObj [("email", JStr "ann@example.org");
                       ("subs_type", JStr "Silver");
                       ("auto_renew", JStr "true");
                       ("id", JStr "5")] in
  ∃ s1,
    getSubscriptionData (λ _, None) pretty (JObj [("results", results)]) initial
      = Done s1
    ∧ submitForm "/subs/" "5" pretty s1 =
        Done (set_net
                [Request POST "/subs/5/"
                   (Some [("subs_type", "Silver"); ("id", "5");
                          ("auto_renew", "No")])
                   cb_renderResponse]
                s1).
Proof.
  intros results.
  destruct (loaded_subscription_is_posted_back "/subs/" "5" (λ _, None) pretty
              initial (JObj [("results", results)]) results eq_refl eq_refl)
    as (s1 & H1 & _ & _ & H4).
  exists s1. split; [exact H1|exact H4].
Defined.

Lemma subscription_that_does_not_arrive_keeps_loading_witness :
  never_loaded
    (run "/subs/" "5" (λ _, None) pretty (componentDidMount "/subs/" "5" initial)
       [Response 0 (Success (JObj [("detail", JStr "Not found.")]));
        SelectType [("value", JStr "Gold")]; Submit;
        Response 0 (Success (JObj [("results", JStr "success")]))]).
Proof.
  apply (subscription_that_does_not_arrive_keeps_loading "/subs/" "5"
           (λ _, None) pretty
           (Success (JObj [("detail", JStr "Not found.")]))).
  right. eexists. split; reflexivity.
Defined.

End SubscriptionMore.
